(** * Keithley 2450 I-V measurement: the controller logic of [main.py]

    A shallow embedding of [SMUController] (module [main]) and of the
    constants it reads from [config], of the connection helper
    [gpib_helper] and of the callbacks of the window in
    [interface_gui] that call the controller, followed by the
    properties of the sweep, of the configuration step, of the remote
    address change, of the connection and of the window.

    - Python [float] is IEEE 754 binary64; it is modelled by the
      Standard Library's [spec_float] with [prec = 53], [emax = 1024].
    - Python [int] is [Z].
    - The instrument is an external object: what it answers to a
      [write] or a [query] is a function of everything that happened on
      the session so far, and each call may raise.
    - Methods run in a state-and-exception monad over the [world]: the
      controller's attributes, the trace of external calls, and the
      schedule of abort requests coming from the caller's side. *)

From Stdlib Require Import ZArith List String Ascii Bool Lia Sorted.
From Stdlib Require Import SpecFloat.
Import ListNotations.

Local Open Scope string_scope.
Local Open Scope Z_scope.

(** ** Python floats *)

Definition float : Type := spec_float.

Module PyFloat.

Definition prec : Z := 53.
Definition emax : Z := 1024.

Definition add : float -> float -> float := SFadd prec emax.
Definition sub : float -> float -> float := SFsub prec emax.
Definition mul : float -> float -> float := SFmul prec emax.
Definition div : float -> float -> float := SFdiv prec emax.
Definition abs : float -> float := SFabs.

(** [a > b] *)
Definition gtb (a b : float) : bool := SFltb b a.
(** [a <= b] *)
Definition leb (a b : float) : bool := SFleb a b.

(** [x == 0.0], true of both signed zeros. *)
Definition is_zero (x : float) : bool :=
  match x with
  | S754_zero _ => true
  | _ => false
  end.

(** [float('inf')] *)
Definition inf : float := S754_infinity false.

(** The integer [z] rounded once, to nearest-even, into binary64; an
    infinite result is the case in which Python raises
    [OverflowError]. *)
Definition of_Z (z : Z) : float := binary_normalize prec emax z 0 false.

(** The integer [z] as an exact (unrounded) operand. *)
Definition exact_Z (z : Z) : float :=
  match z with
  | Z0 => S754_zero false
  | Zpos p => S754_finite false p 0
  | Zneg p => S754_finite true p 0
  end.

Definition is_inf (x : float) : bool :=
  match x with
  | S754_infinity _ => true
  | _ => false
  end.

(** Builtin [max(a, b)]: keeps [a] unless [b > a]. *)
Definition max (a b : float) : float := if gtb b a then b else a.

(** Small literals used in statements and examples. *)
Definition zero : float := S754_zero false.
Definition one : float := of_Z 1.
Definition minus_one : float := of_Z (-1).

End PyFloat.

(** ** config.py *)

Module config.

(** [SMALL_CURRENT_THRESHOLD = 1e-12]: the binary64 number nearest to
    10^-12, which is [4951760157141521 * 2^-92]
    ([0x1.19799812dea11p-40]). *)
Definition SMALL_CURRENT_THRESHOLD : float :=
  S754_finite false 4951760157141521 (-92).

(** [CSV_HEADER], each title as its UTF-8 bytes. *)
Definition CSV_HEADER : list string :=
  ["Voltage (V)"; "Current (A)"; "Resistance (Ω)"].

(** Status and error messages. *)
Definition MSG_CONNECTING : string := "Connecting...".
Definition MSG_CONNECTION_FAILED : string := "Connection Failed".
Definition MSG_MEASUREMENT_STARTED : string := "Measurement started...".
Definition MSG_MEASUREMENT_ABORTED : string := "Measurement aborted".
Definition ERR_GPIB_ADDRESS : string := "GPIB address must be an integer".
Definition ERR_NO_DATA : string := "No data to save".
Definition ERR_SAVE_FAILED : string := "Failed to save data to ".
Definition CONFIRM_QUIT_MEASUREMENT : string :=
  "A measurement is in progress. Do you really want to quit?".

End config.

(** ** Exceptions and outcomes *)

Inductive exn_class : Type :=
  | ValueError
  | ZeroDivisionError
  | OverflowError
  | AttributeError
  | VisaIOError.

Record exn : Type := mkExn { exn_kind : exn_class; exn_str : string }.

Definition exn_class_eqb (a b : exn_class) : bool :=
  match a, b with
  | ValueError, ValueError
  | ZeroDivisionError, ZeroDivisionError
  | OverflowError, OverflowError
  | AttributeError, AttributeError
  | VisaIOError, VisaIOError => true
  | _, _ => false
  end.

Inductive outcome (A : Type) : Type :=
  | Return (a : A)
  | Raise (e : exn).

Arguments Return {A} a.
Arguments Raise {A} e.

(** ** Arithmetic of the interpreter on mixed operands *)

Module PyNum.

(** [float(z)] as done implicitly for an [int] operand next to a
    [float]. *)
Definition float_of_int (z : Z) : outcome float :=
  let f := PyFloat.of_Z z in
  if PyFloat.is_inf f
  then Raise (mkExn OverflowError "int too large to convert to float")
  else Return f.

(** [a / b] on two floats. *)
Definition truediv (a b : float) : outcome float :=
  if PyFloat.is_zero b
  then Raise (mkExn ZeroDivisionError "float division by zero")
  else Return (PyFloat.div a b).

(** [a / n] with [a] a float and [n] an int. *)
Definition truediv_float_int (a : float) (n : Z) : outcome float :=
  match float_of_int n with
  | Raise e => Raise e
  | Return b => truediv a b
  end.

(** [n * a] with [n] an int and [a] a float. *)
Definition mul_int_float (n : Z) (a : float) : outcome float :=
  match float_of_int n with
  | Raise e => Raise e
  | Return b => Return (PyFloat.mul b a)
  end.

(** [a / b] on two ints: the exact quotient rounded once. *)
Definition truediv_int (a b : Z) : outcome float :=
  if Z.eqb b 0
  then Raise (mkExn ZeroDivisionError "division by zero")
  else
    let q := PyFloat.div (PyFloat.exact_Z a) (PyFloat.exact_Z b) in
    if PyFloat.is_inf q
    then Raise (mkExn OverflowError
                  "integer division result too large for a float")
    else Return q.

End PyNum.

(** ** What the controller takes from the Python runtime

    String parsing and formatting and [time.sleep] are used as given;
    every result below holds for any behaviour of them. *)

Class PyRuntime : Type := {
  (** [float(s)] *)
  py_float : string -> outcome float;
  (** [int(s)] *)
  py_int : string -> outcome Z;
  (** [s.upper()] *)
  str_upper : string -> string;
  (** [s.strip()] *)
  str_strip : string -> string;
  (** [f'{x}'] for a float *)
  fmt_float : float -> string;
  (** [f'{n}'] for an int *)
  fmt_int : Z -> string;
  (** [time.sleep(secs)]: [None] when it returns *)
  time_sleep : float -> option exn
}.

(** ** The session: instrument, trace, world *)

(** One external call made by the controller. *)
Inductive event : Type :=
  | Write (cmd : string)
  | Query (cmd : string)
  | Sleep (secs : float)
  | Progress (voltage current resistance progress : float).

(** The instrument object behind [self.instrument]. Both functions
    receive the trace so far, newest event first. *)
Record Instrument : Type := {
  on_write : list event -> string -> option exn;
  on_query : list event -> string -> outcome string
}.

(** The progress callback given to [perform_sweep]: [None] when it
    returns. *)
Definition callback_fn : Type :=
  list event -> float -> float -> float -> float -> option exn.

Record world : Type := mkWorld {
  (** [self.instrument] *)
  instrument : option Instrument;
  (** [self.measurement_running] *)
  measurement_running : bool;
  (** every external call so far, newest first *)
  trace : list event;
  (** [abort_requests i]: the caller's side runs [abort_measurement()]
      between the end of step [i - 1] and the flag test of step [i] *)
  abort_requests : nat -> bool
}.

Definition log (ev : event) (w : world) : world :=
  mkWorld (instrument w) (measurement_running w) (ev :: trace w)
          (abort_requests w).

Definition set_running (b : bool) (w : world) : world :=
  mkWorld (instrument w) b (trace w) (abort_requests w).

(** ** The monad *)

Definition M (A : Type) : Type := world -> outcome A * world.

Definition ret {A} (a : A) : M A := fun w => (Return a, w).

Definition bind {A B} (m : M A) (k : A -> M B) : M B :=
  fun w =>
    match m w with
    | (Return a, w') => k a w'
    | (Raise e, w') => (Raise e, w')
    end.

Definition raise {A} (e : exn) : M A := fun w => (Raise e, w).

(** A pure computation that may raise. *)
Definition lift {A} (o : outcome A) : M A := fun w => (o, w).

(** [try: m  except Exception as e: h e] *)
Definition try_except {A} (m : M A) (h : exn -> M A) : M A :=
  fun w =>
    match m w with
    | (Return a, w') => (Return a, w')
    | (Raise e, w') => h e w'
    end.

(** [try: m  except C as e: h e] for one exception class [C]. *)
Definition try_except_class {A} (c : exn_class) (m : M A) (h : exn -> M A)
  : M A :=
  fun w =>
    match m w with
    | (Return a, w') => (Return a, w')
    | (Raise e, w') =>
        if exn_class_eqb (exn_kind e) c then h e w' else (Raise e, w')
    end.

Declare Scope py_scope.
Delimit Scope py_scope with py.
Notation "x <- m ;; k" := (bind m (fun x => k))
  (at level 61, m at next level, right associativity) : py_scope.
Notation "m ;; k" := (bind m (fun _ => k))
  (at level 61, right associativity) : py_scope.
Local Open Scope py_scope.

Definition get_instrument : M (option Instrument) :=
  fun w => (Return (instrument w), w).

Definition get_running : M bool :=
  fun w => (Return (measurement_running w), w).

Definition put_running (b : bool) : M unit :=
  fun w => (Return tt, set_running b w).

(** [self.instrument.write(cmd)] *)
Definition instr_write (cmd : string) : M unit :=
  fun w =>
    match instrument w with
    | None =>
        (Raise (mkExn AttributeError
                  "'NoneType' object has no attribute 'write'"), w)
    | Some inst =>
        match on_write inst (trace w) cmd with
        | None => (Return tt, log (Write cmd) w)
        | Some e => (Raise e, log (Write cmd) w)
        end
    end.

(** [self.instrument.query(cmd)] *)
Definition instr_query (cmd : string) : M string :=
  fun w =>
    match instrument w with
    | None =>
        (Raise (mkExn AttributeError
                  "'NoneType' object has no attribute 'query'"), w)
    | Some inst => (on_query inst (trace w) cmd, log (Query cmd) w)
    end.

(** Truth value of [self.instrument]. *)
Definition truthy {A} (o : option A) : bool :=
  match o with
  | Some _ => true
  | None => false
  end.

Definition dquote : string := String (ascii_of_nat 34) EmptyString.

(** ** class SMUController *)

Section SMUController.

Context {rt : PyRuntime}.

(** [time.sleep(secs)] *)
Definition sleep (secs : float) : M unit :=
  fun w =>
    match time_sleep secs with
    | None => (Return tt, log (Sleep secs) w)
    | Some e => (Raise e, log (Sleep secs) w)
    end.

(** [callback(voltage, current, resistance, progress)] *)
Definition call (cb : callback_fn) (v c r p : float) : M unit :=
  fun w =>
    match cb (trace w) v c r p with
    | None => (Return tt, log (Progress v c r p) w)
    | Some e => (Raise e, log (Progress v c r p) w)
    end.

(** [start_output] *)
Definition start_output : M bool :=
  inst <- get_instrument ;;
  if truthy inst
  then instr_write "OUTP ON" ;; ret true
  else ret false.

(** [stop_output] *)
Definition stop_output : M bool :=
  inst <- get_instrument ;;
  if truthy inst
  then instr_write "OUTP OFF" ;; ret true
  else ret false.

(** Lines 169-172 of [measure_point]: the resistance of one reading. *)
Definition resistance_of (voltage current : float) : outcome float :=
  if PyFloat.gtb (PyFloat.abs current) config.SMALL_CURRENT_THRESHOLD
  then PyNum.truediv voltage current
  else Return PyFloat.inf.

(** [measure_point]: [Some (current, resistance)], or [None] for the
    pair [(None, None)]. *)
Definition measure_point (voltage : float) : M (option (float * float)) :=
  try_except
    (inst <- get_instrument ;;
     if negb (truthy inst) then ret None
     else
       instr_write ("SOUR:VOLT " ++ fmt_float voltage) ;;
       reply <- instr_query "MEAS:CURR?" ;;
       current <- lift (py_float reply) ;;
       resistance <- lift (resistance_of voltage current) ;;
       ret (Some (current, resistance)))
    (fun _ => ret None).

(** [abort_measurement] *)
Definition abort_measurement : M unit :=
  put_running false ;;
  stop_output ;;
  ret tt.

(** The caller's side between two steps: when an abort is scheduled
    before the flag test of step [i], [abort_measurement()] runs there.
    An exception it raises surfaces on the caller's side, not in the
    sweep. The schedule reaches the flag tests only: a request that
    arrives before line 203 is the subject of
    [perform_sweep_interleaved] further down. *)
Definition external_abort (i : nat) : M unit :=
  fun w =>
    if abort_requests w i
    then (Return tt, snd (abort_measurement w))
    else (Return tt, w).

(** The three lists [voltages], [currents], [resistances]. *)
Definition lists : Type := (list float * list float * list float)%type.

Definition voltages_of (ls : lists) : list float := fst (fst ls).
Definition currents_of (ls : lists) : list float := snd (fst ls).
Definition resistances_of (ls : lists) : list float := snd ls.

(** The three [append] calls of lines 220-222. *)
Definition append_point (ls : lists) (v c r : float) : lists :=
  ((voltages_of ls ++ [v])%list, (currents_of ls ++ [c])%list,
   (resistances_of ls ++ [r])%list).

(** How one pass through the loop body ends: [Next] for falling through
    or [continue], [Break] for [break]. *)
Inductive ctl : Type := Next | Break.

Section Sweep.

Variables (start_v : float) (steps : Z) (delay_time : float).
Variable callback : option callback_fn.
Variable voltage_step : float.

(** [start_v + (i * voltage_step)] *)
Definition voltage_at (i : nat) : outcome float :=
  match PyNum.mul_int_float (Z.of_nat i) voltage_step with
  | Raise e => Raise e
  | Return t => Return (PyFloat.add start_v t)
  end.

(** [100 * (i + 1) / steps] *)
Definition progress_at (i : nat) : outcome float :=
  PyNum.truediv_int (100 * (Z.of_nat i + 1)) steps.

(** Lines 228-230. *)
Definition report (i : nat) (voltage current resistance : float) : M unit :=
  match callback with
  | Some cb =>
      progress <- lift (progress_at i) ;;
      call cb voltage current resistance progress
  | None => ret tt
  end.

(** The body of the [for] loop, lines 207-230, at index [i]. *)
Definition sweep_body (i : nat) (ls : lists) : M (ctl * lists) :=
  external_abort i ;;
  running <- get_running ;;
  if negb running then ret (Break, ls)
  else
    voltage <- lift (voltage_at i) ;;
    m <- measure_point voltage ;;
    match m with
    | None => ret (Next, ls)
    | Some (current, resistance) =>
        let ls' := append_point ls voltage current resistance in
        sleep delay_time ;;
        report i voltage current resistance ;;
        ret (Next, ls')
    end.

(** [for i in idx: ...] *)
Fixpoint sweep_for (idx : list nat) (ls : lists) : M (ctl * lists) :=
  match idx with
  | [] => ret (Next, ls)
  | i :: rest =>
      r <- sweep_body i ls ;;
      match r with
      | (Break, ls') => ret (Break, ls')
      | (Next, ls') => sweep_for rest ls'
      end
  end.

End Sweep.

(** [range(steps)] *)
Definition range (steps : Z) : list nat := seq 0 (Z.to_nat steps).

(** [perform_sweep] *)
Definition perform_sweep (start_v stop_v : float) (steps : Z)
    (delay_time : float) (callback : option callback_fn) : M lists :=
  voltage_step <-
    lift (PyNum.truediv_float_int (PyFloat.sub stop_v start_v) (steps - 1)) ;;
  start_output ;;
  put_running true ;;
  r <- sweep_for start_v steps delay_time callback voltage_step
         (range steps) ([], [], []) ;;
  stop_output ;;
  put_running false ;;
  ret (snd r).

(** How the range selection of [setup_measurement] ends: the method
    goes on, or returns at once. *)
Inductive flow : Type := GoOn | ReturnNow (b : bool).

(** Lines 110-119. *)
Definition set_current_range (current_range : string) : M flow :=
  if String.eqb (str_upper current_range) "AUTO"
  then instr_write "SENS:CURR:RANG:AUTO ON" ;; ret GoOn
  else
    try_except_class ValueError
      (current_range_val <- lift (py_float current_range) ;;
       instr_write ("SENS:CURR:RANG " ++ fmt_float current_range_val) ;;
       ret GoOn)
      (fun _ =>
         instr_write "SENS:CURR:RANG:AUTO ON" ;;
         ret (ReturnNow false)).

(** [setup_measurement] *)
Definition setup_measurement (start_v stop_v current_limit : float)
    (current_range : string) : M bool :=
  try_except
    (inst <- get_instrument ;;
     if negb (truthy inst) then ret false
     else
       instr_write "ROUT:TERM REAR" ;;
       instr_write "SOUR:FUNC VOLT" ;;
       let max_voltage :=
         PyFloat.max (PyFloat.abs start_v) (PyFloat.abs stop_v) in
       instr_write ("SOUR:VOLT:RANG " ++ fmt_float max_voltage) ;;
       instr_write ("SOUR:VOLT:ILIM " ++ fmt_float current_limit) ;;
       instr_write ("SENS:FUNC " ++ dquote ++ "CURR" ++ dquote) ;;
       f <- set_current_range current_range ;;
       match f with
       | ReturnNow b => ret b
       | GoOn =>
           instr_write "SENS:CURR:NPLC 1" ;;
           instr_write "SOUR:VOLT:READ ON" ;;
           ret true
       end)
    (fun _ =>
       inst <- get_instrument ;;
       (if truthy inst then instr_write "OUTP OFF" else ret tt) ;;
       ret false).

(** Messages of [set_gpib_address]. *)
Definition msg_not_connected : string := "Not connected to any instrument".
Definition msg_out_of_range : string :=
  "GPIB address must be between 0 and 30".
Definition msg_changed (current_address : option Z) (new_address : Z)
  : string :=
  "GPIB address successfully changed from "
  ++ match current_address with
     | Some n => fmt_int n
     | None => "unknown"
     end
  ++ " to " ++ fmt_int new_address
  ++ ". The change will take effect after instrument reset or power cycle.".
Definition msg_mismatch (verified_address : Z) : string :=
  "GPIB address change verification failed. Current address: "
  ++ fmt_int verified_address.
Definition msg_unverified (e : exn) : string :=
  "GPIB address command sent successfully, but verification failed: "
  ++ exn_str e ++ ". Please check the instrument after reset.".
Definition msg_error (e : exn) : string :=
  "Error changing GPIB address: " ++ exn_str e.

(** [int(self.instrument.query(cmd).strip())] *)
Definition query_int (cmd : string) : M Z :=
  reply <- instr_query cmd ;;
  lift (py_int (str_strip reply)).

(** Lines 284-294: the address before the change, [None] for
    ["unknown"]. *)
Definition read_current_address : M (option Z) :=
  try_except
    (n <- query_int "print(gpib.address)" ;; ret (Some n))
    (fun _ =>
       try_except
         (n <- query_int ":SYSTem:GPIB:ADDRess?" ;; ret (Some n))
         (fun _ => ret None)).

(** [set_gpib_address] *)
Definition set_gpib_address (new_address : Z) : M (bool * string) :=
  inst <- get_instrument ;;
  if negb (truthy inst) then ret (false, msg_not_connected)
  else
    try_except
      (if negb ((0 <=? new_address)%Z && (new_address <=? 30)%Z)
       then ret (false, msg_out_of_range)
       else
         current_address <- read_current_address ;;
         instr_write (":SYSTem:GPIB:ADDRess " ++ fmt_int new_address) ;;
         try_except
           (verified_address <- query_int "print(gpib.address)" ;;
            if (verified_address =? new_address)%Z
            then ret (true, msg_changed current_address new_address)
            else ret (false, msg_mismatch verified_address))
           (fun e => ret (true, msg_unverified e)))
      (fun e => ret (false, msg_error e)).

End SMUController.

(** [save_data_to_csv], lines 344-345: the data rows written, one per
    element of [zip(voltages, currents, resistances)]. *)
Definition save_data_to_csv_rows (ls : lists) : list (float * float * float) :=
  combine (combine (voltages_of ls) (currents_of ls)) (resistances_of ls).

(** ** A concrete runtime and concrete instruments

    Used for the runs evaluated below. The runtime agrees with Python
    on the strings and numbers that occur in those runs. *)

Module Demo.

(** [0.01], [0.1] and [100.0] in binary64. *)
Definition f0_01 : float := S754_finite false 5764607523034235 (-59).
Definition f0_1 : float := S754_finite false 7205759403792794 (-56).
Definition f100 : float := S754_finite false 7036874417766400 (-46).
Definition fm100 : float := S754_finite true 7036874417766400 (-46).
(** [100 / 3] and [200 / 3] in binary64. *)
Definition f33 : float := S754_finite false 4691249611844267 (-47).
Definition f66 : float := S754_finite false 4691249611844267 (-46).

Definition upper_ascii (c : ascii) : ascii :=
  let n := nat_of_ascii c in
  if ((97 <=? n) && (n <=? 122))%nat then ascii_of_nat (n - 32) else c.

Fixpoint upper (s : string) : string :=
  match s with
  | EmptyString => EmptyString
  | String c rest => String (upper_ascii c) (upper rest)
  end.

Definition is_space (c : ascii) : bool :=
  let n := nat_of_ascii c in
  ((n =? 32) || ((9 <=? n) && (n <=? 13)))%nat.

Fixpoint lstrip (s : string) : string :=
  match s with
  | EmptyString => EmptyString
  | String c rest => if is_space c then lstrip rest else s
  end.

Fixpoint rev_string (s acc : string) : string :=
  match s with
  | EmptyString => acc
  | String c rest => rev_string rest (String c acc)
  end.

Definition strip (s : string) : string :=
  rev_string (lstrip (rev_string (lstrip s) EmptyString)) EmptyString.

Fixpoint digits (s : string) (acc : Z) : option Z :=
  match s with
  | EmptyString => Some acc
  | String c rest =>
      let n := nat_of_ascii c in
      if ((48 <=? n) && (n <=? 57))%nat
      then digits rest (10 * acc + Z.of_nat (n - 48))
      else None
  end.

Definition bad_literal (what s : string) : exn :=
  mkExn ValueError ("invalid literal for " ++ what ++ ": " ++ s).

(** [int(s)] on an optional minus sign followed by decimal digits. *)
Definition parse_int (s : string) : outcome Z :=
  match strip s with
  | EmptyString => Raise (bad_literal "int()" s)
  | String "-" rest =>
      match rest, digits rest 0 with
      | String _ _, Some n => Return (- n)
      | _, _ => Raise (bad_literal "int()" s)
      end
  | t =>
      match digits t 0 with
      | Some n => Return n
      | None => Raise (bad_literal "int()" s)
      end
  end.

(** [float(s)] on the literals that occur below. *)
Definition parse_float (s : string) : outcome float :=
  if String.eqb s "0.01" then Return f0_01
  else if String.eqb s "0.1" then Return f0_1
  else if String.eqb s "0" then Return PyFloat.zero
  else if String.eqb s "1" then Return PyFloat.one
  else Raise (bad_literal "float()" s).

Fixpoint digit_string (fuel : nat) (n : Z) (acc : string) : string :=
  match fuel with
  | O => acc
  | S fuel' =>
      let acc' := String (ascii_of_nat (48 + Z.to_nat (n mod 10))) acc in
      if n <? 10 then acc' else digit_string fuel' (n / 10) acc'
  end.

(** Decimal digits of an int. *)
Definition show_int (n : Z) : string :=
  if n <? 0
  then "-" ++ digit_string (S (Z.to_nat (Z.log2 (- n)))) (- n) EmptyString
  else digit_string (S (Z.to_nat (Z.log2 n))) n EmptyString.

(** [repr] of the floats that a run below sends. *)
Definition show_float (x : float) : string :=
  match SFcompare x PyFloat.zero with
  | Some Eq => "0.0"
  | Some Lt => if SFeqb x PyFloat.minus_one then "-1.0" else "-x"
  | Some Gt => if SFeqb x PyFloat.one then "1.0"
               else if SFeqb x f0_1 then "0.1" else "x"
  | None => "nan"
  end.

(** [time.sleep]: a negative length is refused. *)
Definition sleep_ok (secs : float) : option exn :=
  if SFltb secs PyFloat.zero
  then Some (mkExn ValueError "sleep length must be non-negative")
  else None.

#[export] Instance runtime : PyRuntime := {|
  py_float := parse_float;
  py_int := parse_int;
  str_upper := upper;
  str_strip := strip;
  fmt_float := show_float;
  fmt_int := show_int;
  time_sleep := sleep_ok
|}.

Definition io_error : exn := mkExn VisaIOError "VI_ERROR_TMO".

(** Accepts every command; answers every query with [reply]. *)
Definition steady (reply : string) : Instrument := {|
  on_write := fun _ _ => None;
  on_query := fun _ _ => Return reply
|}.

(** Refuses every command. *)
Definition dead : Instrument := {|
  on_write := fun _ _ => Some io_error;
  on_query := fun _ _ => Raise io_error
|}.

(** Accepts every write; every query times out. *)
Definition mute : Instrument := {|
  on_write := fun _ _ => None;
  on_query := fun _ _ => Raise io_error
|}.

Definition is_query (ev : event) : bool :=
  match ev with
  | Query _ => true
  | _ => false
  end.

(** Accepts every write and answers ["0.01"], except that the second
    query of the session times out. *)
Definition flaky : Instrument := {|
  on_write := fun _ _ => None;
  on_query := fun tr _ =>
    if (List.length (filter is_query tr) =? 1)%nat
    then Raise io_error
    else Return "0.01"
|}.

(** A connected controller before any call, nobody aborting. *)
Definition connected (inst : Instrument) : world :=
  mkWorld (Some inst) false [] (fun _ => false).

(** A callback that always returns. *)
Definition quiet : callback_fn := fun _ _ _ _ _ => None.

(** Refuses every write except ["OUTP OFF"]. *)
Definition picky : Instrument := {|
  on_write := fun _ cmd =>
    if String.eqb cmd "OUTP OFF" then None else Some io_error;
  on_query := fun _ _ => Raise io_error
|}.

(** A connected controller before any call, with one abort request
    coming in before the flag test of step [k]. *)
Definition connected_aborting (inst : Instrument) (k : nat) : world :=
  mkWorld (Some inst) false [] (fun i => Nat.eqb i k).

End Demo.

(** ** Predicates used in the statements *)

(** The instrument object and the schedule of abort requests are the
    same in both worlds. *)
Definition same_session (w w' : world) : Prop :=
  instrument w' = instrument w /\ abort_requests w' = abort_requests w.

(** A computation that leaves both in place, however it ends. *)
Definition stable {A} (m : M A) : Prop :=
  forall w, same_session w (snd (m w)).

(** The commands that switch the output. *)
Definition affects_output (ev : event) : bool :=
  match ev with
  | Write cmd => String.eqb cmd "OUTP ON" || String.eqb cmd "OUTP OFF"
  | _ => false
  end.

(** The most recent command of a trace that switched the output. *)
Definition last_output_command (tr : list event) : option event :=
  hd_error (filter affects_output tr).

(** The instrument accepts every write. *)
Definition accepts_writes (inst : Instrument) : Prop :=
  forall tr cmd, on_write inst tr cmd = None.

(** The three lists have one length. *)
Definition balanced (ls : lists) : Prop :=
  List.length (voltages_of ls) = List.length (currents_of ls)
  /\ List.length (currents_of ls) = List.length (resistances_of ls).

(** A computation that neither reads nor writes the running flag: it
    does the same whether the flag is lowered before or after it. *)
Definition flag_blind {A} (m : M A) : Prop :=
  forall b w, m (set_running b w) = (fst (m w), set_running b (snd (m w))).

(** The calls of the progress callback recorded in a trace, newest
    first. *)
Definition is_progress (ev : event) : bool :=
  match ev with
  | Progress _ _ _ _ => true
  | _ => false
  end.

Definition progress_events (tr : list event) : list event :=
  filter is_progress tr.

(** A computation that never calls the progress callback. *)
Definition silent {A} (m : M A) : Prop :=
  forall w,
    progress_events (trace (snd (m w))) = progress_events (trace w).

(** A computation that issues no command switching the output. *)
Definition keeps_output {A} (m : M A) : Prop :=
  forall w,
    filter affects_output (trace (snd (m w)))
    = filter affects_output (trace w).

(** The lists [ls'] are the lists [ls] followed by [points]: every
    point adds one element to each of the three lists. *)
Definition extended_by (ls : lists) (points : list (float * float * float))
    (ls' : lists) : Prop :=
  voltages_of ls' = (voltages_of ls ++ map (fun p => fst (fst p)) points)%list
  /\ currents_of ls'
     = (currents_of ls ++ map (fun p => snd (fst p)) points)%list
  /\ resistances_of ls' = (resistances_of ls ++ map snd points)%list.

(** The point [p] was measured: its voltage is that of an index of the
    sweep, and [measure_point] returned its current and resistance at
    this voltage. *)
Definition measured_point {rt : PyRuntime} (start_v voltage_step : float)
    (p : float * float * float) : Prop :=
  exists i w0 w1,
    voltage_at start_v voltage_step i = Return (fst (fst p))
    /\ measure_point (fst (fst p)) w0
       = (Return (Some (snd (fst p), snd p)), w1).

(** A computation that only adds to the trace. *)
Definition extends {A} (m : M A) : Prop :=
  forall w, exists new, trace (snd (m w)) = (new ++ trace w)%list.

(** A number that is neither an infinity nor a NaN. *)
Definition is_finite (x : float) : bool :=
  match x with
  | S754_zero _ | S754_finite _ _ _ => true
  | S754_infinity _ | S754_nan => false
  end.

(** The command by which [setup_measurement] selects the range, when
    the requested range is accepted: auto-range, or the parsed
    number. *)
Definition range_command_sent {rt : PyRuntime} (current_range cmd : string)
  : Prop :=
  (String.eqb (str_upper current_range) "AUTO" = true
   /\ cmd = "SENS:CURR:RANG:AUTO ON")
  \/ (String.eqb (str_upper current_range) "AUTO" = false
      /\ exists x, py_float current_range = Return x
                   /\ cmd = "SENS:CURR:RANG " ++ fmt_float x).

(** ** [SMUController.close] *)

Definition set_instrument (o : option Instrument) (w : world) : world :=
  mkWorld o (measurement_running w) (trace w) (abort_requests w).

(** [self.instrument = o] *)
Definition put_instrument (o : option Instrument) : M unit :=
  fun w => (Return tt, set_instrument o w).

Section Close.

(** The [close()] of the handle itself: from the trace so far, [None]
    when it returns and the exception when it raises. *)
Variable handle_close : list event -> option exn.

(** [self.instrument.close()] *)
Definition instr_close : M unit :=
  fun w =>
    match instrument w with
    | None =>
        (Raise (mkExn AttributeError
                  "'NoneType' object has no attribute 'close'"), w)
    | Some _ =>
        match handle_close (trace w) with
        | None => (Return tt, w)
        | Some e => (Raise e, w)
        end
    end.

(** [close] *)
Definition close : M bool :=
  inst <- get_instrument ;;
  if truthy inst
  then
    try_except
      (stop_output ;;
       instr_close ;;
       put_instrument None ;;
       ret true)
      (fun _ => ret false)
  else ret true.

End Close.

(** ** [save_data_to_csv] *)

(** One field handed to the CSV writer. *)
Inductive cell : Type :=
  | Text (s : string)
  | Number (x : float).

(** The file system as the function meets it. Each call may raise;
    [None] stands for a call that returns. *)
Record FileSystem : Type := {
  (** [open(filename, 'w', newline='')] *)
  fs_open : string -> option exn;
  (** [writer.writerow(row)] on a file that holds [written] so far *)
  fs_writerow : string -> list (list cell) -> list cell -> option exn;
  (** leaving the [with] block *)
  fs_close : string -> list (list cell) -> option exn
}.

(** The [writerow] calls, one after the other: the exception that
    stopped them, if any, and the rows the file holds. *)
Fixpoint write_rows (fs : FileSystem) (filename : string)
    (written rows : list (list cell)) : option exn * list (list cell) :=
  match rows with
  | [] => (None, written)
  | row :: rest =>
      match fs_writerow fs filename written row with
      | Some e => (Some e, written)
      | None => write_rows fs filename (written ++ [row])%list rest
      end
  end.

(** The rows that [save_data_to_csv] sets out to write. *)
Definition csv_content (voltages currents resistances : list float)
    (header : option (list string)) : list (list cell) :=
  map Text match header with
           | None => config.CSV_HEADER
           | Some h => h
           end
  :: map (fun row => [Number (fst (fst row)); Number (snd (fst row));
                      Number (snd row)])
       (save_data_to_csv_rows (voltages, currents, resistances)).

(** [save_data_to_csv]: the flag returned, and the rows in the file
    when it was opened ([None] when the file could not be opened). *)
Definition save_data_to_csv (fs : FileSystem) (filename : string)
    (voltages currents resistances : list float)
    (header : option (list string)) : bool * option (list (list cell)) :=
  match fs_open fs filename with
  | Some _ => (false, None)
  | None =>
      match
        write_rows fs filename []
          (csv_content voltages currents resistances header)
      with
      | (Some _, written) => (false, Some written)
      | (None, written) =>
          match fs_close fs filename written with
          | Some _ => (false, Some written)
          | None => (true, Some written)
          end
      end
  end.

(** ** [SMUController.connect_to_instrument] *)

(** The exceptions that matter on the connection path: those of the
    kinds above, and three more that this path raises or filters on. *)
Inductive py_exception : Type :=
  | Known (e : exn)
  | ImportError (msg : string)
  | IndexError (msg : string)
  | PlainException (msg : string).

(** [str(e)] *)
Definition str_exception (e : py_exception) : string :=
  match e with
  | Known e => exn_str e
  | ImportError msg | IndexError msg | PlainException msg => msg
  end.

Definition is_import_error (e : py_exception) : bool :=
  match e with
  | ImportError _ => true
  | _ => false
  end.

Inductive result (A : Type) : Type :=
  | Ok (a : A)
  | Err (e : py_exception).

Arguments Ok {A} a.
Arguments Err {A} e.

(** Computations of the connection path. *)
Definition C (A : Type) : Type := world -> result A * world.

Definition cret {A} (a : A) : C A := fun w => (Ok a, w).

Definition cbind {A B} (m : C A) (k : A -> C B) : C B :=
  fun w =>
    match m w with
    | (Ok a, w') => k a w'
    | (Err e, w') => (Err e, w')
    end.

Definition craise {A} (e : py_exception) : C A := fun w => (Err e, w).

(** A method of the controller, run on the connection path. *)
Definition of_M {A} (m : M A) : C A :=
  fun w =>
    match m w with
    | (Return a, w') => (Ok a, w')
    | (Raise e, w') => (Err (Known e), w')
    end.

(** [try: m  except Exception as e: h e] *)
Definition ctry {A} (m : C A) (h : py_exception -> C A) : C A :=
  fun w =>
    match m w with
    | (Ok a, w') => (Ok a, w')
    | (Err e, w') => h e w'
    end.

(** [try: m  except ImportError: h] *)
Definition ctry_import {A} (m : C A) (h : C A) : C A :=
  fun w =>
    match m w with
    | (Ok a, w') => (Ok a, w')
    | (Err e, w') => if is_import_error e then h w' else (Err e, w')
    end.

(** A block either falls through or has executed [return r]. *)
Inductive early (R : Type) : Type :=
  | FallThrough
  | Returned (r : R).

Arguments FallThrough {R}.
Arguments Returned {R} r.

(** [needle in hay] on strings. *)
Fixpoint contains (needle hay : string) : bool :=
  if String.prefix needle hay then true
  else
    match hay with
    | EmptyString => false
    | String _ rest => contains needle rest
    end.

(** [s.split(sep)] for a separator of one character. *)
Fixpoint split_on (sep : ascii) (s : string) : list string :=
  match s with
  | EmptyString => [EmptyString]
  | String c rest =>
      if Ascii.eqb c sep then EmptyString :: split_on sep rest
      else
        match split_on sep rest with
        | field :: fields => String c field :: fields
        | [] => [String c EmptyString]
        end
  end.

Definition newline : string := String (ascii_of_nat 10) EmptyString.

(** What opens an instrument, as [connect_to_instrument] meets it. *)
Record Backends : Type := {
  (** [import gpib_helper] followed by
      [gpib_helper.connect_to_instrument_safely(gpib_addr)]: the pair
      [(instrument, error)], each [None] or a value *)
  via_helper : Z -> C (option Instrument * option string);
  (** [pyvisa.ResourceManager().open_resource(name)], from the trace so
      far *)
  open_default : list event -> string -> outcome Instrument;
  (** [pyvisa.ResourceManager('@py').open_resource(name)] *)
  open_py : list event -> string -> outcome Instrument
}.

Section Connect.

Context {rt : PyRuntime}.
Variable backends : Backends.

(** Truth value of [error], which is [None] or a string. *)
Definition nonempty (error : option string) : bool :=
  match error with
  | Some (String _ _) => true
  | _ => false
  end.

(** The string in [error]. *)
Definition text_of (error : option string) : string :=
  match error with
  | Some s => s
  | None => EmptyString
  end.

(** [rm = pyvisa.ResourceManager(...)] and
    [self.instrument = rm.open_resource(f'GPIB0::{gpib_addr}::INSTR')],
    for one of the two backends. *)
Definition open_with (opener : list event -> string -> outcome Instrument)
    (gpib_addr : Z) : C unit :=
  fun w =>
    match opener (trace w) ("GPIB0::" ++ fmt_int gpib_addr ++ "::INSTR") with
    | Return inst => (Ok tt, set_instrument (Some inst) w)
    | Raise e => (Err (Known e), w)
    end.

(** Lines 40-48: the connection through the helper module. *)
Definition connect_via_helper (gpib_addr : Z) : C (early (bool * string)) :=
  cbind (via_helper backends gpib_addr) (fun found =>
    match fst found with
    | Some inst =>
        cbind (of_M (put_instrument (Some inst))) (fun _ =>
        cbind (of_M (instr_query "*IDN?")) (fun reply =>
        cret (Returned (true, "Connected to " ++ str_strip reply))))
    | None =>
        if nonempty (snd found)
        then craise (PlainException (text_of (snd found)))
        else cret FallThrough
    end).

(** Lines 49-61: the two standard backends, one after the other. *)
Definition connect_standard (gpib_addr : Z) : C (early (bool * string)) :=
  ctry
    (cbind (open_with (open_default backends) gpib_addr) (fun _ =>
     cret FallThrough))
    (fun e1 =>
       ctry
         (cbind (open_with (open_py backends) gpib_addr) (fun _ =>
          cret FallThrough))
         (fun e2 =>
            cret (Returned
                    (false,
                     "Failed to connect with all methods:" ++ newline
                     ++ "1. " ++ str_exception e1 ++ newline
                     ++ "2. " ++ str_exception e2)))).

(** Lines 63-72: reset, clear, identify. *)
Definition reset_and_identify : C (bool * string) :=
  cbind (of_M (instr_write "*RST")) (fun _ =>
  cbind (of_M (instr_write "*CLS")) (fun _ =>
  cbind (of_M (instr_query "*IDN?")) (fun reply =>
  let idn := str_strip reply in
  if negb (contains "MODEL 2450" (str_upper idn))
  then cret (true,
             "Warning: Connected to " ++ idn
             ++ ", which may not be a Keithley 2450 SMU")
  else
    match nth_error (split_on "," idn) 1 with
    | Some field => cret (true, "Connected to " ++ field)
    | None => craise (IndexError "list index out of range")
    end))).

(** [connect_to_instrument] *)
Definition connect_to_instrument (gpib_addr : Z) : C (bool * string) :=
  ctry
    (cbind
       (ctry_import (connect_via_helper gpib_addr)
                    (connect_standard gpib_addr))
       (fun r =>
          match r with
          | Returned answer => cret answer
          | FallThrough => reset_and_identify
          end))
    (fun e => cret (false, "Connection error: " ++ str_exception e)).

End Connect.

(** ** gpib_helper.py *)

Module gpib_helper.

(** The argument of [pyvisa.ResourceManager]: none, [None], or a
    library name. *)
Inductive manager_arg : Type :=
  | NoArgument
  | PyNone
  | Library (name : string).

(** One call into the platform: [pyvisa], the import system, the
    clock. *)
Inductive probe : Type :=
  | NewManager (arg : manager_arg)
  | OpenResource (name : string)
  | ListResources
  | Import (module : string)
  | Wait (secs : Z).

(** A resource manager object. Its methods receive the probes so far,
    newest first. *)
Record Manager : Type := {
  rm_open_resource : list probe -> string -> outcome Instrument;
  rm_list_resources : list probe -> outcome (list string);
  (** [f'{rm.visalib}'] *)
  rm_visalib : string
}.

Record Platform : Type := {
  (** [pyvisa.ResourceManager(arg)] *)
  new_manager : list probe -> manager_arg -> outcome Manager;
  (** [import module] inside a function: [None] when it succeeds *)
  import_module : list probe -> string -> option py_exception;
  (** [pyvisa.__version__] and [pyvisa_py.__version__] *)
  pyvisa_version : string;
  pyvisa_py_version : string;
  (** [f'{resources}'] for the tuple that [list_resources] returns *)
  fmt_resources : list string -> string
}.

(** What the helper acts on: standard output, the platform, and the
    instrument calls; each newest first. *)
Record host : Type := mkHost {
  stdout : list string;
  probes : list probe;
  wire : list event
}.

Definition G (A : Type) : Type := host -> result A * host.

Definition gret {A} (a : A) : G A := fun h => (Ok a, h).

Definition gbind {A B} (m : G A) (k : A -> G B) : G B :=
  fun h =>
    match m h with
    | (Ok a, h') => k a h'
    | (Err e, h') => (Err e, h')
    end.

(** [try: m  except Exception as e: handler e] *)
Definition gtry {A} (m : G A) (handler : py_exception -> G A) : G A :=
  fun h =>
    match m h with
    | (Ok a, h') => (Ok a, h')
    | (Err e, h') => handler e h'
    end.

(** [try: m  except ImportError: handler] *)
Definition gtry_import {A} (m : G A) (handler : G A) : G A :=
  fun h =>
    match m h with
    | (Ok a, h') => (Ok a, h')
    | (Err e, h') => if is_import_error e then handler h' else (Err e, h')
    end.

Declare Scope helper_scope.
Delimit Scope helper_scope with helper.
Notation "x <- m ;; k" := (gbind m (fun x => k))
  (at level 61, m at next level, right associativity) : helper_scope.
Notation "m ;; k" := (gbind m (fun _ => k))
  (at level 61, right associativity) : helper_scope.
Local Open Scope helper_scope.

(** [print(s)] *)
Definition print (s : string) : G unit :=
  fun h => (Ok tt, mkHost (s :: stdout h) (probes h) (wire h)).

Definition probed (p : probe) (h : host) : host :=
  mkHost (stdout h) (p :: probes h) (wire h).

(** [time.sleep(2)] *)
Definition sleep_2 : G unit := fun h => (Ok tt, probed (Wait 2) h).

Section Helper.

Context {rt : PyRuntime}.
Variable platform : Platform.

(** [pyvisa.ResourceManager(arg)] *)
Definition resource_manager (arg : manager_arg) : G Manager :=
  fun h =>
    match new_manager platform (probes h) arg with
    | Return rm => (Ok rm, probed (NewManager arg) h)
    | Raise e => (Err (Known e), probed (NewManager arg) h)
    end.

(** [rm.open_resource(name)] *)
Definition open_resource (rm : Manager) (name : string) : G Instrument :=
  fun h =>
    match rm_open_resource rm (probes h) name with
    | Return inst => (Ok inst, probed (OpenResource name) h)
    | Raise e => (Err (Known e), probed (OpenResource name) h)
    end.

(** [rm.list_resources()] *)
Definition list_resources (rm : Manager) : G (list string) :=
  fun h =>
    match rm_list_resources rm (probes h) with
    | Return names => (Ok names, probed ListResources h)
    | Raise e => (Err (Known e), probed ListResources h)
    end.

(** [import module] *)
Definition import (module : string) : G unit :=
  fun h =>
    match import_module platform (probes h) module with
    | None => (Ok tt, probed (Import module) h)
    | Some e => (Err e, probed (Import module) h)
    end.

(** [instrument.query(cmd)] on an instrument object *)
Definition query (inst : Instrument) (cmd : string) : G string :=
  fun h =>
    (match on_query inst (wire h) cmd with
     | Return reply => Ok reply
     | Raise e => Err (Known e)
     end,
     mkHost (stdout h) (probes h) (Query cmd :: wire h)).

(** [get_resource_manager] *)
Definition get_resource_manager (visa_library : manager_arg)
  : G (option Manager) :=
  gtry
    (rm <- resource_manager visa_library ;; gret (Some rm))
    (fun e =>
       print ("Error creating ResourceManager: " ++ str_exception e) ;;
       gtry
         (rm <- resource_manager (Library "@py") ;; gret (Some rm))
         (fun e =>
            print ("Error creating ResourceManager with @py backend: "
                   ++ str_exception e) ;;
            gret None)).

(** The four resource strings of lines 53-58. *)
Definition resource_formats (gpib_address : Z) : list string :=
  [ "GPIB0::" ++ fmt_int gpib_address ++ "::INSTR";
    "GPIB::" ++ fmt_int gpib_address ++ "::INSTR";
    "GPIB" ++ fmt_int gpib_address;
    "GPIB::" ++ fmt_int gpib_address ].

(** Lines 53-65: [for resource_format in [...]]. *)
Fixpoint try_formats (rm : Manager) (formats : list string)
  : G (early Instrument) :=
  match formats with
  | [] => gret FallThrough
  | resource_format :: rest =>
      r <- gtry
             (print ("Trying resource string: " ++ resource_format) ;;
              instrument <- open_resource rm resource_format ;;
              print ("Successfully connected with resource string: "
                     ++ resource_format) ;;
              gret (Returned instrument))
             (fun e =>
                print ("  - Failed with format " ++ resource_format
                       ++ ": " ++ str_exception e) ;;
                gret FallThrough) ;;
      match r with
      | Returned instrument => gret (Returned instrument)
      | FallThrough => try_formats rm rest
      end
  end.

(** Lines 76-83: [for resource in resources]. *)
Fixpoint try_resources (rm_py : Manager) (address : string)
    (resources : list string) : G (early Instrument) :=
  match resources with
  | [] => gret FallThrough
  | resource :: rest =>
      if contains address resource
      then
        r <- gtry
               (instrument <- open_resource rm_py resource ;;
                print ("Successfully connected with resource: "
                       ++ resource) ;;
                gret (Returned instrument))
               (fun e =>
                  print ("  - Failed to connect to " ++ resource ++ ": "
                         ++ str_exception e) ;;
                  gret FallThrough) ;;
        match r with
        | Returned instrument => gret (Returned instrument)
        | FallThrough => try_resources rm_py address rest
        end
      else try_resources rm_py address rest
  end.

(** Lines 49-67: the standard resource manager. *)
Definition try_standard (gpib_address : Z) : G (early Instrument) :=
  gtry
    (rm <- get_resource_manager PyNone ;;
     match rm with
     | Some rm => try_formats rm (resource_formats gpib_address)
     | None => gret FallThrough
     end)
    (fun e =>
       print ("Failed to create connection with ResourceManager: "
              ++ str_exception e) ;;
       gret FallThrough).

(** Lines 69-85: the PyVISA-py backend. *)
Definition try_pyvisa_py (gpib_address : Z) : G (early Instrument) :=
  gtry
    (rm_py <- get_resource_manager (Library "@py") ;;
     match rm_py with
     | Some rm_py =>
         resources <- list_resources rm_py ;;
         print ("Resources detected by PyVISA-py: "
                ++ fmt_resources platform resources) ;;
         try_resources rm_py (fmt_int gpib_address) resources
     | None => gret FallThrough
     end)
    (fun e =>
       print ("Error when trying with PyVISA-py: " ++ str_exception e) ;;
       gret FallThrough).

(** [for attempt in idx: ...], lines 45-89. *)
Fixpoint attempts_loop (gpib_address attempts : Z) (idx : list nat)
  : G (early Instrument) :=
  match idx with
  | [] => gret FallThrough
  | attempt :: rest =>
      print ("Attempting to connect to instrument (attempt "
             ++ fmt_int (Z.of_nat attempt + 1) ++ "/" ++ fmt_int attempts
             ++ ")...") ;;
      r <- try_standard gpib_address ;;
      match r with
      | Returned instrument => gret (Returned instrument)
      | FallThrough =>
          r <- try_pyvisa_py gpib_address ;;
          match r with
          | Returned instrument => gret (Returned instrument)
          | FallThrough =>
              (if Z.of_nat attempt <? attempts - 1
               then
                 print ("Connection attempt failed. "
                        ++ "Trying again in 2 seconds...") ;;
                 sleep_2
               else gret tt) ;;
              attempts_loop gpib_address attempts rest
          end
      end
  end.

(** [get_instrument_connection] *)
Definition get_instrument_connection (gpib_address attempts : Z)
  : G (option Instrument) :=
  r <- attempts_loop gpib_address attempts (range attempts) ;;
  match r with
  | Returned instrument => gret (Some instrument)
  | FallThrough =>
      print "All connection attempts failed." ;;
      gret None
  end.

(** [result[key] = True] *)
Fixpoint set_true (key : string) (result : list (string * bool))
  : list (string * bool) :=
  match result with
  | [] => [(key, true)]
  | (k, v) :: rest =>
      if String.eqb k key then (k, true) :: rest
      else (k, v) :: set_true key rest
  end.

(** Lines 128-158: one optional library. *)
Definition check_library (module key found missing : string)
    (result : list (string * bool)) : G (list (string * bool)) :=
  gtry_import
    (import module ;;
     print found ;;
     gret (set_true key result))
    (print missing ;; gret result).

(** [check_gpib_libraries] *)
Definition check_gpib_libraries : G (list (string * bool)) :=
  let result :=
    [("pyvisa", false); ("pyvisa-py", false); ("gpib-ctypes", false);
     ("pyusb", false); ("vxi11", false); ("ni-visa", false)] in
  result <-
    gtry_import
      (import "pyvisa" ;;
       print ("PyVISA detected, version: " ++ pyvisa_version platform) ;;
       gtry
         (rm <- resource_manager NoArgument ;;
          print ("NI-VISA detected, path: " ++ rm_visalib rm) ;;
          gret (set_true "ni-visa" (set_true "pyvisa" result)))
         (fun _ =>
            print "NI-VISA not detected or cannot be accessed" ;;
            gret (set_true "pyvisa" result)))
      (print "PyVISA not installed" ;; gret result) ;;
  result <-
    check_library "pyvisa_py" "pyvisa-py"
      ("PyVISA-py detected, version: " ++ pyvisa_py_version platform)
      "PyVISA-py not installed" result ;;
  result <-
    check_library "gpib_ctypes" "gpib-ctypes"
      "gpib-ctypes detected" "gpib-ctypes not installed" result ;;
  result <-
    check_library "usb.core" "pyusb"
      "pyusb detected" "pyusb not installed" result ;;
  check_library "vxi11" "vxi11"
    "python-vxi11 detected" "python-vxi11 not installed" result.

(** [connect_to_instrument_safely]: the pair [(instrument, error)]. *)
Definition connect_to_instrument_safely (gpib_address : Z)
  : G (option Instrument * option string) :=
  print "Checking available GPIB libraries..." ;;
  check_gpib_libraries ;;
  print (newline ++ "Attempting to connect to instrument at GPIB address "
         ++ fmt_int gpib_address ++ "...") ;;
  instrument <- get_instrument_connection gpib_address 3 ;;
  match instrument with
  | Some inst =>
      gtry
        (reply <- query inst "*IDN?" ;;
         print ("Successfully connected to: " ++ str_strip reply) ;;
         gret (Some inst, None))
        (fun e =>
           let error_msg :=
             "Connection successful but failed to communicate "
             ++ "with instrument: " ++ str_exception e in
           print error_msg ;;
           gret (None, Some error_msg))
  | None =>
      gret (None,
            Some ("Failed to connect to instrument. "
                  ++ "See TROUBLESHOOTING.md for more information."))
  end.

End Helper.

(** The number of pauses among the probes. *)
Fixpoint waits (ps : list probe) : nat :=
  match ps with
  | [] => 0
  | Wait _ :: rest => S (waits rest)
  | _ :: rest => waits rest
  end.

(** A computation that always returns. *)
Definition never_raises {A} (m : G A) : Prop :=
  forall h, exists a h', m h = (Ok a, h').

(** A computation without pause. *)
Definition no_wait {A} (m : G A) : Prop :=
  forall h, waits (probes (snd (m h))) = waits (probes h).

(** A computation that calls no instrument. *)
Definition off_wire {A} (m : G A) : Prop :=
  forall h, wire (snd (m h)) = wire h.

(** A computation from which no [ImportError] escapes. *)
Definition no_import_error {A} (m : G A) : Prop :=
  forall h e h', m h = (Err e, h') -> is_import_error e = false.

(** The resource manager in use after the probes [ps]: the one that
    the newest call of [pyvisa.ResourceManager] returned. *)
Fixpoint manager_in_use (platform : Platform) (ps : list probe)
  : option Manager :=
  match ps with
  | [] => None
  | NewManager arg :: earlier =>
      match new_manager platform earlier arg with
      | Return rm => Some rm
      | Raise _ => None
      end
  | _ :: earlier => manager_in_use platform earlier
  end.

(** The newest probe is an open of a resource whose name contains
    [address], made on the resource manager in use, and [inst] is what
    that open returned. *)
Definition opened (platform : Platform) (address : string) (h' : host)
    (inst : Instrument) : Prop :=
  exists name ps rm,
    probes h' = OpenResource name :: ps
    /\ contains address name = true
    /\ manager_in_use platform ps = Some rm
    /\ rm_open_resource rm ps name = Return inst.

(** [result[key]] *)
Fixpoint lookup (key : string) (result : list (string * bool))
  : option bool :=
  match result with
  | [] => None
  | (k, v) :: rest => if String.eqb k key then Some v else lookup key rest
  end.

End gpib_helper.

(** ** The helper module behind [connect_to_instrument] *)

(** [gpib_helper.connect_to_instrument_safely] as
    [connect_to_instrument] calls it: the instrument calls of the
    helper join the trace of the session. *)
Definition via_gpib_helper {rt : PyRuntime}
    (platform : gpib_helper.Platform) (gpib_addr : Z)
  : C (option Instrument * option string) :=
  fun w =>
    let run :=
      gpib_helper.connect_to_instrument_safely platform gpib_addr
        (gpib_helper.mkHost [] [] (trace w)) in
    (fst run,
     mkWorld (instrument w) (measurement_running w)
       (gpib_helper.wire (snd run)) (abort_requests w)).

(** ** Further concrete pieces for the runs evaluated below *)

Module Bench.

(** A callback that raises at every call. *)
Definition failing : callback_fn :=
  fun _ _ _ _ _ => Some (mkExn ValueError "callback failed").

(** A controller without instrument, nobody aborting. *)
Definition disconnected : world :=
  mkWorld None false [] (fun _ => false).

(** A 2450 as it identifies itself. *)
Definition idn_2450 : string :=
  "KEITHLEY INSTRUMENTS,MODEL 2450,04012345,1.6.7c".

(** The helper module hands over [inst]. *)
Definition helper_gives (inst : Instrument) : Backends := {|
  via_helper := fun _ w => (Ok (Some inst, None), w);
  open_default := fun _ _ => Raise Demo.io_error;
  open_py := fun _ _ => Raise Demo.io_error
|}.

(** The helper module reports [error]. *)
Definition helper_reports (error : string) : Backends := {|
  via_helper := fun _ w => (Ok (None, Some error), w);
  open_default := fun _ _ => Raise Demo.io_error;
  open_py := fun _ _ => Raise Demo.io_error
|}.

(** No helper module; the two standard backends answer [d] and [p]. *)
Definition helper_missing (d p : outcome Instrument) : Backends := {|
  via_helper := fun _ w =>
    (Err (ImportError "No module named 'gpib_helper'"), w);
  open_default := fun _ _ => d;
  open_py := fun _ _ => p
|}.

(** A platform on which no resource manager can be created. *)
Definition no_visa : gpib_helper.Platform := {|
  gpib_helper.new_manager := fun _ _ => Raise Demo.io_error;
  gpib_helper.import_module := fun _ _ => None;
  gpib_helper.pyvisa_version := "1.13.0";
  gpib_helper.pyvisa_py_version := "0.7.0";
  gpib_helper.fmt_resources := fun _ => "()"
|}.

(** A resource manager that opens every name on [inst]. *)
Definition manager_of (inst : Instrument) : gpib_helper.Manager := {|
  gpib_helper.rm_open_resource := fun _ _ => Return inst;
  gpib_helper.rm_list_resources := fun _ => Return [];
  gpib_helper.rm_visalib := "visa"
|}.

(** A platform whose resource managers open every name on [inst]. *)
Definition one_device (inst : Instrument) : gpib_helper.Platform := {|
  gpib_helper.new_manager := fun _ _ => Return (manager_of inst);
  gpib_helper.import_module := fun _ _ => None;
  gpib_helper.pyvisa_version := "1.13.0";
  gpib_helper.pyvisa_py_version := "0.7.0";
  gpib_helper.fmt_resources := fun _ => "()"
|}.

(** The helper before any call. *)
Definition fresh : gpib_helper.host := gpib_helper.mkHost [] [] [].

(** The backends of a controller that has the helper module. *)
Definition with_helper (platform : gpib_helper.Platform) : Backends := {|
  via_helper := via_gpib_helper (rt := Demo.runtime) platform;
  open_default := fun _ _ => Raise Demo.io_error;
  open_py := fun _ _ => Raise Demo.io_error
|}.

End Bench.

(** ** interface_gui.py *)

Module interface_gui.

(** The widgets that the callbacks below reconfigure. *)
Inductive widget : Type :=
  | connect_button
  | change_addr_button
  | start_button
  | abort_button
  | save_button
  | connection_status
  | measurement_info.

(** One call into the toolkit, the thread library or the CSV writer. *)
Inductive gui_event : Type :=
  (** [messagebox.showerror(title, message)] *)
  | ShowError (title message : string)
  (** [messagebox.showinfo(title, message)] *)
  | ShowInfo (title message : string)
  (** [messagebox.askokcancel(title, message)] and what it returned *)
  | AskOkCancel (title message : string) (answer : bool)
  (** [filedialog.asksaveasfilename(...)] and what it returned *)
  | AskSaveAsFilename (answer : string)
  (** [w.config(state=tk.NORMAL)], or [tk.DISABLED] for [false] *)
  | ConfigState (w : widget) (normal : bool)
  (** [w.config(text=text, foreground=colour)] *)
  | ConfigText (w : widget) (text : string) (foreground : option string)
  (** [self.progress_var.set(value)] *)
  | ProgressSet (value : Z)
  (** [self.root.update()] *)
  | RootUpdate
  (** [threading.Thread(target=self.run_measurement_thread, args=...)]
      made a daemon and started *)
  | ThreadStart (start_v stop_v : float) (steps : Z) (delay : float)
  (** [save_data_to_csv(filename, ...)] and the rows it left in the
      file *)
  | SaveCsv (filename : string) (rows : option (list (list cell)))
  (** [self.root.destroy()] *)
  | RootDestroy.

(** The text of the entry fields and of the range box. *)
Record Entries : Type := mkEntries {
  gpib_address : string;
  start_voltage : string;
  stop_voltage : string;
  num_steps : string;
  current_limit : string;
  current_range : string;
  delay_time : string
}.

(** An [IVCurveGUI] object. *)
Record gui : Type := mkGui {
  (** [self.smu_controller] *)
  smu_controller : world;
  entries : Entries;
  (** [self.voltages], [self.currents], [self.resistances] *)
  voltages : list float;
  currents : list float;
  resistances : list float;
  (** [self.measurement_running] of the window, which is not the flag
      of the controller *)
  running : bool;
  (** every call of the kinds above so far, newest first *)
  events : list gui_event
}.

(** The person at the window: the answers to the dialogs, from the
    events so far. *)
Record User : Type := {
  ok_cancel : list gui_event -> bool;
  (** the chosen path; empty when the dialog is cancelled *)
  save_as_filename : list gui_event -> string
}.

(** Callbacks of the window. *)
Definition U (A : Type) : Type := gui -> result A * gui.

Definition uret {A} (a : A) : U A := fun g => (Ok a, g).

Definition ubind {A B} (m : U A) (k : A -> U B) : U B :=
  fun g =>
    match m g with
    | (Ok a, g') => k a g'
    | (Err e, g') => (Err e, g')
    end.

Definition uraise {A} (e : py_exception) : U A := fun g => (Err e, g).

Definition is_value_error (e : py_exception) : bool :=
  match e with
  | Known e => exn_class_eqb (exn_kind e) ValueError
  | _ => false
  end.

(** [try: m  except ValueError as e: h e] *)
Definition utry_value_error {A} (m : U A) (h : py_exception -> U A)
  : U A :=
  fun g =>
    match m g with
    | (Ok a, g') => (Ok a, g')
    | (Err e, g') => if is_value_error e then h e g' else (Err e, g')
    end.

(** [try: m  finally: f] *)
Definition ufinally {A} (m : U A) (f : U unit) : U A :=
  fun g =>
    match m g with
    | (r, g') =>
        match f g' with
        | (Ok _, g'') => (r, g'')
        | (Err e, g'') => (Err e, g'')
        end
    end.

Declare Scope gui_scope.
Delimit Scope gui_scope with gui.
Notation "x <- m ;; k" := (ubind m (fun x => k))
  (at level 61, m at next level, right associativity) : gui_scope.
Notation "m ;; k" := (ubind m (fun _ => k))
  (at level 61, right associativity) : gui_scope.
Local Open Scope gui_scope.

Definition get : U gui := fun g => (Ok g, g).

(** A call of one of the logged kinds. *)
Definition emit (ev : gui_event) : U unit :=
  fun g =>
    (Ok tt,
     mkGui (smu_controller g) (entries g) (voltages g) (currents g)
       (resistances g) (running g) (ev :: events g)).

(** [field.get()] *)
Definition entry (field : Entries -> string) : U string :=
  fun g => (Ok (field (entries g)), g).

(** A conversion of the runtime that may raise. *)
Definition pure {A} (o : outcome A) : U A :=
  fun g =>
    match o with
    | Return a => (Ok a, g)
    | Raise e => (Err (Known e), g)
    end.

(** A call on [self.smu_controller]. *)
Definition controller {A} (m : C A) : U A :=
  fun g =>
    (fst (m (smu_controller g)),
     mkGui (snd (m (smu_controller g))) (entries g) (voltages g)
       (currents g) (resistances g) (running g) (events g)).

(** [self.measurement_running = b] *)
Definition put_running (b : bool) : U unit :=
  fun g =>
    (Ok tt,
     mkGui (smu_controller g) (entries g) (voltages g) (currents g)
       (resistances g) b (events g)).

(** [self.voltages = []], [self.currents = []],
    [self.resistances = []] *)
Definition clear_data : U unit :=
  fun g =>
    (Ok tt,
     mkGui (smu_controller g) (entries g) [] [] [] (running g) (events g)).

(** [fields[i]] *)
Definition item (fields : list string) (i : nat) : U string :=
  match nth_error fields i with
  | Some s => uret s
  | None => uraise (IndexError "list index out of range")
  end.

(** The literals [1e-9], [1e-6] and [1e-3] as binary64 numbers. *)
Definition nano : float := S754_finite false 4835703278458517 (-82).
Definition micro : float := S754_finite false 4722366482869645 (-72).
Definition milli : float := S754_finite false 4611686018427388 (-62).

(** [x < 0] and [x <= 0] for a float [x]. *)
Definition negative (x : float) : bool := SFltb x PyFloat.zero.
Definition not_positive (x : float) : bool := PyFloat.leb x PyFloat.zero.

Section IVCurveGUI.

Context {rt : PyRuntime}.

(** [s.split()] *)
Variable str_split : string -> list string.

Variable backends : Backends.
Variable handle_close : list event -> option exn.
Variable fs : FileSystem.
Variable user : User.

(** [messagebox.askokcancel(title, message)] *)
Definition askokcancel (title message : string) : U bool :=
  fun g =>
    let answer := ok_cancel user (events g) in
    (Ok answer,
     mkGui (smu_controller g) (entries g) (voltages g) (currents g)
       (resistances g) (running g)
       (AskOkCancel title message answer :: events g)).

(** [filedialog.asksaveasfilename(...)] *)
Definition asksaveasfilename : U string :=
  fun g =>
    let answer := save_as_filename user (events g) in
    (Ok answer,
     mkGui (smu_controller g) (entries g) (voltages g) (currents g)
       (resistances g) (running g)
       (AskSaveAsFilename answer :: events g)).

(** [connect_to_instrument] of the window; in its body
    [connect_to_instrument] is the method of the controller. *)
Definition connect_to_instrument : U unit :=
  ufinally
    (utry_value_error
       (text <- entry gpib_address ;;
        gpib_addr <- pure (py_int text) ;;
        emit (ConfigState connect_button false) ;;
        emit (ConfigText connection_status config.MSG_CONNECTING
                (Some "blue")) ;;
        emit RootUpdate ;;
        answer <- controller (connect_to_instrument backends gpib_addr) ;;
        if fst answer
        then
          emit (ConfigText connection_status (snd answer)
                  (Some "green")) ;;
          emit (ConfigState start_button true) ;;
          emit (ConfigState change_addr_button true)
        else
          emit (ShowError "Connection Error" (snd answer)) ;;
          emit (ConfigText connection_status config.MSG_CONNECTION_FAILED
                  (Some "red")))
       (fun _ => emit (ShowError "Input Error" config.ERR_GPIB_ADDRESS)))
    (emit (ConfigState connect_button true)).

(** [str(float(range_val) * factor)] *)
Definition scaled (range_val : string) (factor : float) : U string :=
  x <- pure (py_float range_val) ;;
  uret (fmt_float (PyFloat.mul x factor)).

(** Lines 248-263: the range handed to the controller. *)
Definition parse_current_range (curr_range_str : string) : U string :=
  if String.eqb curr_range_str "Auto" then uret "AUTO"
  else
    range_val <- item (str_split curr_range_str) 0 ;;
    unit <- item (str_split curr_range_str) 1 ;;
    if String.eqb unit "nA" then scaled range_val nano
    else if String.eqb unit "µA" then scaled range_val micro
    else if String.eqb unit "mA" then scaled range_val milli
    else uret range_val.

(** Lines 286-305: the window enters the measuring state and the
    thread is started. *)
Definition launch (start_v stop_v : float) (steps : Z) (delay : float)
  : U unit :=
  clear_data ;;
  put_running true ;;
  emit (ConfigState start_button false) ;;
  emit (ConfigState abort_button true) ;;
  emit (ConfigState save_button false) ;;
  emit (ProgressSet 0) ;;
  emit (ConfigText measurement_info config.MSG_MEASUREMENT_STARTED None) ;;
  emit (ThreadStart start_v stop_v steps delay).

(** [start_measurement] *)
Definition start_measurement : U unit :=
  g <- get ;;
  if negb (truthy (instrument (smu_controller g)))
  then emit (ShowError "Error" "Not connected to instrument")
  else
    utry_value_error
      (text <- entry start_voltage ;;
       start_v <- pure (py_float text) ;;
       text <- entry stop_voltage ;;
       stop_v <- pure (py_float text) ;;
       text <- entry num_steps ;;
       steps <- pure (py_int text) ;;
       text <- entry current_limit ;;
       current_limit <- pure (py_float text) ;;
       curr_range_str <- entry current_range ;;
       current_range <- parse_current_range curr_range_str ;;
       text <- entry delay_time ;;
       delay <- pure (py_float text) ;;
       if steps <? 2
       then emit (ShowError "Input Error"
                    "Number of steps must be at least 2")
       else if negative delay
       then emit (ShowError "Input Error" "Delay cannot be negative")
       else if not_positive current_limit
       then emit (ShowError "Input Error"
                    "Current limit must be greater than 0")
       else
         setup_success <-
           controller
             (of_M (setup_measurement start_v stop_v current_limit
                      current_range)) ;;
         if negb setup_success
         then emit (ShowError "Setup Error" "Failed to setup instrument")
         else launch start_v stop_v steps delay)
      (fun e =>
         emit (ShowError "Input Error"
                 ("Invalid input: " ++ str_exception e))).

(** [abort_measurement] of the window; in its body [abort_measurement]
    is the method of the controller. *)
Definition abort_measurement : U unit :=
  g <- get ;;
  if running g
  then
    controller (of_M abort_measurement) ;;
    put_running false ;;
    emit (ConfigState start_button true) ;;
    emit (ConfigState abort_button false) ;;
    g <- get ;;
    (if (0 <? List.length (voltages g))%nat
     then emit (ConfigState save_button true)
     else uret tt) ;;
    emit (ConfigText measurement_info config.MSG_MEASUREMENT_ABORTED None)
  else uret tt.

(** [save_data] *)
Definition save_data : U unit :=
  g <- get ;;
  if (List.length (voltages g) =? 0)%nat
  then emit (ShowInfo "Info" config.ERR_NO_DATA)
  else
    file_path <- asksaveasfilename ;;
    match file_path with
    | EmptyString => uret tt
    | String _ _ =>
        let saved :=
          save_data_to_csv fs file_path (voltages g) (currents g)
            (resistances g) (Some config.CSV_HEADER) in
        emit (SaveCsv file_path (snd saved)) ;;
        if fst saved
        then emit (ShowInfo "Success" ("Data saved to " ++ file_path))
        else emit (ShowError "Error" (config.ERR_SAVE_FAILED ++ file_path))
    end.

(** [on_closing]; [self.smu_controller] is an object, so the test of
    line 404 holds. *)
Definition on_closing : U unit :=
  g <- get ;;
  r <- (if running g
        then
          answer <- askokcancel "Quit" config.CONFIRM_QUIT_MEASUREMENT ;;
          if answer
          then abort_measurement ;; uret FallThrough
          else uret (Returned tt)
        else uret FallThrough) ;;
  match r with
  | Returned _ => uret tt
  | FallThrough =>
      controller (of_M (close handle_close)) ;;
      emit RootDestroy
  end.

End IVCurveGUI.

(** The measurement threads started, newest first. *)
Fixpoint launched (evs : list gui_event)
  : list (float * float * Z * float) :=
  match evs with
  | [] => []
  | ThreadStart start_v stop_v steps delay :: rest =>
      (start_v, stop_v, steps, delay) :: launched rest
  | _ :: rest => launched rest
  end.

(** What [start_measurement] has in hand when it reaches the
    controller: the parsed fields. *)
Record request : Type := mkRequest {
  req_start_v : float;
  req_stop_v : float;
  req_steps : Z;
  req_current_limit : float;
  req_current_range : string;
  req_delay : float
}.

(** The window holds an instrument, every field of it is read as [q]
    says, and [q] passes the three checks of lines 268-278. *)
Definition accepted {rt : PyRuntime} (str_split : string -> list string)
    (g : gui) (q : request) : Prop :=
  instrument (smu_controller g) <> None
  /\ py_float (start_voltage (entries g)) = Return (req_start_v q)
  /\ py_float (stop_voltage (entries g)) = Return (req_stop_v q)
  /\ py_int (num_steps (entries g)) = Return (req_steps q)
  /\ py_float (current_limit (entries g)) = Return (req_current_limit q)
  /\ fst (parse_current_range str_split (current_range (entries g)) g)
     = Ok (req_current_range q)
  /\ py_float (delay_time (entries g)) = Return (req_delay q)
  /\ 2 <= req_steps q
  /\ negative (req_delay q) = false
  /\ not_positive (req_current_limit q) = false.

(** The window after one error dialog. *)
Definition shown (title message : string) (g : gui) : gui :=
  snd (emit (ShowError title message) g).

(** The window with the controller in state [w]. *)
Definition with_controller (w : world) (g : gui) : gui :=
  mkGui w (entries g) (voltages g) (currents g) (resistances g)
    (running g) (events g).

End interface_gui.

(** ** An abort request that arrives early

    [abort_measurement()] is called from the thread of the window while
    [perform_sweep] runs on its own thread. The schedule
    [abort_requests] places such a call at the flag test of a step; the
    definitions below place it earlier, between line 202 and line 203
    of [perform_sweep]. *)

(** The caller's side running [abort_measurement()] at this point. An
    exception it raises surfaces on the caller's side, not in the
    sweep. *)
Definition abort_lands : M unit :=
  fun w => (Return tt, snd (abort_measurement w)).

(** [perform_sweep], lines 194-236, with what the other thread does
    between line 202 ([self.start_output()]) and line 203
    ([self.measurement_running = True]) made explicit as [between]. *)
Definition perform_sweep_interleaved {rt : PyRuntime} (between : M unit)
    (start_v stop_v : float) (steps : Z) (delay_time : float)
    (callback : option callback_fn) : M lists :=
  voltage_step <-
    lift (PyNum.truediv_float_int (PyFloat.sub stop_v start_v) (steps - 1)) ;;
  start_output ;;
  between ;;
  put_running true ;;
  r <- sweep_for start_v steps delay_time callback voltage_step
         (range steps) ([], [], []) ;;
  stop_output ;;
  put_running false ;;
  ret (snd r).

(** ** A window for the runs evaluated below *)

Module Desk.

(** [s.split()] on a text whose only blanks are single spaces between
    its fields. *)
Definition split (s : string) : list string := split_on " " s.

(** The fields as the window shows them at first, but for the number
    of steps and the range. *)
Definition form (steps range : string) : interface_gui.Entries :=
  interface_gui.mkEntries "18" "0" "1" steps "0.1" range "0.1".

(** A window on the controller [w], nothing measured yet. *)
Definition window (w : world) (entries : interface_gui.Entries)
  : interface_gui.gui :=
  interface_gui.mkGui w entries [] [] [] false [].

(** A window in the middle of a measurement. *)
Definition measuring (w : world) : interface_gui.gui :=
  interface_gui.mkGui w (form "3" "Auto") [] [] [] true [].

(** A user who gives the same answer to every question. *)
Definition user (yes : bool) : interface_gui.User := {|
  interface_gui.ok_cancel := fun _ => yes;
  interface_gui.save_as_filename := fun _ => "iv.csv"
|}.

End Desk.

(** * Properties *)

#[local] Arguments String.append : simpl never.

(** ** Facts on binary64 comparison *)

Lemma SFcompare_antisym (x y : float) :
  SFcompare y x = option_map CompOpp (SFcompare x y).
Proof.
  destruct x as [sx | sx | | sx mx ex], y as [sy | sy | | sy my ey];
    simpl; try reflexivity;
    try (destruct sx; reflexivity); try (destruct sy; reflexivity);
    try (destruct sx, sy; reflexivity).
  destruct sx, sy; simpl; try reflexivity;
    rewrite (Z.compare_antisym ey ex);
    destruct (ey ?= ex) eqn:E; simpl; try reflexivity;
    change (Pos.compare_cont Eq mx my) with (Pos.compare mx my);
    change (Pos.compare_cont Eq my mx) with (Pos.compare my mx);
    rewrite (Pos.compare_antisym my mx);
    destruct (my ?= mx)%positive; reflexivity.
Qed.

(** [a <= b] excludes [a > b]. *)
Lemma leb_not_gtb (a b : float) :
  PyFloat.leb a b = true -> PyFloat.gtb a b = false.
Proof.
  unfold PyFloat.leb, PyFloat.gtb, SFleb, SFltb.
  rewrite (SFcompare_antisym a b).
  destruct (SFcompare a b) as [[ | | ] | ]; simpl; congruence.
Qed.

(** A reading above the threshold in magnitude is not a zero. *)
Lemma above_threshold_nonzero (current : float) :
  PyFloat.gtb (PyFloat.abs current) config.SMALL_CURRENT_THRESHOLD = true ->
  PyFloat.is_zero current = false.
Proof.
  destruct current; simpl; intros H; try reflexivity.
  discriminate H.
Qed.

(** The literal [1e-12] denotes the binary64 number nearest to 10^-12:
    with [m = 4951760157141521], the exact value [2^92 / 10^12] lies
    strictly within half a unit of [m], and [m] has 53 bits. *)
Lemma threshold_is_nearest :
  config.SMALL_CURRENT_THRESHOLD = S754_finite false 4951760157141521 (-92)
  /\ (2 * 4951760157141521 - 1) * 10 ^ 12 < 2 * 2 ^ 92
  /\ 2 * 2 ^ 92 < (2 * 4951760157141521 + 1) * 10 ^ 12
  /\ 2 ^ 52 <= 4951760157141521 < 2 ^ 53.
Proof. repeat split; vm_compute; congruence. Qed.

(** ** Equations of the primitive calls *)

Section Primitives.

Context {rt : PyRuntime}.

Lemma instr_write_connected (inst : Instrument) (cmd : string) (w : world) :
  instrument w = Some inst ->
  instr_write cmd w =
    (match on_write inst (trace w) cmd with
     | None => Return tt
     | Some e => Raise e
     end, log (Write cmd) w).
Proof.
  intros H. unfold instr_write. rewrite H.
  destruct (on_write inst (trace w) cmd); reflexivity.
Qed.

Lemma instr_query_connected (inst : Instrument) (cmd : string) (w : world) :
  instrument w = Some inst ->
  instr_query cmd w = (on_query inst (trace w) cmd, log (Query cmd) w).
Proof. intros H. unfold instr_query. rewrite H. reflexivity. Qed.

Lemma resistance_of_returns (voltage current : float) :
  exists r, resistance_of voltage current = Return r.
Proof.
  unfold resistance_of.
  destruct (PyFloat.gtb _ _) eqn:G.
  - unfold PyNum.truediv. rewrite (above_threshold_nonzero _ G). eauto.
  - eauto.
Qed.

(** [measure_point] catches everything: it always returns. *)
Lemma measure_point_returns (voltage : float) (w : world) :
  exists m w', measure_point voltage w = (Return m, w').
Proof.
  unfold measure_point, try_except.
  match goal with |- context [match ?x with _ => _ end] =>
    destruct x as [[m | e] w'] end; unfold ret; eauto.
Qed.

(** A point returned by [measure_point] carries the resistance computed
    from its own voltage and current. *)
Lemma measure_point_some (voltage : float) (w w' : world)
    (current resistance : float) :
  measure_point voltage w = (Return (Some (current, resistance)), w') ->
  resistance_of voltage current = Return resistance.
Proof.
  unfold measure_point, try_except, bind, get_instrument, lift, ret.
  destruct (instrument w) as [inst | ]; simpl; [ | discriminate ].
  destruct (instr_write _ w) as [[[] | e] w1]; [ | discriminate ].
  destruct (instr_query _ w1) as [[reply | e] w2]; [ | discriminate ].
  destruct (py_float reply) as [c | e]; [ | discriminate ].
  destruct (resistance_of voltage c) as [r | e] eqn:R; [ | discriminate ].
  intros H. injection H as -> -> _. exact R.
Qed.

End Primitives.

(** ** C3: the resistance law *)

(** C3. For every applied voltage and raw current reading: the
    resistance computation returns (no division error is raised); if
    |current| > 1e-12 it is voltage / current; if |current| <= 1e-12,
    zero included, it is +infinity; and this value is the resistance
    recorded in every point that [measure_point] returns. *)
Theorem measure_point_resistance_law {rt : PyRuntime}
    (voltage current : float) :
  (exists r, resistance_of voltage current = Return r)
  /\ (PyFloat.gtb (PyFloat.abs current) config.SMALL_CURRENT_THRESHOLD = true ->
      resistance_of voltage current = Return (PyFloat.div voltage current))
  /\ (PyFloat.leb (PyFloat.abs current) config.SMALL_CURRENT_THRESHOLD = true ->
      resistance_of voltage current = Return PyFloat.inf)
  /\ (forall w w' resistance,
        measure_point voltage w = (Return (Some (current, resistance)), w') ->
        resistance_of voltage current = Return resistance).
Proof.
  split; [ apply resistance_of_returns | ].
  split; [ | split ].
  - intros G. unfold resistance_of. rewrite G.
    unfold PyNum.truediv. rewrite (above_threshold_nonzero _ G). reflexivity.
  - intros L. unfold resistance_of. rewrite (leb_not_gtb _ _ L). reflexivity.
  - intros w w' resistance H. exact (measure_point_some _ _ _ _ _ H).
Qed.

(** The law at the readings 0.01 A (above the threshold) and 0 A (at
    most the threshold), under 1 V, through [measure_point]. *)
Lemma measure_point_resistance_law_witness :
  resistance_of PyFloat.one Demo.f0_01 = Return Demo.f100
  /\ resistance_of PyFloat.one PyFloat.zero = Return PyFloat.inf
  /\ resistance_of PyFloat.one Demo.f0_01 = Return Demo.f100.
Proof.
  destruct (measure_point_resistance_law (rt := Demo.runtime)
              PyFloat.one Demo.f0_01) as (_ & Hgt & _ & Hpt).
  destruct (measure_point_resistance_law (rt := Demo.runtime)
              PyFloat.one PyFloat.zero) as (_ & _ & Hle & _).
  split; [ | split ].
  - rewrite Hgt; reflexivity.
  - apply Hle. reflexivity.
  - apply (Hpt (Demo.connected (Demo.steady "0.01"))
               (log (Query "MEAS:CURR?")
                  (log (Write "SOUR:VOLT 1.0")
                     (Demo.connected (Demo.steady "0.01"))))).
    reflexivity.
Defined.

(** The law at a concrete pair of readings and through a concrete
    measurement gives the expected numbers. *)
Example resistance_examples :
  resistance_of PyFloat.minus_one Demo.f0_01 = Return Demo.fm100
  /\ resistance_of PyFloat.one (S754_zero true) = Return PyFloat.inf
  /\ resistance_of PyFloat.one S754_nan = Return PyFloat.inf.
Proof. repeat split. Qed.

(** ** No method changes the instrument object or the schedule *)

Lemma same_session_refl (w : world) : same_session w w.
Proof. split; reflexivity. Qed.

Lemma same_session_trans (w1 w2 w3 : world) :
  same_session w1 w2 -> same_session w2 w3 -> same_session w1 w3.
Proof. intros [A B] [C D]. split; congruence. Qed.

Lemma stable_ret {A} (a : A) : stable (ret a).
Proof. intros w. apply same_session_refl. Qed.

Lemma stable_lift {A} (o : outcome A) : stable (lift o).
Proof. intros w. apply same_session_refl. Qed.

Lemma stable_bind {A B} (m : M A) (k : A -> M B) :
  stable m -> (forall a, stable (k a)) -> stable (bind m k).
Proof.
  intros Hm Hk w. unfold bind.
  specialize (Hm w). destruct (m w) as [[a | e] w1]; simpl in *.
  - apply (same_session_trans _ _ _ Hm), Hk.
  - exact Hm.
Qed.

Lemma stable_try_except {A} (m : M A) (h : exn -> M A) :
  stable m -> (forall e, stable (h e)) -> stable (try_except m h).
Proof.
  intros Hm Hh w. unfold try_except.
  specialize (Hm w). destruct (m w) as [[a | e] w1]; simpl in *.
  - exact Hm.
  - apply (same_session_trans _ _ _ Hm), Hh.
Qed.

Lemma stable_try_except_class {A} c (m : M A) (h : exn -> M A) :
  stable m -> (forall e, stable (h e)) -> stable (try_except_class c m h).
Proof.
  intros Hm Hh w. unfold try_except_class.
  specialize (Hm w). destruct (m w) as [[a | e] w1]; simpl in *.
  - exact Hm.
  - destruct (exn_class_eqb _ _); simpl.
    + apply (same_session_trans _ _ _ Hm), Hh.
    + exact Hm.
Qed.

Lemma stable_get_instrument : stable get_instrument.
Proof. intros w. apply same_session_refl. Qed.

Lemma stable_get_running : stable get_running.
Proof. intros w. apply same_session_refl. Qed.

Lemma stable_put_running (b : bool) : stable (put_running b).
Proof. intros w. split; reflexivity. Qed.

Lemma stable_instr_write (cmd : string) : stable (instr_write cmd).
Proof.
  intros w. unfold instr_write.
  destruct (instrument w) as [inst | ] eqn:E; simpl.
  - destruct (on_write _ _ _); split; simpl; auto.
  - split; reflexivity.
Qed.

Lemma stable_instr_query (cmd : string) : stable (instr_query cmd).
Proof.
  intros w. unfold instr_query.
  destruct (instrument w) as [inst | ] eqn:E; split; simpl; auto.
Qed.

Lemma stable_if {A} (b : bool) (m1 m2 : M A) :
  stable m1 -> stable m2 -> stable (if b then m1 else m2).
Proof. destruct b; auto. Qed.

Create HintDb stable.
#[export] Hint Resolve stable_ret stable_lift stable_get_instrument
  stable_get_running stable_put_running stable_instr_write
  stable_instr_query : stable.
#[export] Hint Resolve stable_bind stable_try_except
  stable_try_except_class stable_if : stable.

Section Stability.

Context {rt : PyRuntime}.

Lemma stable_sleep (secs : float) : stable (sleep secs).
Proof.
  intros w. unfold sleep. destruct (time_sleep secs); split; reflexivity.
Qed.

Lemma stable_call (cb : callback_fn) (v c r p : float) :
  stable (call cb v c r p).
Proof.
  intros w. unfold call. destruct (cb _ _ _ _ _); split; reflexivity.
Qed.

Lemma stable_start_output : stable start_output.
Proof. unfold start_output. auto 10 with stable. Qed.

Lemma stable_stop_output : stable stop_output.
Proof. unfold stop_output. auto 10 with stable. Qed.

Lemma stable_abort_measurement : stable abort_measurement.
Proof.
  unfold abort_measurement.
  auto using stable_stop_output with stable.
Qed.

Lemma stable_external_abort (i : nat) : stable (external_abort i).
Proof.
  intros w. unfold external_abort.
  destruct (abort_requests w i); simpl.
  - apply stable_abort_measurement.
  - apply same_session_refl.
Qed.

Lemma stable_measure_point (voltage : float) : stable (measure_point voltage).
Proof.
  unfold measure_point.
  apply stable_try_except; [ | auto with stable ].
  apply stable_bind; [ auto with stable | intros inst ].
  apply stable_if; auto 10 with stable.
Qed.

Lemma stable_report steps cb (i : nat) (v c r : float) :
  stable (report steps cb i v c r).
Proof.
  unfold report. destruct cb; auto using stable_call with stable.
Qed.

Lemma stable_sweep_body start_v steps delay_time cb step i ls :
  stable (sweep_body start_v steps delay_time cb step i ls).
Proof.
  unfold sweep_body.
  apply stable_bind; [ apply stable_external_abort | intros _ ].
  apply stable_bind; [ auto with stable | intros running ].
  apply stable_if; [ auto with stable | ].
  apply stable_bind; [ auto with stable | intros voltage ].
  apply stable_bind; [ apply stable_measure_point | intros [[c r] | ] ];
    [ | auto with stable ].
  apply stable_bind; [ apply stable_sleep | intros _ ].
  apply stable_bind; [ apply stable_report | auto with stable ].
Qed.

Lemma stable_sweep_for start_v steps delay_time cb step idx :
  forall ls, stable (sweep_for start_v steps delay_time cb step idx ls).
Proof.
  induction idx as [ | i rest IH ]; intros ls; simpl.
  - auto with stable.
  - apply stable_bind; [ apply stable_sweep_body | ].
    intros [[ | ] ls']; auto with stable.
Qed.

End Stability.

(** ** C8: an address outside 0..30 is refused before any command *)

(** C8. For every requested address outside 0..30, [set_gpib_address]
    fails and leaves the world as it was, so that no write and no query
    is issued: the range is tested before any command. On a connected
    controller the failure is the address-range message; without an
    instrument the method has failed even earlier, with the
    not-connected message. *)
Theorem set_gpib_address_out_of_range {rt : PyRuntime}
    (new_address : Z) (w : world) :
  new_address < 0 \/ 30 < new_address ->
  set_gpib_address new_address w =
    (Return (false,
             if truthy (instrument w)
             then msg_out_of_range
             else msg_not_connected), w).
Proof.
  intros Hr.
  unfold set_gpib_address, bind, get_instrument.
  destruct (instrument w) as [inst | ]; simpl; [ | reflexivity ].
  unfold try_except.
  replace ((0 <=? new_address) && (new_address <=? 30)) with false.
  - reflexivity.
  - symmetry. apply andb_false_iff.
    destruct Hr; [ left; apply Z.leb_gt | right; apply Z.leb_gt ]; lia.
Qed.

(** The addresses 31 and -1 on a connected controller. *)
Lemma set_gpib_address_out_of_range_witness :
  set_gpib_address (rt := Demo.runtime) 31 (Demo.connected Demo.mute)
    = (Return (false, msg_out_of_range), Demo.connected Demo.mute)
  /\ set_gpib_address (rt := Demo.runtime) (-1) (Demo.connected Demo.mute)
    = (Return (false, msg_out_of_range), Demo.connected Demo.mute).
Proof.
  split.
  - apply (set_gpib_address_out_of_range 31 (Demo.connected Demo.mute)).
    right; lia.
  - apply (set_gpib_address_out_of_range (-1) (Demo.connected Demo.mute)).
    left; lia.
Defined.

(** ** C9: what follows the address write *)

Section AddressChange.

Context {rt : PyRuntime}.

(** Reading the present address is best effort: it always returns. *)
Lemma read_current_address_returns (w : world) :
  exists ca w1, read_current_address w = (Return ca, w1).
Proof.
  unfold read_current_address, try_except.
  destruct (bind (query_int "print(gpib.address)") _ w) as [[ca | e] w1].
  - eauto.
  - destruct (bind (query_int ":SYSTem:GPIB:ADDRess?") _ w1)
      as [[ca | e'] w2]; unfold ret; eauto.
Qed.

Lemma stable_query_int (cmd : string) : stable (query_int cmd).
Proof. unfold query_int. auto with stable. Qed.

Lemma stable_read_current_address : stable read_current_address.
Proof.
  unfold read_current_address.
  auto 10 using stable_query_int with stable.
Qed.

(** The trace after [query_int] is the trace before plus the query. *)
Lemma query_int_trace (inst : Instrument) (cmd : string) (w w' : world)
    (o : outcome Z) :
  instrument w = Some inst ->
  query_int cmd w = (o, w') ->
  trace w' = Query cmd :: trace w.
Proof.
  intros Hi. unfold query_int, bind.
  rewrite (instr_query_connected inst) by exact Hi.
  destruct (on_query inst (trace w) cmd) as [reply | e]; unfold lift.
  - intros H. injection H as _ <-. reflexivity.
  - intros H. injection H as _ <-. reflexivity.
Qed.

End AddressChange.

(** C9, as the code has it. For every in-range request on a connected
    controller whose address write is accepted: when the verification
    query raises or its reply is not an integer, the method reports
    success with the unverified-confirmation message; when the reply is
    the new address it reports success; when the reply is another
    address it reports failure with the verification-failed message. In
    all three cases the verification query is the last command: nothing
    is written after the address write. *)
Theorem set_gpib_address_after_write {rt : PyRuntime}
    (new_address : Z) (w w1 w3 : world) (inst : Instrument)
    (ca : option Z) (o : outcome Z) :
  instrument w = Some inst ->
  0 <= new_address <= 30 ->
  read_current_address w = (Return ca, w1) ->
  on_write inst (trace w1) (":SYSTem:GPIB:ADDRess " ++ fmt_int new_address)
    = None ->
  query_int "print(gpib.address)"
    (log (Write (":SYSTem:GPIB:ADDRess " ++ fmt_int new_address)) w1)
    = (o, w3) ->
  set_gpib_address new_address w =
    (Return
       match o with
       | Raise e => (true, msg_unverified e)
       | Return n =>
           if n =? new_address
           then (true, msg_changed ca new_address)
           else (false, msg_mismatch n)
       end, w3)
  /\ trace w3 =
       Query "print(gpib.address)"
       :: Write (":SYSTem:GPIB:ADDRess " ++ fmt_int new_address)
       :: trace w1.
Proof.
  intros Hi Hr Hca Hw Hq.
  assert (Hi1 : instrument w1 = Some inst).
  { pose proof (stable_read_current_address w) as [S _].
    rewrite Hca in S. simpl in S. congruence. }
  split.
  - unfold set_gpib_address, bind at 1, get_instrument. rewrite Hi. simpl.
    unfold try_except at 1.
    replace ((0 <=? new_address) && (new_address <=? 30)) with true
      by (symmetry; apply andb_true_iff; split; apply Z.leb_le; lia).
    simpl. unfold bind at 1. rewrite Hca.
    unfold bind at 1.
    rewrite (instr_write_connected inst) by exact Hi1. rewrite Hw.
    unfold try_except, bind at 1. rewrite Hq.
    destruct o as [n | e]; unfold ret.
    + destruct (n =? new_address); reflexivity.
    + reflexivity.
  - rewrite (query_int_trace inst _ (log _ w1) _ _ Hi1 Hq).
    reflexivity.
Qed.

(** Address 5 on an instrument whose queries all time out: the write is
    accepted, the verification raises, the method reports success. *)
Lemma set_gpib_address_after_write_witness :
  fst (set_gpib_address (rt := Demo.runtime) 5 (Demo.connected Demo.mute))
    = Return (true, msg_unverified Demo.io_error).
Proof.
  destruct (set_gpib_address_after_write (rt := Demo.runtime)
              5 (Demo.connected Demo.mute) _ _ Demo.mute None
              (Raise Demo.io_error) eq_refl ltac:(lia)
              eq_refl eq_refl eq_refl) as [H _].
  rewrite H. reflexivity.
Defined.

(** C9 as stated fails when the verification reads back another
    address: on an instrument that answers 18 to every query, the write
    of address 5 is accepted, the verification fails, and the method
    reports failure. *)
Lemma set_gpib_address_mismatch_reports_failure :
  set_gpib_address (rt := Demo.runtime) 5 (Demo.connected (Demo.steady "18"))
  = (Return (false, msg_mismatch (rt := Demo.runtime) 18),
     mkWorld (Some (Demo.steady "18")) false
       [Query "print(gpib.address)"; Write ":SYSTem:GPIB:ADDRess 5";
        Query "print(gpib.address)"]
       (fun _ => false)).
Proof. reflexivity. Qed.

(** ** Inversion of sequenced computations *)

Lemma bind_returns {A B} (m : M A) (k : A -> M B) (w w' : world) (b : B) :
  bind m k w = (Return b, w') ->
  exists a w1, m w = (Return a, w1) /\ k a w1 = (Return b, w').
Proof.
  unfold bind. destruct (m w) as [[a | e] w1]; [ eauto | discriminate ].
Qed.

Lemma instr_write_accepted (inst : Instrument) (cmd : string) (w : world) :
  instrument w = Some inst ->
  accepts_writes inst ->
  instr_write cmd w = (Return tt, log (Write cmd) w).
Proof.
  intros Hi Ha. rewrite (instr_write_connected inst) by exact Hi.
  rewrite Ha. reflexivity.
Qed.

(** ** C7: a range that is neither AUTO nor a number *)

Section InvalidRange.

Context {rt : PyRuntime}.
Variables (start_v stop_v current_limit : float) (current_range : string).

Hypothesis not_auto : String.eqb (str_upper current_range) "AUTO" = false.
Hypothesis not_numeric :
  exists e, py_float current_range = Raise e /\ exn_kind e = ValueError.

Lemma set_current_range_invalid (w w' : world) (f : flow) :
  set_current_range current_range w = (Return f, w') ->
  f = ReturnNow false.
Proof.
  destruct not_numeric as (e & He & Hk).
  unfold set_current_range. rewrite not_auto.
  unfold try_except_class, bind at 1, lift. rewrite He, Hk. simpl.
  intros H. apply bind_returns in H as (_ & w1 & _ & H).
  unfold ret in H. congruence.
Qed.

Lemma set_current_range_fallback (inst : Instrument) (w : world) :
  instrument w = Some inst ->
  accepts_writes inst ->
  set_current_range current_range w =
    (Return (ReturnNow false), log (Write "SENS:CURR:RANG:AUTO ON") w).
Proof.
  intros Hi Ha. destruct not_numeric as (e & He & Hk).
  unfold set_current_range. rewrite not_auto.
  unfold try_except_class, bind at 1, lift. rewrite He, Hk. simpl.
  unfold bind. rewrite (instr_write_accepted inst) by assumption.
  reflexivity.
Qed.

Lemma setup_measurement_invalid_never_true (w w' : world) (b : bool) :
  setup_measurement start_v stop_v current_limit current_range w
    = (Return b, w') ->
  b = false.
Proof.
  unfold setup_measurement, try_except.
  match goal with |- context [match ?body w with _ => _ end] =>
    destruct (body w) as [[b0 | e] w1] eqn:B end.
  - intros H. injection H as <- _.
    apply bind_returns in B as (inst & w2 & _ & B).
    destruct (negb (truthy inst)); [ unfold ret in B; congruence | ].
    do 5 (apply bind_returns in B as (_ & ? & _ & B)).
    apply bind_returns in B as (f & w3 & F & B).
    apply set_current_range_invalid in F. subst f.
    unfold ret in B. congruence.
  - intros H.
    apply bind_returns in H as (inst & w2 & _ & H).
    apply bind_returns in H as (_ & w3 & _ & H).
    unfold ret in H. congruence.
Qed.

End InvalidRange.

(** C7, as the code has it. For every request whose range is neither
    AUTO nor numeric: [setup_measurement] never returns True; and on a
    connected instrument that accepts the commands it writes the five
    settings that precede the range, enables auto-range as the fallback
    (the last command it issues) and returns False, the one value that
    every configuration failure returns. *)
Theorem setup_measurement_invalid_range {rt : PyRuntime}
    (start_v stop_v current_limit : float) (current_range : string)
    (w : world) :
  String.eqb (str_upper current_range) "AUTO" = false ->
  (exists e, py_float current_range = Raise e /\ exn_kind e = ValueError) ->
  (forall b w',
      setup_measurement start_v stop_v current_limit current_range w
        = (Return b, w') ->
      b = false)
  /\ (forall inst,
        instrument w = Some inst ->
        accepts_writes inst ->
        setup_measurement start_v stop_v current_limit current_range w =
          (Return false,
           mkWorld (instrument w) (measurement_running w)
             (Write "SENS:CURR:RANG:AUTO ON"
              :: Write ("SENS:FUNC " ++ dquote ++ "CURR" ++ dquote)
              :: Write ("SOUR:VOLT:ILIM " ++ fmt_float current_limit)
              :: Write ("SOUR:VOLT:RANG "
                        ++ fmt_float (PyFloat.max (PyFloat.abs start_v)
                                                  (PyFloat.abs stop_v)))
              :: Write "SOUR:FUNC VOLT"
              :: Write "ROUT:TERM REAR"
              :: trace w)
             (abort_requests w))).
Proof.
  intros Hauto Hnum. split.
  - intros b w' H.
    exact (setup_measurement_invalid_never_true _ _ _ _ Hauto Hnum _ _ _ H).
  - intros inst Hi Ha.
    unfold setup_measurement, try_except, bind at 1, get_instrument.
    rewrite Hi. simpl.
    unfold bind.
    repeat (rewrite (instr_write_accepted inst) by (simpl; assumption)).
    rewrite (set_current_range_fallback current_range Hauto Hnum inst)
      by (simpl; assumption).
    unfold ret, log; simpl. rewrite ?Hi. reflexivity.
Qed.

(** The range ["abc"] on an instrument that accepts everything. *)
Lemma setup_measurement_invalid_range_witness :
  fst (setup_measurement (rt := Demo.runtime)
         PyFloat.minus_one PyFloat.one Demo.f0_1 "abc"
         (Demo.connected (Demo.steady "")))
  = Return false.
Proof.
  destruct (setup_measurement_invalid_range (rt := Demo.runtime)
              PyFloat.minus_one PyFloat.one Demo.f0_1 "abc"
              (Demo.connected (Demo.steady "")) eq_refl
              (ex_intro _ (Demo.bad_literal "float()" "abc")
                 (conj eq_refl eq_refl))) as [_ H].
  rewrite (H (Demo.steady "") eq_refl (fun _ _ => eq_refl)).
  reflexivity.
Defined.

(** C7 as stated fails: the caller cannot tell an invalid range from
    another configuration failure. The range ["abc"] on a healthy
    instrument, a valid range on an instrument that refuses the
    settings, and a controller without instrument all return the same
    False. *)
Lemma invalid_range_not_distinct :
  fst (setup_measurement (rt := Demo.runtime)
         PyFloat.minus_one PyFloat.one Demo.f0_1 "abc"
         (Demo.connected (Demo.steady "")))
  = fst (setup_measurement (rt := Demo.runtime)
           PyFloat.minus_one PyFloat.one Demo.f0_1 "0.01"
           (Demo.connected Demo.picky))
  /\ fst (setup_measurement (rt := Demo.runtime)
            PyFloat.minus_one PyFloat.one Demo.f0_1 "abc"
            (Demo.connected (Demo.steady "")))
     = fst (setup_measurement (rt := Demo.runtime)
              PyFloat.minus_one PyFloat.one Demo.f0_1 "0.01"
              (mkWorld None false [] (fun _ => false)))
  /\ fst (setup_measurement (rt := Demo.runtime)
            PyFloat.minus_one PyFloat.one Demo.f0_1 "abc"
            (Demo.connected (Demo.steady "")))
     = Return false.
Proof. repeat split. Qed.

(** ** C1: the output after a failed configuration and after a sweep *)

Lemma stable_run {A} (m : M A) (w w' : world) (o : outcome A) :
  stable m -> m w = (o, w') -> instrument w' = instrument w.
Proof. intros S H. destruct (S w) as [I _]. rewrite H in I. exact I. Qed.

Section OutputOff.

Context {rt : PyRuntime}.

(** On a connected controller a [stop_output] that returns has written
    ["OUTP OFF"], and the instrument accepted it. *)
Lemma stop_output_returns (inst : Instrument) (w w' : world) (b : bool) :
  instrument w = Some inst ->
  stop_output w = (Return b, w') ->
  w' = log (Write "OUTP OFF") w
  /\ on_write inst (trace w) "OUTP OFF" = None.
Proof.
  intros Hi. unfold stop_output, bind at 1, get_instrument.
  rewrite Hi. simpl. unfold bind.
  rewrite (instr_write_connected inst) by exact Hi.
  destruct (on_write inst (trace w) "OUTP OFF"); [ discriminate | ].
  unfold ret. intros H. injection H as _ <-. split; reflexivity.
Qed.

(** The exit path of [perform_sweep]: whenever the method returns on a
    connected controller, whether the loop ran to its end or stopped at
    an abort, its last command is an accepted ["OUTP OFF"] and the flag
    is down. *)
Lemma perform_sweep_exit_output_off (inst : Instrument)
    (start_v stop_v : float) (steps : Z) (delay_time : float)
    (callback : option callback_fn) (w w' : world) (ls : lists) :
  instrument w = Some inst ->
  perform_sweep start_v stop_v steps delay_time callback w = (Return ls, w') ->
  hd_error (trace w') = Some (Write "OUTP OFF")
  /\ last_output_command (trace w') = Some (Write "OUTP OFF")
  /\ measurement_running w' = false.
Proof.
  intros Hi H. unfold perform_sweep in H.
  apply bind_returns in H as (step & w1 & H1 & H).
  apply bind_returns in H as (b1 & w2 & H2 & H).
  apply bind_returns in H as (u & w3 & H3 & H).
  apply bind_returns in H as (r & w4 & H4 & H).
  apply bind_returns in H as (b2 & w5 & H5 & H).
  apply bind_returns in H as (u' & w6 & H6 & H).
  assert (I4 : instrument w4 = Some inst).
  { rewrite (stable_run _ _ _ _ (stable_sweep_for _ _ _ _ _ _ _) H4).
    rewrite (stable_run _ _ _ _ (stable_put_running _) H3).
    rewrite (stable_run _ _ _ _ stable_start_output H2).
    rewrite (stable_run _ _ _ _ (stable_lift _) H1). exact Hi. }
  apply (stop_output_returns inst) in H5 as [-> _]; [ | exact I4 ].
  unfold put_running in H6. injection H6 as _ <-.
  unfold ret in H. injection H as _ <-.
  repeat split.
Qed.

(** The exception path of [setup_measurement]: on a connected
    controller, a configuration that returns False has either written
    ["OUTP OFF"] last (a command raised), or has written the auto-range
    fallback last (the range was refused as not numeric) and no
    ["OUTP OFF"] at all. *)
Lemma setup_measurement_failure_paths (inst : Instrument)
    (start_v stop_v current_limit : float) (current_range : string)
    (w w' : world) :
  instrument w = Some inst ->
  setup_measurement start_v stop_v current_limit current_range w
    = (Return false, w') ->
  hd_error (trace w') = Some (Write "OUTP OFF")
  \/ (hd_error (trace w') = Some (Write "SENS:CURR:RANG:AUTO ON")
      /\ String.eqb (str_upper current_range) "AUTO" = false
      /\ last_output_command (trace w') = last_output_command (trace w)).
Proof.
  intros Hi. unfold setup_measurement, try_except.
  match goal with |- context [match ?body w with _ => _ end] =>
    destruct (body w) as [[b0 | e] w1] eqn:B end.
  - intros H. injection H as -> ->. right.
    unfold bind at 1, get_instrument in B. rewrite Hi in B. simpl in B.
    unfold bind at 1 in B.
    destruct (instr_write _ w) as [[[] | e1] v1] eqn:W1; [ | discriminate ].
    unfold bind at 1 in B.
    destruct (instr_write _ v1) as [[[] | e2] v2] eqn:W2; [ | discriminate ].
    unfold bind at 1 in B.
    destruct (instr_write _ v2) as [[[] | e3] v3] eqn:W3; [ | discriminate ].
    unfold bind at 1 in B.
    destruct (instr_write _ v3) as [[[] | e4] v4] eqn:W4; [ | discriminate ].
    unfold bind at 1 in B.
    destruct (instr_write _ v4) as [[[] | e5] v5] eqn:W5; [ | discriminate ].
    unfold bind at 1 in B.
    destruct (set_current_range _ v5) as [[f | e6] v6] eqn:F;
      [ | discriminate ].
    assert (T : forall cmd u u' o,
               instr_write cmd u = (o, u') ->
               instrument u = Some inst ->
               trace u' = Write cmd :: trace u /\ instrument u' = Some inst).
    { intros cmd u u' o E I.
      rewrite (instr_write_connected inst) in E by exact I.
      injection E as _ <-. split; [ reflexivity | exact I ]. }
    destruct (T _ _ _ _ W1 Hi) as [T1 I1].
    destruct (T _ _ _ _ W2 I1) as [T2 I2].
    destruct (T _ _ _ _ W3 I2) as [T3 I3].
    destruct (T _ _ _ _ W4 I3) as [T4 I4].
    destruct (T _ _ _ _ W5 I4) as [T5 I5].
    destruct f as [ | b ].
    + apply bind_returns in B as (_ & ? & _ & B).
      apply bind_returns in B as (_ & ? & _ & B).
      unfold ret in B. discriminate.
    + unfold ret in B. injection B as -> ->.
      unfold set_current_range in F.
      destruct (String.eqb (str_upper current_range) "AUTO") eqn:Auto.
      * apply bind_returns in F as (_ & ? & _ & F).
        unfold ret in F. discriminate.
      * unfold try_except_class in F.
        match type of F with context [match ?m v5 with _ => _ end] =>
          destruct (m v5) as [[f | e] v7] eqn:G end.
        -- apply bind_returns in G as (? & ? & _ & G).
           apply bind_returns in G as (? & ? & _ & G).
           unfold ret in G. congruence.
        -- destruct (exn_class_eqb _ _); [ | discriminate ].
           apply bind_returns in F as ([] & v8 & W6 & F).
           unfold ret in F. injection F as <-.
           assert (I7 : instrument v7 = Some inst).
           { unfold bind, lift in G.
             destruct (py_float current_range); [ | congruence ].
             destruct (instr_write _ v5) as [[[] | ?] v9] eqn:W7;
               [ discriminate | ].
             injection G as _ <-. exact (proj2 (T _ _ _ _ W7 I5)). }
           assert (T7 : last_output_command (trace v7)
                        = last_output_command (trace v5)).
           { unfold bind, lift in G.
             destruct (py_float current_range); [ | congruence ].
             destruct (instr_write _ v5) as [[[] | ?] v9] eqn:W7;
               [ discriminate | ].
             injection G as _ <-.
             rewrite (proj1 (T _ _ _ _ W7 I5)).
             unfold last_output_command. simpl.
             destruct (String.eqb_spec
                         ("SENS:CURR:RANG " ++ fmt_float a) "OUTP ON")
               as [E | _]; [ discriminate E | ].
             destruct (String.eqb_spec
                         ("SENS:CURR:RANG " ++ fmt_float a) "OUTP OFF")
               as [E | _]; [ discriminate E | ].
             reflexivity. }
           destruct (T _ _ _ _ W6 I7) as [T6 _].
           split; [ rewrite T6; reflexivity | ].
           split; [ reflexivity | ].
           rewrite T6. unfold last_output_command in *. simpl.
           rewrite T7, T5, T4, T3, T2, T1. simpl.
           repeat match goal with
           | |- context [String.eqb (?a ++ ?b) ?c] =>
               destruct (String.eqb_spec (a ++ b) c) as [E | _];
               [ discriminate E | ]
           end.
           reflexivity.
  - intros H. left.
    assert (I1 : instrument w1 = Some inst).
    { match type of B with ?body w = _ =>
        assert (S : stable body) end.
      { apply stable_bind; [ auto with stable | intros i ].
        apply stable_if; [ auto with stable | ].
        repeat (apply stable_bind; [ auto with stable | intros _ ]).
        apply stable_bind.
        - unfold set_current_range. auto 10 with stable.
        - intros [ | b ]; auto 10 with stable. }
      rewrite (stable_run _ _ _ _ S B). exact Hi. }
    unfold bind at 1, get_instrument in H. rewrite I1 in H. simpl in H.
    apply bind_returns in H as ([] & w2 & W & H).
    rewrite (instr_write_connected inst) in W by exact I1.
    injection W as _ <-. unfold ret in H. injection H as <-.
    reflexivity.
Qed.

End OutputOff.

(** C1 at a failing input. The output has been switched on; then
    [setup_measurement] is called with the range ["abc"] on an
    instrument that accepts every command. The configuration fails (it
    returns False) and the method has issued no ["OUTP OFF"]: its last
    command is the auto-range fallback, and the last command that
    switched the output is still ["OUTP ON"]. *)
Theorem setup_measurement_invalid_range_output_stays_on :
  let w0 := snd (start_output (Demo.connected (Demo.steady ""))) in
  let run := setup_measurement (rt := Demo.runtime)
               PyFloat.minus_one PyFloat.one Demo.f0_1 "abc" w0 in
  trace w0 = [Write "OUTP ON"]
  /\ fst run = Return false
  /\ trace (snd run) =
       [Write "SENS:CURR:RANG:AUTO ON";
        Write ("SENS:FUNC " ++ dquote ++ "CURR" ++ dquote);
        Write "SOUR:VOLT:ILIM 0.1"; Write "SOUR:VOLT:RANG 1.0";
        Write "SOUR:FUNC VOLT"; Write "ROUT:TERM REAR";
        Write "OUTP ON"]
  /\ ~ In (Write "OUTP OFF") (trace (snd run))
  /\ last_output_command (trace (snd run)) = Some (Write "OUTP ON").
Proof.
  vm_compute. repeat split.
  intros H. repeat (destruct H as [H | H]; [ discriminate H | ]). exact H.
Qed.

(** ** The loop body, case by case *)

Section LoopBody.

Context {rt : PyRuntime}.
Variables (start_v : float) (steps : Z) (delay_time : float).
Variable callback : option callback_fn.
Variable voltage_step : float.

Lemma external_abort_returns (i : nat) (w : world) :
  external_abort i w = (Return tt, snd (external_abort i w)).
Proof. unfold external_abort. destruct (abort_requests w i); reflexivity. Qed.

(** The flag is down at the test: the body breaks at once. *)
Lemma sweep_body_break (i : nat) (ls : lists) (w : world) :
  measurement_running (snd (external_abort i w)) = false ->
  sweep_body start_v steps delay_time callback voltage_step i ls w
    = (Return (Break, ls), snd (external_abort i w)).
Proof.
  intros H. unfold sweep_body, bind at 1.
  rewrite external_abort_returns.
  unfold bind at 1, get_running. rewrite H. reflexivity.
Qed.

(** The flag is up at the test: the body measures. *)
Lemma sweep_body_run (i : nat) (ls : lists) (w : world) :
  measurement_running (snd (external_abort i w)) = true ->
  sweep_body start_v steps delay_time callback voltage_step i ls w =
    match voltage_at start_v voltage_step i with
    | Raise e => (Raise e, snd (external_abort i w))
    | Return voltage =>
        match measure_point voltage (snd (external_abort i w)) with
        | (Return None, w1) => (Return (Next, ls), w1)
        | (Return (Some (current, resistance)), w1) =>
            (sleep delay_time ;;
             report steps callback i voltage current resistance ;;
             ret (Next, append_point ls voltage current resistance)) w1
        | (Raise e, w1) => (Raise e, w1)
        end
    end.
Proof.
  intros H. unfold sweep_body, bind at 1.
  rewrite external_abort_returns.
  unfold bind at 1, get_running. rewrite H. simpl.
  unfold bind at 1, lift.
  destruct (voltage_at start_v voltage_step i) as [voltage | e];
    [ | reflexivity ].
  unfold bind at 1.
  destruct (measure_point voltage _) as [[[[c r] | ] | e] w1]; reflexivity.
Qed.

(** Every way in which the body can return. *)
Lemma sweep_body_cases (i : nat) (ls ls' : lists) (w w' : world) (c : ctl) :
  sweep_body start_v steps delay_time callback voltage_step i ls w
    = (Return (c, ls'), w') ->
  (c = Break /\ ls' = ls
   /\ measurement_running (snd (external_abort i w)) = false)
  \/ (c = Next
      /\ measurement_running (snd (external_abort i w)) = true
      /\ exists voltage w1,
           voltage_at start_v voltage_step i = Return voltage
           /\ ((measure_point voltage (snd (external_abort i w))
                  = (Return None, w1) /\ ls' = ls)
               \/ (exists current resistance,
                     measure_point voltage (snd (external_abort i w))
                       = (Return (Some (current, resistance)), w1)
                     /\ ls' = append_point ls voltage current resistance))).
Proof.
  destruct (measurement_running (snd (external_abort i w))) eqn:R.
  - rewrite (sweep_body_run i ls w R).
    destruct (voltage_at start_v voltage_step i) as [voltage | e];
      [ | discriminate ].
    destruct (measure_point voltage _) as [[[[cu r] | ] | e] w1] eqn:E;
      [ | | discriminate ].
    + intros H.
      apply bind_returns in H as (_ & ? & _ & H).
      apply bind_returns in H as (_ & ? & _ & H).
      unfold ret in H. injection H as <- <- _.
      right. repeat split. exists voltage, w1. split; [ reflexivity | ].
      right. exists cu, r. split; [ exact E | reflexivity ].
    + intros H. injection H as <- <- _.
      right. repeat split. exists voltage, w1. split; [ reflexivity | ].
      left. split; [ exact E | reflexivity ].
  - rewrite (sweep_body_break i ls w R).
    intros H. injection H as <- <- _. left. repeat split.
Qed.

Lemma sweep_for_cons (i : nat) (rest : list nat) (ls : lists) (w : world) :
  sweep_for start_v steps delay_time callback voltage_step (i :: rest) ls w =
    match sweep_body start_v steps delay_time callback voltage_step i ls w with
    | (Return (Break, ls'), w') => (Return (Break, ls'), w')
    | (Return (Next, ls'), w') =>
        sweep_for start_v steps delay_time callback voltage_step rest ls' w'
    | (Raise e, w') => (Raise e, w')
    end.
Proof.
  simpl. unfold bind.
  destruct (sweep_body _ _ _ _ _ i ls w) as [[[[ | ] ls'] | e] w'];
    reflexivity.
Qed.

(** The loop over [l1 ++ l2] is the loop over [l1], followed, unless it
    broke, by the loop over [l2]. *)
Lemma sweep_for_app (l1 l2 : list nat) :
  forall ls w,
    sweep_for start_v steps delay_time callback voltage_step
      (l1 ++ l2)%list ls w =
      match
        sweep_for start_v steps delay_time callback voltage_step l1 ls w
      with
      | (Return (Break, ls'), w') => (Return (Break, ls'), w')
      | (Return (Next, ls'), w') =>
          sweep_for start_v steps delay_time callback voltage_step l2 ls' w'
      | (Raise e, w') => (Raise e, w')
      end.
Proof.
  induction l1 as [ | i l1 IH ]; intros ls w.
  - reflexivity.
  - rewrite <- app_comm_cons, !sweep_for_cons.
    destruct (sweep_body _ _ _ _ _ i ls w) as [[[[ | ] ls'] | e] w'];
      try reflexivity.
    apply IH.
Qed.

End LoopBody.

(** ** C10: the three lists grow together *)

Lemma balanced_append (ls : lists) (v c r : float) :
  balanced ls -> balanced (append_point ls v c r).
Proof.
  intros [A B]. unfold balanced, append_point, voltages_of, currents_of,
    resistances_of in *. simpl.
  rewrite !length_app. simpl. split; congruence.
Qed.

Lemma combine_map_fst {A B} (l1 : list A) :
  forall l2 : list B,
    List.length l1 = List.length l2 -> map fst (combine l1 l2) = l1.
Proof.
  induction l1 as [ | a l1 IH ]; intros [ | b l2 ] H; simpl in *;
    try reflexivity; try discriminate.
  f_equal. apply IH. congruence.
Qed.

Lemma combine_map_snd {A B} (l1 : list A) :
  forall l2 : list B,
    List.length l1 = List.length l2 -> map snd (combine l1 l2) = l2.
Proof.
  induction l1 as [ | a l1 IH ]; intros [ | b l2 ] H; simpl in *;
    try reflexivity; try discriminate.
  f_equal. apply IH. congruence.
Qed.

(** Zipping aligned lists loses nothing: the rows give back the three
    lists. *)
Lemma save_data_rows_complete (ls : lists) :
  balanced ls ->
  map (fun row => fst (fst row)) (save_data_to_csv_rows ls) = voltages_of ls
  /\ map (fun row => snd (fst row)) (save_data_to_csv_rows ls) = currents_of ls
  /\ map snd (save_data_to_csv_rows ls) = resistances_of ls
  /\ List.length (save_data_to_csv_rows ls) = List.length (voltages_of ls).
Proof.
  intros [A B]. unfold save_data_to_csv_rows.
  assert (L : List.length (combine (voltages_of ls) (currents_of ls))
              = List.length (resistances_of ls)).
  { rewrite length_combine, <- A, Nat.min_id. congruence. }
  repeat split.
  - rewrite <- (map_map fst fst), combine_map_fst by exact L.
    apply combine_map_fst, A.
  - rewrite <- (map_map fst snd), combine_map_fst by exact L.
    apply combine_map_snd, A.
  - apply combine_map_snd, L.
  - rewrite length_combine, L, <- B, <- A. apply Nat.min_id.
Qed.

Section Aligned.

Context {rt : PyRuntime}.
Variables (start_v : float) (steps : Z) (delay_time : float).
Variable callback : option callback_fn.
Variable voltage_step : float.

Lemma sweep_body_balanced (i : nat) (ls ls' : lists) (w w' : world) (c : ctl) :
  sweep_body start_v steps delay_time callback voltage_step i ls w
    = (Return (c, ls'), w') ->
  balanced ls -> balanced ls'.
Proof.
  intros H Hb.
  apply sweep_body_cases in H
    as [(_ & -> & _)
       | (_ & _ & v & w1 & _ & [(_ & ->) | (cu & r & _ & ->)])];
    auto using balanced_append.
Qed.

Lemma sweep_for_balanced (idx : list nat) :
  forall (ls ls' : lists) (w w' : world) (c : ctl),
    sweep_for start_v steps delay_time callback voltage_step idx ls w
      = (Return (c, ls'), w') ->
    balanced ls -> balanced ls'.
Proof.
  induction idx as [ | i rest IH ]; intros ls ls' w w' c H Hb.
  - simpl in H. unfold ret in H. injection H as _ <- _. exact Hb.
  - rewrite sweep_for_cons in H.
    destruct (sweep_body _ _ _ _ _ i ls w) as [[[[ | ] ls1] | e] w1] eqn:B;
      [ | | discriminate ].
    + exact (IH _ _ _ _ _ H (sweep_body_balanced _ _ _ _ _ _ B Hb)).
    + injection H as _ <- _. exact (sweep_body_balanced _ _ _ _ _ _ B Hb).
Qed.

End Aligned.

Lemma extended_by_nil (ls : lists) : extended_by ls [] ls.
Proof. unfold extended_by. simpl. rewrite !app_nil_r. auto. Qed.

Lemma extended_by_cons (ls ls' : lists) (v c r : float)
    (points : list (float * float * float)) :
  extended_by (append_point ls v c r) points ls' ->
  extended_by ls ((v, c, r) :: points) ls'.
Proof.
  unfold extended_by, append_point, voltages_of, currents_of,
    resistances_of. simpl.
  intros (A & B & C). rewrite <- !app_assoc in *. auto.
Qed.

Lemma rows_of_points (ls : lists) (points : list (float * float * float)) :
  extended_by ([], [], []) points ls ->
  save_data_to_csv_rows ls = points.
Proof.
  unfold extended_by, save_data_to_csv_rows. simpl.
  intros (-> & -> & ->).
  induction points as [ | [[v c] r] points IH ]; simpl; congruence.
Qed.

Section Growing.

Context {rt : PyRuntime}.
Variables (start_v : float) (steps : Z) (delay_time : float).
Variable callback : option callback_fn.
Variable voltage_step : float.

Lemma sweep_for_points (idx : list nat) :
  forall (ls ls' : lists) (w w' : world) (c : ctl),
    sweep_for start_v steps delay_time callback voltage_step idx ls w
      = (Return (c, ls'), w') ->
    exists points,
      extended_by ls points ls'
      /\ (List.length points <= List.length idx)%nat
      /\ Forall (measured_point start_v voltage_step) points.
Proof.
  induction idx as [ | i rest IH ]; intros ls ls' w w' c H.
  - simpl in H. unfold ret in H. injection H as _ <- _.
    exists []. split; [ apply extended_by_nil | ].
    split; [ apply Nat.le_refl | constructor ].
  - rewrite sweep_for_cons in H.
    destruct (sweep_body _ _ _ _ _ i ls w) as [[[[ | ] ls1] | e] w1] eqn:B;
      [ | | discriminate ].
    + destruct (IH _ _ _ _ _ H) as (points & E & L & F).
      apply sweep_body_cases in B
        as [(D & _) | (_ & _ & v & w2 & Hv & [(_ & ->)
                                              | (cu & r & Hm & ->)])].
      * discriminate D.
      * exists points. split; [ exact E | ].
        split; [ simpl; lia | exact F ].
      * exists ((v, cu, r) :: points).
        split; [ apply extended_by_cons, E | ].
        split; [ simpl; lia | ].
        constructor; [ | exact F ].
        exists i, (snd (external_abort i w)), w2. split; assumption.
    + injection H as _ <- _.
      apply sweep_body_cases in B
        as [(_ & -> & _) | (D & _)]; [ | discriminate D ].
      exists []. split; [ apply extended_by_nil | ].
      split; [ simpl; lia | constructor ].
Qed.

End Growing.

Lemma perform_sweep_points {rt : PyRuntime}
    (start_v stop_v : float) (steps : Z) (delay_time : float)
    (callback : option callback_fn) (w w' : world) (ls : lists) :
  perform_sweep start_v stop_v steps delay_time callback w = (Return ls, w') ->
  (List.length (save_data_to_csv_rows ls) <= Z.to_nat steps)%nat
  /\ exists voltage_step,
       PyNum.truediv_float_int (PyFloat.sub stop_v start_v) (steps - 1)
         = Return voltage_step
       /\ Forall (measured_point start_v voltage_step)
            (save_data_to_csv_rows ls).
Proof.
  intros H. unfold perform_sweep in H.
  apply bind_returns in H as (step & w1 & H1 & H).
  apply bind_returns in H as (b1 & w2 & _ & H).
  apply bind_returns in H as (u & w3 & _ & H).
  apply bind_returns in H as ([c ls1] & w4 & H4 & H).
  apply bind_returns in H as (b2 & w5 & _ & H).
  apply bind_returns in H as (u' & w6 & _ & H).
  unfold ret in H. injection H as <- _. simpl.
  destruct (sweep_for_points _ _ _ _ _ _ _ _ _ _ _ H4) as (points & E & L & F).
  rewrite (rows_of_points _ _ E).
  unfold range in L. rewrite length_seq in L.
  split; [ exact L | ].
  exists step. split; [ | exact F ].
  unfold lift in H1. injection H1 as H1 _. exact H1.
Qed.

Lemma perform_sweep_balanced {rt : PyRuntime}
    (start_v stop_v : float) (steps : Z) (delay_time : float)
    (callback : option callback_fn) (w w' : world) (ls : lists) :
  perform_sweep start_v stop_v steps delay_time callback w = (Return ls, w') ->
  balanced ls.
Proof.
  intros H. unfold perform_sweep in H.
  apply bind_returns in H as (step & w1 & _ & H).
  apply bind_returns in H as (b1 & w2 & _ & H).
  apply bind_returns in H as (u & w3 & _ & H).
  apply bind_returns in H as ([c ls1] & w4 & H4 & H).
  apply bind_returns in H as (b2 & w5 & _ & H).
  apply bind_returns in H as (u' & w6 & _ & H).
  unfold ret in H. injection H as <- _. simpl.
  apply (sweep_for_balanced _ _ _ _ _ _ _ _ _ _ _ H4).
  split; reflexivity.
Qed.



(** ** C4: rows, voltages and indices of a sweep *)

Lemma float_of_int_returns (z : Z) (f : float) :
  PyNum.float_of_int z = Return f -> f = PyFloat.of_Z z.
Proof.
  unfold PyNum.float_of_int.
  destruct (PyFloat.is_inf (PyFloat.of_Z z)); congruence.
Qed.

Lemma truediv_float_int_returns (a s : float) (n : Z) :
  PyNum.truediv_float_int a n = Return s ->
  s = PyFloat.div a (PyFloat.of_Z n).
Proof.
  unfold PyNum.truediv_float_int.
  destruct (PyNum.float_of_int n) as [b | e] eqn:E; [ | discriminate ].
  apply float_of_int_returns in E. subst b.
  unfold PyNum.truediv. destruct (PyFloat.is_zero _); congruence.
Qed.

Lemma voltage_at_returns (start_v voltage_step v : float) (i : nat) :
  voltage_at start_v voltage_step i = Return v ->
  v = PyFloat.add start_v
        (PyFloat.mul (PyFloat.of_Z (Z.of_nat i)) voltage_step).
Proof.
  unfold voltage_at, PyNum.mul_int_float.
  destruct (PyNum.float_of_int (Z.of_nat i)) as [b | e] eqn:E;
    [ | discriminate ].
  apply float_of_int_returns in E. subst b. congruence.
Qed.

Section Indices.

Context {rt : PyRuntime}.
Variables (start_v : float) (steps : Z) (delay_time : float).
Variable callback : option callback_fn.
Variable voltage_step : float.

(** The loop over the indices [a, a+1, ..., a+n-1] appends the voltages
    of an increasing selection of these indices. *)
Lemma sweep_for_indices (n : nat) :
  forall (a : nat) (ls ls' : lists) (w w' : world) (c : ctl),
    sweep_for start_v steps delay_time callback voltage_step (seq a n) ls w
      = (Return (c, ls'), w') ->
    exists (idx : list nat) (vs : list float),
      StronglySorted lt idx
      /\ Forall (fun i => (a <= i < a + n)%nat) idx
      /\ (List.length idx <= n)%nat
      /\ Forall2 (fun i v => voltage_at start_v voltage_step i = Return v)
           idx vs
      /\ voltages_of ls' = (voltages_of ls ++ vs)%list.
Proof.
  induction n as [ | n IH ]; intros a ls ls' w w' c H.
  - simpl in H. unfold ret in H. injection H as _ <- _.
    exists [], []. rewrite app_nil_r.
    repeat split; constructor.
  - rewrite <- cons_seq, sweep_for_cons in H.
    destruct (sweep_body _ _ _ _ _ a ls w) as [[[[ | ] ls1] | e] w1] eqn:B;
      [ | | discriminate ].
    + destruct (IH _ _ _ _ _ _ H) as (idx & vs & Hs & F & L & V & E).
      assert (F' : Forall (fun i => (a <= i < a + S n)%nat) idx).
      { revert F. apply Forall_impl. intros i. lia. }
      apply sweep_body_cases in B
        as [(B & _) | (_ & _ & v & w2 & Hv & [(_ & ->) | (cu & r & _ & ->)])];
        [ discriminate B | | ].
      * exists idx, vs. repeat split; auto.
      * exists (a :: idx), (v :: vs). repeat split.
        -- constructor; [ exact Hs | ].
           revert F. apply Forall_impl. intros i. lia.
        -- constructor; [ lia | exact F' ].
        -- simpl. lia.
        -- constructor; assumption.
        -- rewrite E. unfold append_point, voltages_of. simpl.
           rewrite <- app_assoc. reflexivity.
    + injection H as _ <- _.
      apply sweep_body_cases in B as [(_ & -> & _) | (B & _)];
        [ | discriminate B ].
      exists [], []. rewrite app_nil_r.
      repeat split; try constructor. simpl. lia.
Qed.

End Indices.

(** C4. For every sweep with step count N >= 2 that returns: there are
    at most N rows; there is a strictly increasing list of indices
    below N, one per row and in row order, such that the voltage of the
    row produced at index i is start + i * ((stop - start) / (N - 1)),
    computed in binary64. *)
Theorem completed_sweep_rows {rt : PyRuntime}
    (start_v stop_v : float) (steps : Z) (delay_time : float)
    (callback : option callback_fn) (w w' : world) (ls : lists) :
  2 <= steps ->
  perform_sweep start_v stop_v steps delay_time callback w = (Return ls, w') ->
  (List.length (save_data_to_csv_rows ls) <= Z.to_nat steps)%nat
  /\ exists idx : list nat,
       StronglySorted lt idx
       /\ Forall (fun i => (i < Z.to_nat steps)%nat) idx
       /\ Forall2
            (fun i v =>
               v = PyFloat.add start_v
                     (PyFloat.mul (PyFloat.of_Z (Z.of_nat i))
                        (PyFloat.div (PyFloat.sub stop_v start_v)
                           (PyFloat.of_Z (steps - 1)))))
            idx (voltages_of ls).
Proof.
  intros _ H.
  pose proof (perform_sweep_balanced _ _ _ _ _ _ _ _ H) as Hb.
  destruct (save_data_rows_complete ls Hb) as (_ & _ & _ & Hlen).
  unfold perform_sweep in H.
  apply bind_returns in H as (step & w1 & H1 & H).
  apply bind_returns in H as (b1 & w2 & _ & H).
  apply bind_returns in H as (u & w3 & _ & H).
  apply bind_returns in H as ([c ls1] & w4 & H4 & H).
  apply bind_returns in H as (b2 & w5 & _ & H).
  apply bind_returns in H as (u' & w6 & _ & H).
  unfold ret in H. injection H as <- _. simpl in *.
  unfold lift in H1. injection H1 as H1 _.
  apply truediv_float_int_returns in H1. subst step.
  apply sweep_for_indices in H4 as (idx & vs & Hs & F & L & V & E).
  simpl in E. subst vs.
  split.
  - rewrite Hlen. rewrite <- (Forall2_length V). exact L.
  - exists idx. split; [ exact Hs | split ].
    + revert F. apply Forall_impl. intros i. lia.
    + revert V. apply Forall2_impl. intros i v.
      apply voltage_at_returns.
Qed.

(** The sweep of three steps from -1 V to 1 V whose second measurement
    fails: two rows, produced at the indices 0 and 2. *)
Lemma completed_sweep_rows_witness :
  exists idx : list nat,
    StronglySorted lt idx
    /\ Forall (fun i => (i < 3)%nat) idx
    /\ Forall2
         (fun i v =>
            v = PyFloat.add PyFloat.minus_one
                  (PyFloat.mul (PyFloat.of_Z (Z.of_nat i))
                     (PyFloat.div (PyFloat.sub PyFloat.one PyFloat.minus_one)
                        (PyFloat.of_Z (3 - 1)))))
         idx [PyFloat.minus_one; PyFloat.one].
Proof.
  refine (proj2 (completed_sweep_rows (rt := Demo.runtime)
                   PyFloat.minus_one PyFloat.one 3 PyFloat.zero
                   (Some Demo.quiet) (Demo.connected Demo.flaky) _
                   ([PyFloat.minus_one; PyFloat.one],
                    [Demo.f0_01; Demo.f0_01], [Demo.fm100; Demo.f100])
                   _ _)).
  - lia.
  - vm_compute. reflexivity.
Defined.

(** ** C5: one failed point does not end the sweep *)

(** C5. Whenever the loop reaches an index whose measurement fails, the
    body ends with the three lists unchanged and the loop goes on with
    the next index. In particular the sweep of three steps from -1 V to
    1 V in which only the measurement at index 1 fails returns exactly
    the rows of index 0 (-1 V) and index 2 (1 V), the loop having run
    through its last index without a break. *)
Theorem single_failure_is_not_fatal :
  (forall (rt : PyRuntime) (start_v : float) (steps : Z)
          (delay_time : float) (callback : option callback_fn)
          (voltage_step : float) (i : nat) (rest : list nat) (ls : lists)
          (w w1 : world) (voltage : float),
      measurement_running (snd (external_abort i w)) = true ->
      voltage_at start_v voltage_step i = Return voltage ->
      measure_point voltage (snd (external_abort i w)) = (Return None, w1) ->
      sweep_body start_v steps delay_time callback voltage_step i ls w
        = (Return (Next, ls), w1)
      /\ sweep_for start_v steps delay_time callback voltage_step
           (i :: rest) ls w
         = sweep_for start_v steps delay_time callback voltage_step
             rest ls w1)
  /\ (let run := perform_sweep (rt := Demo.runtime)
                   PyFloat.minus_one PyFloat.one 3 PyFloat.zero
                   (Some Demo.quiet) (Demo.connected Demo.flaky) in
      fst run =
        Return ([PyFloat.minus_one; PyFloat.one],
                [Demo.f0_01; Demo.f0_01],
                [Demo.fm100; Demo.f100])
      /\ filter (fun ev => negb (is_progress ev)) (trace (snd run)) =
           [Write "OUTP OFF";
            Sleep PyFloat.zero; Query "MEAS:CURR?"; Write "SOUR:VOLT 1.0";
            Query "MEAS:CURR?"; Write "SOUR:VOLT 0.0";
            Sleep PyFloat.zero; Query "MEAS:CURR?"; Write "SOUR:VOLT -1.0";
            Write "OUTP ON"]
      /\ fst (sweep_for (rt := Demo.runtime)
                PyFloat.minus_one 3 PyFloat.zero (Some Demo.quiet)
                PyFloat.one (range 3) ([], [], [])
                (set_running true
                   (log (Write "OUTP ON") (Demo.connected Demo.flaky))))
         = Return (Next,
                   ([PyFloat.minus_one; PyFloat.one],
                    [Demo.f0_01; Demo.f0_01],
                    [Demo.fm100; Demo.f100]))).
Proof.
  split.
  - intros rt start_v steps delay_time callback voltage_step i rest ls
      w w1 voltage Hrun Hv Hm.
    assert (B : sweep_body start_v steps delay_time callback voltage_step
                  i ls w = (Return (Next, ls), w1)).
    { rewrite sweep_body_run by exact Hrun. rewrite Hv, Hm. reflexivity. }
    split; [ exact B | ].
    rewrite sweep_for_cons, B. reflexivity.
  - vm_compute. repeat split.
Qed.

(** The skipping law at index 1 of that sweep. *)
Lemma single_failure_is_not_fatal_witness :
  let w := set_running true
             (log (Progress PyFloat.minus_one Demo.f0_01 Demo.fm100 Demo.f33)
                (log (Sleep PyFloat.zero)
                   (log (Query "MEAS:CURR?")
                      (log (Write "SOUR:VOLT -1.0")
                         (log (Write "OUTP ON")
                            (Demo.connected Demo.flaky)))))) in
  sweep_body (rt := Demo.runtime) PyFloat.minus_one 3 PyFloat.zero
    (Some Demo.quiet) PyFloat.one 1
    ([PyFloat.minus_one], [Demo.f0_01], [Demo.fm100]) w
  = (Return (Next, ([PyFloat.minus_one], [Demo.f0_01], [Demo.fm100])),
     log (Query "MEAS:CURR?") (log (Write "SOUR:VOLT 0.0") w)).
Proof.
  intros w.
  refine (proj1 (proj1 single_failure_is_not_fatal Demo.runtime
                   PyFloat.minus_one 3 PyFloat.zero (Some Demo.quiet)
                   PyFloat.one 1%nat [] _ w _ PyFloat.zero _ _ _));
    vm_compute; reflexivity.
Defined.

(** ** C2: when the progress callback is called *)

Lemma silent_ret {A} (a : A) : silent (ret a).
Proof. intros w. reflexivity. Qed.

Lemma silent_lift {A} (o : outcome A) : silent (lift o).
Proof. intros w. reflexivity. Qed.

Lemma silent_bind {A B} (m : M A) (k : A -> M B) :
  silent m -> (forall a, silent (k a)) -> silent (bind m k).
Proof.
  intros Hm Hk w. unfold bind.
  specialize (Hm w). destruct (m w) as [[a | e] w1]; simpl in *.
  - rewrite Hk. exact Hm.
  - exact Hm.
Qed.

Lemma silent_try_except {A} (m : M A) (h : exn -> M A) :
  silent m -> (forall e, silent (h e)) -> silent (try_except m h).
Proof.
  intros Hm Hh w. unfold try_except.
  specialize (Hm w). destruct (m w) as [[a | e] w1]; simpl in *.
  - exact Hm.
  - rewrite Hh. exact Hm.
Qed.

Lemma silent_if {A} (b : bool) (m1 m2 : M A) :
  silent m1 -> silent m2 -> silent (if b then m1 else m2).
Proof. destruct b; auto. Qed.

Lemma silent_get_instrument : silent get_instrument.
Proof. intros w. reflexivity. Qed.

Lemma silent_get_running : silent get_running.
Proof. intros w. reflexivity. Qed.

Lemma silent_put_running (b : bool) : silent (put_running b).
Proof. intros w. reflexivity. Qed.

Lemma silent_instr_write (cmd : string) : silent (instr_write cmd).
Proof.
  intros w. unfold instr_write.
  destruct (instrument w); [ destruct (on_write _ _ _) | ]; reflexivity.
Qed.

Lemma silent_instr_query (cmd : string) : silent (instr_query cmd).
Proof.
  intros w. unfold instr_query. destruct (instrument w); reflexivity.
Qed.

Create HintDb silent.
#[export] Hint Resolve silent_ret silent_lift silent_get_instrument
  silent_get_running silent_put_running silent_instr_write
  silent_instr_query : silent.
#[export] Hint Resolve silent_bind silent_try_except silent_if : silent.

Lemma silent_stop_output : silent stop_output.
Proof. unfold stop_output. auto 10 with silent. Qed.

Lemma silent_abort_measurement : silent abort_measurement.
Proof. unfold abort_measurement. auto using silent_stop_output with silent. Qed.

Lemma silent_external_abort (i : nat) : silent (external_abort i).
Proof.
  intros w. unfold external_abort.
  destruct (abort_requests w i); simpl.
  - apply silent_abort_measurement.
  - reflexivity.
Qed.

Section Progress.

Context {rt : PyRuntime}.

Lemma silent_sleep (secs : float) : silent (sleep secs).
Proof. intros w. unfold sleep. destruct (time_sleep secs); reflexivity. Qed.

Lemma silent_measure_point (voltage : float) : silent (measure_point voltage).
Proof.
  unfold measure_point.
  apply silent_try_except; [ | auto with silent ].
  apply silent_bind; [ auto with silent | intros inst ].
  apply silent_if; auto 10 with silent.
Qed.

(** Without a callback the whole body is silent. *)
Lemma silent_sweep_body_no_callback start_v steps delay_time step i ls :
  silent (sweep_body start_v steps delay_time None step i ls).
Proof.
  unfold sweep_body.
  apply silent_bind; [ apply silent_external_abort | intros _ ].
  apply silent_bind; [ auto with silent | intros running ].
  apply silent_if; [ auto with silent | ].
  apply silent_bind; [ auto with silent | intros voltage ].
  apply silent_bind; [ apply silent_measure_point | intros [[c r] | ] ];
    [ | auto with silent ].
  apply silent_bind; [ apply silent_sleep | intros _ ].
  unfold report. auto with silent.
Qed.

Lemma progress_at_returns (steps : Z) (i : nat) (p : float) :
  progress_at steps i = Return p ->
  p = PyFloat.div (PyFloat.exact_Z (100 * (Z.of_nat i + 1)))
        (PyFloat.exact_Z steps).
Proof.
  unfold progress_at, PyNum.truediv_int.
  destruct (steps =? 0); [ discriminate | ].
  destruct (PyFloat.is_inf _); congruence.
Qed.

End Progress.

(** C2, as the code has it. At every index that the loop reaches (the
    flag is up at the test), with a callback given: if the measurement
    succeeds and the delay elapses, the callback is called once, with
    the point and with 100 * (i + 1) / steps, a number that depends on
    the index and the step count only; if the measurement fails, the
    callback is not called for that index. Without a callback nothing
    is reported at all. *)
Theorem progress_follows_measured_points {rt : PyRuntime}
    (start_v : float) (steps : Z) (delay_time : float) (cb : callback_fn)
    (voltage_step : float) (i : nat) (ls : lists) (w : world)
    (voltage : float) :
  measurement_running (snd (external_abort i w)) = true ->
  voltage_at start_v voltage_step i = Return voltage ->
  (forall current resistance w1 p,
      measure_point voltage (snd (external_abort i w))
        = (Return (Some (current, resistance)), w1) ->
      time_sleep delay_time = None ->
      progress_at steps i = Return p ->
      p = PyFloat.div (PyFloat.exact_Z (100 * (Z.of_nat i + 1)))
            (PyFloat.exact_Z steps)
      /\ sweep_body start_v steps delay_time (Some cb) voltage_step i ls w =
           (match cb (Sleep delay_time :: trace w1)
                    voltage current resistance p with
            | None =>
                Return (Next, append_point ls voltage current resistance)
            | Some e => Raise e
            end,
            log (Progress voltage current resistance p)
              (log (Sleep delay_time) w1))
      /\ progress_events (trace (log (Progress voltage current resistance p)
                                   (log (Sleep delay_time) w1)))
         = Progress voltage current resistance p
           :: progress_events (trace w))
  /\ (forall w1,
        measure_point voltage (snd (external_abort i w))
          = (Return None, w1) ->
        sweep_body start_v steps delay_time (Some cb) voltage_step i ls w
          = (Return (Next, ls), w1)
        /\ progress_events (trace w1) = progress_events (trace w))
  /\ (forall o w',
        sweep_body start_v steps delay_time None voltage_step i ls w
          = (o, w') ->
        progress_events (trace w') = progress_events (trace w)).
Proof.
  intros Hrun Hv.
  assert (Hq : forall m w1,
             measure_point voltage (snd (external_abort i w)) = (m, w1) ->
             progress_events (trace w1) = progress_events (trace w)).
  { intros m w1 E.
    pose proof (silent_measure_point voltage (snd (external_abort i w))) as Q.
    rewrite E in Q. simpl in Q. rewrite Q.
    apply silent_external_abort. }
  split; [ | split ].
  - intros current resistance w1 p Hm Hs Hp.
    split; [ exact (progress_at_returns _ _ _ Hp) | split ].
    + rewrite sweep_body_run by exact Hrun. rewrite Hv, Hm.
      unfold bind at 1, sleep. rewrite Hs.
      unfold bind at 1, report, bind at 1, lift. rewrite Hp.
      unfold call. simpl.
      destruct (cb _ voltage current resistance p); reflexivity.
    + simpl. unfold progress_events at 1. simpl.
      f_equal. exact (Hq _ _ Hm).
  - intros w1 Hm. split.
    + rewrite sweep_body_run by exact Hrun. rewrite Hv, Hm. reflexivity.
    + exact (Hq _ _ Hm).
  - intros o w' H.
    pose proof (silent_sweep_body_no_callback
                  start_v steps delay_time voltage_step i ls w) as Q.
    rewrite H in Q. exact Q.
Qed.

(** The three cases at the indices 0 and 1 of the sweep whose second
    measurement fails. *)
Lemma progress_follows_measured_points_witness :
  let w0 := set_running true
              (log (Write "OUTP ON") (Demo.connected Demo.flaky)) in
  fst (sweep_body (rt := Demo.runtime) PyFloat.minus_one 3 PyFloat.zero
         (Some Demo.quiet) PyFloat.one 0 ([], [], []) w0)
  = Return (Next, ([PyFloat.minus_one], [Demo.f0_01], [Demo.fm100])).
Proof.
  intros w0.
  destruct (progress_follows_measured_points (rt := Demo.runtime)
              PyFloat.minus_one 3 PyFloat.zero Demo.quiet PyFloat.one
              0%nat ([], [], []) w0 PyFloat.minus_one eq_refl eq_refl)
    as (H & _ & _).
  destruct (H Demo.f0_01 Demo.fm100
              (log (Query "MEAS:CURR?") (log (Write "SOUR:VOLT -1.0") w0))
              Demo.f33 eq_refl eq_refl eq_refl) as (_ & E & _).
  rewrite E. reflexivity.
Defined.

(** C2 as stated fails at an index whose measurement fails. In the
    sweep of three steps whose second measurement fails, index 1 is
    reached (its voltage is written and its current is queried), and
    the callback is called twice in all: for index 0 with 100/3 and
    for index 2 with 100; never for index 1. *)
Lemma no_progress_for_failed_point :
  let tr := trace (snd (perform_sweep (rt := Demo.runtime)
                          PyFloat.minus_one PyFloat.one 3 PyFloat.zero
                          (Some Demo.quiet) (Demo.connected Demo.flaky))) in
  In (Write "SOUR:VOLT 0.0") tr
  /\ progress_events tr =
       [Progress PyFloat.one Demo.f0_01 Demo.f100 Demo.f100;
        Progress PyFloat.minus_one Demo.f0_01 Demo.fm100 Demo.f33]
  /\ (forall c r p, ~ In (Progress PyFloat.zero c r p) tr).
Proof.
  vm_compute. split; [ | split ].
  - do 6 right. left. reflexivity.
  - reflexivity.
  - intros c r p H.
    repeat (destruct H as [H | H]; [ discriminate H | ]). exact H.
Qed.

(** ** C6: abort *)

Lemma stable_run_requests {A} (m : M A) (w w' : world) (o : outcome A) :
  stable m -> m w = (o, w') -> abort_requests w' = abort_requests w.
Proof. intros S H. destruct (S w) as [_ I]. rewrite H in I. exact I. Qed.

(** What [abort_measurement] does to the world: the flag goes down and,
    with an instrument, one ["OUTP OFF"] is written. *)
Lemma abort_measurement_world (w : world) :
  snd (abort_measurement w) =
    match instrument w with
    | Some _ => log (Write "OUTP OFF") (set_running false w)
    | None => set_running false w
    end.
Proof.
  unfold abort_measurement, bind at 1, put_running.
  unfold bind at 1, stop_output, bind at 1, get_instrument. simpl.
  destruct (instrument w) as [inst | ] eqn:Hi; simpl.
  - unfold bind at 1, instr_write. simpl. rewrite Hi.
    destruct (on_write inst (trace w) "OUTP OFF"); reflexivity.
  - reflexivity.
Qed.

Lemma abort_measurement_lowers_flag (w : world) :
  measurement_running (snd (abort_measurement w)) = false.
Proof.
  rewrite abort_measurement_world. destruct (instrument w); reflexivity.
Qed.

Lemma external_abort_requested (i : nat) (w : world) :
  abort_requests w i = true ->
  snd (external_abort i w) = snd (abort_measurement w).
Proof. intros H. unfold external_abort. rewrite H. reflexivity. Qed.

Lemma external_abort_idle (i : nat) (w : world) :
  abort_requests w i = false ->
  snd (external_abort i w) = w.
Proof. intros H. unfold external_abort. rewrite H. reflexivity. Qed.

(** *** A step in flight does not look at the flag *)

Lemma flag_blind_ret {A} (a : A) : flag_blind (ret a).
Proof. intros b w. reflexivity. Qed.

Lemma flag_blind_lift {A} (o : outcome A) : flag_blind (lift o).
Proof. intros b w. reflexivity. Qed.

Lemma flag_blind_bind {A B} (m : M A) (k : A -> M B) :
  flag_blind m -> (forall a, flag_blind (k a)) -> flag_blind (bind m k).
Proof.
  intros Hm Hk b w. unfold bind. rewrite Hm.
  destruct (m w) as [[a | e] w1]; simpl.
  - apply Hk.
  - reflexivity.
Qed.

Lemma flag_blind_try_except {A} (m : M A) (h : exn -> M A) :
  flag_blind m -> (forall e, flag_blind (h e)) -> flag_blind (try_except m h).
Proof.
  intros Hm Hh b w. unfold try_except. rewrite Hm.
  destruct (m w) as [[a | e] w1]; simpl.
  - reflexivity.
  - apply Hh.
Qed.

Lemma flag_blind_if {A} (c : bool) (m1 m2 : M A) :
  flag_blind m1 -> flag_blind m2 -> flag_blind (if c then m1 else m2).
Proof. destruct c; auto. Qed.

Lemma flag_blind_get_instrument : flag_blind get_instrument.
Proof. intros b w. reflexivity. Qed.

Lemma flag_blind_instr_write (cmd : string) : flag_blind (instr_write cmd).
Proof.
  intros b w. unfold instr_write. simpl.
  destruct (instrument w); [ destruct (on_write _ _ _) | ]; reflexivity.
Qed.

Lemma flag_blind_instr_query (cmd : string) : flag_blind (instr_query cmd).
Proof.
  intros b w. unfold instr_query. simpl.
  destruct (instrument w); reflexivity.
Qed.

Create HintDb flag_blind.
#[export] Hint Resolve flag_blind_ret flag_blind_lift
  flag_blind_get_instrument flag_blind_instr_write
  flag_blind_instr_query : flag_blind.
#[export] Hint Resolve flag_blind_bind flag_blind_try_except
  flag_blind_if : flag_blind.

Section Abort.

Context {rt : PyRuntime}.

Lemma flag_blind_sleep (secs : float) : flag_blind (sleep secs).
Proof.
  intros b w. unfold sleep. destruct (time_sleep secs); reflexivity.
Qed.

Lemma flag_blind_call (cb : callback_fn) (v c r p : float) :
  flag_blind (call cb v c r p).
Proof.
  intros b w. unfold call. simpl. destruct (cb _ _ _ _ _); reflexivity.
Qed.

Lemma flag_blind_report steps callback (i : nat) (v c r : float) :
  flag_blind (report steps callback i v c r).
Proof.
  unfold report. destruct callback; auto using flag_blind_call with flag_blind.
Qed.

Lemma flag_blind_measure_point (voltage : float) :
  flag_blind (measure_point voltage).
Proof.
  unfold measure_point.
  apply flag_blind_try_except; [ | auto with flag_blind ].
  apply flag_blind_bind; [ auto with flag_blind | intros inst ].
  apply flag_blind_if; auto 10 with flag_blind.
Qed.

Variables (start_v stop_v : float) (steps : Z) (delay_time : float).
Variable callback : option callback_fn.

(** With the flag down at the test of step [i], the loop ends there:
    nothing is measured at [i] or after it. *)
Lemma sweep_for_stops (voltage_step : float) (i : nat) (rest : list nat)
    (ls : lists) (w : world) :
  measurement_running (snd (external_abort i w)) = false ->
  sweep_for start_v steps delay_time callback voltage_step (i :: rest) ls w
    = (Return (Break, ls), snd (external_abort i w)).
Proof.
  intros H. rewrite sweep_for_cons, sweep_body_break by exact H.
  reflexivity.
Qed.

(** An abort requested before step [k], the steps before it having
    collected [ls_k]: the method goes from the abort straight to its
    exit path and hands back [ls_k]. *)
Lemma perform_sweep_aborted (voltage_step : float) (w w1 w_k : world)
    (k : nat) (ls_k : lists) :
  PyNum.truediv_float_int (PyFloat.sub stop_v start_v) (steps - 1)
    = Return voltage_step ->
  (start_output ;; put_running true) w = (Return tt, w1) ->
  (k < Z.to_nat steps)%nat ->
  sweep_for start_v steps delay_time callback voltage_step
    (seq 0 k) ([], [], []) w1 = (Return (Next, ls_k), w_k) ->
  abort_requests w k = true ->
  perform_sweep start_v stop_v steps delay_time callback w =
    (stop_output ;; put_running false ;; ret ls_k)
      (snd (abort_measurement w_k)).
Proof.
  intros Hstep Hstart Hk Hpre Hreq.
  assert (Hreq_k : abort_requests w_k k = true).
  { rewrite (stable_run_requests _ _ _ _ (stable_sweep_for _ _ _ _ _ _ _) Hpre).
    assert (S1 : stable (start_output ;; put_running true))
      by auto using stable_start_output with stable.
    rewrite (stable_run_requests _ _ _ _ S1 Hstart). exact Hreq. }
  unfold perform_sweep, bind at 1, lift. rewrite Hstep.
  unfold bind at 1 in Hstart. unfold bind at 1.
  destruct (start_output w) as [[b0 | e0] w0]; [ | discriminate ].
  unfold bind at 1. unfold put_running in *. injection Hstart as <-.
  unfold range.
  replace (Z.to_nat steps) with (k + S (Z.to_nat steps - S k))%nat by lia.
  rewrite seq_app. simpl seq.
  unfold bind at 1. rewrite sweep_for_app, Hpre.
  rewrite sweep_for_stops.
  - rewrite external_abort_requested by exact Hreq_k. reflexivity.
  - rewrite external_abort_requested by exact Hreq_k.
    apply abort_measurement_lowers_flag.
Qed.

End Abort.

(** Abort is cooperative for the requests that arrive at a flag test.
    - The flag is read at the top of a pass and nowhere else: the
      measurement, the delay and the report of a step in flight do the
      same whether the flag is lowered before or after them.
    - When the flag is down at the test of a step, be it from a request
      arriving just then or from an earlier one, the loop ends there
      with the lists as they are; a request arriving then adds its own
      ["OUTP OFF"] and nothing else.
    - When a request arrives before step k, the steps before it having
      collected some points, [perform_sweep] goes from the abort
      straight to its exit path and returns exactly these points.
    - After [perform_sweep] has returned, [abort_measurement] finds the
      flag down and leaves it down; it writes one more ["OUTP OFF"] and
      touches nothing else. *)
Theorem abort_is_cooperative {rt : PyRuntime}
    (start_v stop_v : float) (steps : Z) (delay_time : float)
    (callback : option callback_fn) :
  ((forall voltage, flag_blind (measure_point voltage))
   /\ flag_blind (sleep delay_time)
   /\ (forall i v c r, flag_blind (report steps callback i v c r)))
  /\ (forall voltage_step i rest ls w,
        measurement_running (snd (external_abort i w)) = false ->
        sweep_for start_v steps delay_time callback voltage_step
          (i :: rest) ls w
        = (Return (Break, ls), snd (external_abort i w)))
  /\ (forall i w,
        abort_requests w i = true ->
        measurement_running (snd (external_abort i w)) = false
        /\ snd (external_abort i w) =
             match instrument w with
             | Some _ => log (Write "OUTP OFF") (set_running false w)
             | None => set_running false w
             end)
  /\ (forall voltage_step w w1 w_k k ls_k,
        PyNum.truediv_float_int (PyFloat.sub stop_v start_v) (steps - 1)
          = Return voltage_step ->
        (start_output ;; put_running true) w = (Return tt, w1) ->
        (k < Z.to_nat steps)%nat ->
        sweep_for start_v steps delay_time callback voltage_step
          (seq 0 k) ([], [], []) w1 = (Return (Next, ls_k), w_k) ->
        abort_requests w k = true ->
        perform_sweep start_v stop_v steps delay_time callback w =
          (stop_output ;; put_running false ;; ret ls_k)
            (snd (abort_measurement w_k)))
  /\ (forall w ls w',
        perform_sweep start_v stop_v steps delay_time callback w
          = (Return ls, w') ->
        measurement_running w' = false
        /\ snd (abort_measurement w') =
             match instrument w' with
             | Some _ => log (Write "OUTP OFF") w'
             | None => w'
             end).
Proof.
  split; [ | split; [ | split; [ | split ] ] ].
  - split; [ | split ].
    + apply flag_blind_measure_point.
    + apply flag_blind_sleep.
    + intros i v c r. apply flag_blind_report.
  - intros voltage_step i rest ls w H. apply sweep_for_stops, H.
  - intros i w H. rewrite (external_abort_requested i w H). split.
    + apply abort_measurement_lowers_flag.
    + apply abort_measurement_world.
  - intros voltage_step w w1 w_k k ls_k.
    apply perform_sweep_aborted.
  - intros w ls w' H.
    assert (R : measurement_running w' = false).
    { unfold perform_sweep in H.
      apply bind_returns in H as (step & w1 & _ & H).
      apply bind_returns in H as (b1 & w2 & _ & H).
      apply bind_returns in H as (u & w3 & _ & H).
      apply bind_returns in H as (r & w4 & _ & H).
      apply bind_returns in H as (b2 & w5 & _ & H).
      apply bind_returns in H as (u' & w6 & H6 & H).
      unfold put_running in H6. injection H6 as H6.
      unfold ret in H. injection H as _ H. subst w6 w'. reflexivity. }
    split; [ exact R | ].
    rewrite abort_measurement_world.
    assert (E : set_running false w' = w').
    { destruct w' as [i0 r0 t0 a0]. simpl in R. subst r0. reflexivity. }
    rewrite E. reflexivity.
Qed.

(** A sweep of three steps, an abort arriving before step 1: the point
    of step 0 is what the method returns. *)
Lemma abort_is_cooperative_witness :
  fst (perform_sweep (rt := Demo.runtime)
         PyFloat.minus_one PyFloat.one 3 PyFloat.zero (Some Demo.quiet)
         (Demo.connected_aborting (Demo.steady "0.01") 1))
  = Return ([PyFloat.minus_one], [Demo.f0_01], [Demo.fm100]).
Proof.
  destruct (abort_is_cooperative (rt := Demo.runtime)
              PyFloat.minus_one PyFloat.one 3 PyFloat.zero
              (Some Demo.quiet)) as (_ & _ & _ & H & _).
  rewrite (H PyFloat.one
             (Demo.connected_aborting (Demo.steady "0.01") 1)
             (set_running true
                (log (Write "OUTP ON")
                   (Demo.connected_aborting (Demo.steady "0.01") 1)))
             (log (Progress PyFloat.minus_one Demo.f0_01 Demo.fm100 Demo.f33)
                (log (Sleep PyFloat.zero)
                   (log (Query "MEAS:CURR?")
                      (log (Write "SOUR:VOLT -1.0")
                         (set_running true
                            (log (Write "OUTP ON")
                               (Demo.connected_aborting
                                  (Demo.steady "0.01") 1)))))))
             1%nat ([PyFloat.minus_one], [Demo.f0_01], [Demo.fm100])
             eq_refl eq_refl ltac:(simpl; lia) eq_refl eq_refl).
  reflexivity.
Defined.

(** The flag is raised by [perform_sweep] itself, after the output is
    switched on: whatever the flag was when the method was entered, and
    so a request made before that point, has no influence on what the
    method returns. *)
Lemma perform_sweep_overrides_flag {rt : PyRuntime}
    (start_v stop_v : float) (steps : Z) (delay_time : float)
    (callback : option callback_fn) (b : bool) (w : world) :
  fst (perform_sweep start_v stop_v steps delay_time callback
         (set_running b w))
  = fst (perform_sweep start_v stop_v steps delay_time callback w).
Proof.
  assert (F : flag_blind start_output).
  { unfold start_output. auto 10 with flag_blind. }
  assert (E : forall K : M lists,
             fst ((start_output ;; put_running true ;; K) (set_running b w))
             = fst ((start_output ;; put_running true ;; K) w)).
  { intros K. unfold bind. rewrite F.
    destruct (start_output w) as [[b0 | e] w0]; reflexivity. }
  assert (L : forall (o : outcome float) (k : float -> M lists) u,
             bind (lift o) k u =
               match o with
               | Return a => k a u
               | Raise e => (Raise e, u)
               end).
  { intros [a | e] k u; reflexivity. }
  unfold perform_sweep. rewrite !L.
  destruct (PyNum.truediv_float_int _ _) as [step | e]; [ | reflexivity ].
  apply E.
Qed.

(** ** C6: an abort request that arrives before the flag is raised *)

(** Without a request in between, this is [perform_sweep]. *)
Lemma perform_sweep_interleaved_idle {rt : PyRuntime}
    (start_v stop_v : float) (steps : Z) (delay_time : float)
    (callback : option callback_fn) (w : world) :
  perform_sweep_interleaved (ret tt) start_v stop_v steps delay_time
    callback w
  = perform_sweep start_v stop_v steps delay_time callback w.
Proof.
  unfold perform_sweep_interleaved, perform_sweep, bind, ret, lift.
  destruct (PyNum.truediv_float_int _ _); [ | reflexivity ].
  destruct (start_output w) as [[b | e] w1]; reflexivity.
Qed.

(** Line 203 raises the flag whatever it was: of a request made between
    line 202 and line 203 only its ["OUTP OFF"] is left, and the loop
    starts with the flag up. *)
Lemma abort_lands_overwritten {rt : PyRuntime}
    (start_v stop_v : float) (steps : Z) (delay_time : float)
    (callback : option callback_fn) (voltage_step : float) (b : bool)
    (w w1 : world) :
  PyNum.truediv_float_int (PyFloat.sub stop_v start_v) (steps - 1)
    = Return voltage_step ->
  start_output w = (Return b, w1) ->
  let w2 := set_running true (snd (abort_measurement w1)) in
  measurement_running w2 = true
  /\ trace w2
     = ((if truthy (instrument w1) then [Write "OUTP OFF"] else [])
        ++ trace w1)%list
  /\ perform_sweep_interleaved abort_lands start_v stop_v steps delay_time
       callback w
     = (r <- sweep_for start_v steps delay_time callback voltage_step
               (range steps) ([], [], []) ;;
        stop_output ;;
        put_running false ;;
        ret (snd r)) w2.
Proof.
  intros Hs Ho w2. subst w2.
  split; [ reflexivity | ]. split.
  - rewrite abort_measurement_world.
    destruct (instrument w1); reflexivity.
  - unfold perform_sweep_interleaved, bind at 1, lift. rewrite Hs.
    unfold bind at 1. rewrite Ho.
    unfold bind at 1, abort_lands. unfold bind at 1, put_running.
    reflexivity.
Qed.

(** C6. An abort requested while the sweep runs is lost when it arrives
    before line 203. Three steps from -1 V to 1 V on an instrument that
    accepts everything and answers 0.01:
    - [abort_measurement()] lands between line 202 and line 203. It
      lowers the flag and writes ["OUTP OFF"]; line 203 raises the flag
      again, the flag test of lines 207-208 never sees the request, and
      all three steps begin after it: three points are returned.
    - The same request arriving at the flag test of step 0 stops the
      loop there: no step begins, no point is returned.
    - Through the window: [start_measurement] has started the thread
      and enabled Abort; the abort callback runs before the thread has
      reached line 203 and reports the measurement as aborted;
      [perform_sweep] then switches the output on again and measures
      all three points. *)
Theorem abort_before_flag_is_overwritten :
  (let run :=
     perform_sweep_interleaved (rt := Demo.runtime) abort_lands
       PyFloat.minus_one PyFloat.one 3 PyFloat.zero None
       (Demo.connected (Demo.steady "0.01")) in
   fst run
   = Return ([PyFloat.minus_one; PyFloat.zero; PyFloat.one],
             [Demo.f0_01; Demo.f0_01; Demo.f0_01],
             [Demo.fm100; PyFloat.zero; Demo.f100])
   /\ rev (trace (snd run))
      = [Write "OUTP ON"; Write "OUTP OFF";
         Write "SOUR:VOLT -1.0"; Query "MEAS:CURR?"; Sleep PyFloat.zero;
         Write "SOUR:VOLT 0.0"; Query "MEAS:CURR?"; Sleep PyFloat.zero;
         Write "SOUR:VOLT 1.0"; Query "MEAS:CURR?"; Sleep PyFloat.zero;
         Write "OUTP OFF"])
  /\ (let run :=
        perform_sweep (rt := Demo.runtime)
          PyFloat.minus_one PyFloat.one 3 PyFloat.zero None
          (Demo.connected_aborting (Demo.steady "0.01") 0) in
      fst run = Return ([], [], [])
      /\ rev (trace (snd run))
         = [Write "OUTP ON"; Write "OUTP OFF"; Write "OUTP OFF"])
  /\ (let g1 :=
        snd (interface_gui.start_measurement (rt := Demo.runtime)
               Desk.split
               (Desk.window (Demo.connected (Demo.steady "0.01"))
                  (Desk.form "3" "Auto"))) in
      let g2 := snd (interface_gui.abort_measurement g1) in
      let run :=
        perform_sweep (rt := Demo.runtime) PyFloat.zero PyFloat.one 3
          Demo.f0_1 (Some Demo.quiet) (interface_gui.smu_controller g2) in
      interface_gui.launched (interface_gui.events g1)
      = [(PyFloat.zero, PyFloat.one, 3, Demo.f0_1)]
      /\ interface_gui.running g1 = true
      /\ fst (interface_gui.abort_measurement g1) = Ok tt
      /\ interface_gui.running g2 = false
      /\ hd_error (interface_gui.events g2)
         = Some (interface_gui.ConfigText interface_gui.measurement_info
                   config.MSG_MEASUREMENT_ABORTED None)
      /\ measurement_running (interface_gui.smu_controller g2) = false
      /\ hd_error (trace (interface_gui.smu_controller g2))
         = Some (Write "OUTP OFF")
      /\ (exists ls,
             fst run = Return ls
             /\ List.length (save_data_to_csv_rows ls) = 3%nat)
      /\ filter affects_output (trace (snd run))
         = [Write "OUTP OFF"; Write "OUTP ON"; Write "OUTP OFF"]).
Proof.
  split; [ | split ].
  - vm_compute. split; reflexivity.
  - vm_compute. split; reflexivity.
  - vm_compute. repeat split. eexists. split; reflexivity.
Qed.

(** * Further properties of the controller *)

(** ** Sweeps with a degenerate step count *)

(** X1. With a step count of 1 the step size is a division by zero:
    [perform_sweep] raises [ZeroDivisionError] at once, whatever the
    other arguments and the state; no command is issued and the flag
    is not touched. *)
Theorem perform_sweep_single_step_raises {rt : PyRuntime}
    (start_v stop_v delay_time : float) (callback : option callback_fn)
    (w : world) :
  perform_sweep start_v stop_v 1 delay_time callback w
  = (Raise (mkExn ZeroDivisionError "float division by zero"), w).
Proof. reflexivity. Qed.

Section EmptySweeps.

Context {rt : PyRuntime}.
Variables (start_v stop_v : float) (steps : Z) (delay_time : float).
Variable callback : option callback_fn.

Lemma start_output_world (w w' : world) (b : bool) :
  start_output w = (Return b, w') ->
  trace w' = ((if truthy (instrument w) then [Write "OUTP ON"] else [])
              ++ trace w)%list
  /\ instrument w' = instrument w
  /\ measurement_running w' = measurement_running w.
Proof.
  unfold start_output, bind at 1, get_instrument.
  destruct (instrument w) as [inst | ] eqn:Hi; simpl.
  - unfold bind. rewrite (instr_write_connected inst) by exact Hi.
    destruct (on_write _ _ _); [ discriminate | ].
    unfold ret. intros H. injection H as _ <-. simpl. auto.
  - unfold ret. intros H. injection H as _ <-. rewrite Hi. auto.
Qed.

Lemma stop_output_world (w w' : world) (b : bool) :
  stop_output w = (Return b, w') ->
  trace w' = ((if truthy (instrument w) then [Write "OUTP OFF"] else [])
              ++ trace w)%list
  /\ instrument w' = instrument w.
Proof.
  unfold stop_output, bind at 1, get_instrument.
  destruct (instrument w) as [inst | ] eqn:Hi; simpl.
  - unfold bind. rewrite (instr_write_connected inst) by exact Hi.
    destruct (on_write _ _ _); [ discriminate | ].
    unfold ret. intros H. injection H as _ <-. simpl. auto.
  - unfold ret. intros H. injection H as _ <-. rewrite Hi. auto.
Qed.

End EmptySweeps.

(** X2. With a step count of zero or less the loop has nothing to do:
    whenever [perform_sweep] returns, it returns three empty lists and
    has done nothing but switch the output on and off again (nothing at
    all without an instrument). *)
Theorem perform_sweep_no_steps {rt : PyRuntime}
    (start_v stop_v : float) (steps : Z) (delay_time : float)
    (callback : option callback_fn) (w w' : world) (ls : lists) :
  steps <= 0 ->
  perform_sweep start_v stop_v steps delay_time callback w = (Return ls, w') ->
  ls = ([], [], [])
  /\ trace w' =
       ((if truthy (instrument w)
         then [Write "OUTP OFF"; Write "OUTP ON"]
         else []) ++ trace w)%list
  /\ measurement_running w' = false.
Proof.
  intros Hs H. unfold perform_sweep in H.
  apply bind_returns in H as (step & w1 & H1 & H).
  apply bind_returns in H as (b1 & w2 & H2 & H).
  apply bind_returns in H as (u & w3 & H3 & H).
  apply bind_returns in H as (r & w4 & H4 & H).
  apply bind_returns in H as (b2 & w5 & H5 & H).
  apply bind_returns in H as (u' & w6 & H6 & H).
  unfold lift in H1. injection H1 as _ <-.
  apply start_output_world in H2 as (T2 & I2 & _).
  unfold put_running in H3. injection H3 as _ <-.
  unfold range in H4. replace (Z.to_nat steps) with 0%nat in H4 by lia.
  simpl in H4. unfold ret in H4. injection H4 as <- <-.
  apply stop_output_world in H5 as (T5 & _). simpl in T5.
  unfold put_running in H6. injection H6 as _ <-.
  unfold ret in H. injection H as <- <-. simpl.
  rewrite T5, T2, I2. destruct (instrument w); repeat split.
Qed.

(** A sweep of zero steps on an instrument that accepts everything. *)
Lemma perform_sweep_no_steps_witness :
  fst (perform_sweep (rt := Demo.runtime) PyFloat.minus_one PyFloat.one 0
         PyFloat.zero (Some Demo.quiet)
         (Demo.connected (Demo.steady "0.01")))
  = Return ([], [], []).
Proof.
  destruct (perform_sweep (rt := Demo.runtime) PyFloat.minus_one
              PyFloat.one 0 PyFloat.zero (Some Demo.quiet)
              (Demo.connected (Demo.steady "0.01")))
    as [[ls | e] w'] eqn:E.
  - destruct (perform_sweep_no_steps (rt := Demo.runtime) _ _ 0 _ _ _ _ _
                ltac:(lia) E) as (-> & _). reflexivity.
  - vm_compute in E. discriminate E.
Defined.

(** ** A sweep without instrument *)

Section Disconnected.

Context {rt : PyRuntime}.

Lemma measure_point_disconnected (voltage : float) (w : world) :
  instrument w = None ->
  measure_point voltage w = (Return None, w).
Proof.
  intros Hi. unfold measure_point, try_except, bind, get_instrument.
  rewrite Hi. reflexivity.
Qed.

Lemma external_abort_disconnected (i : nat) (w : world) :
  instrument w = None ->
  trace (snd (external_abort i w)) = trace w
  /\ instrument (snd (external_abort i w)) = None.
Proof.
  intros Hi. unfold external_abort.
  destruct (abort_requests w i); simpl.
  - rewrite abort_measurement_world, Hi. simpl. auto.
  - auto.
Qed.

Lemma sweep_for_disconnected start_v steps delay_time callback step idx :
  forall (ls ls' : lists) (w w' : world) (c : ctl),
    instrument w = None ->
    sweep_for start_v steps delay_time callback step idx ls w
      = (Return (c, ls'), w') ->
    ls' = ls /\ trace w' = trace w /\ instrument w' = None.
Proof.
  induction idx as [ | i rest IH ]; intros ls ls' w w' c Hi H.
  - simpl in H. unfold ret in H. injection H as _ <- <-. auto.
  - rewrite sweep_for_cons in H.
    destruct (external_abort_disconnected i w Hi) as [Ta Ia].
    destruct (measurement_running (snd (external_abort i w))) eqn:R.
    + rewrite sweep_body_run in H by exact R.
      destruct (voltage_at start_v step i) as [v | e]; [ | discriminate ].
      rewrite (measure_point_disconnected v _ Ia) in H.
      destruct (IH _ _ _ _ _ Ia H) as (-> & T & I).
      rewrite T, Ta. auto.
    + rewrite sweep_body_break in H by exact R.
      injection H as _ <- <-. auto.
Qed.

End Disconnected.

(** X3. Without an instrument [perform_sweep] issues no command, waits
    for nothing and never calls the callback: whenever it returns, it
    returns three empty lists and the trace is the one it started
    with. *)
Theorem perform_sweep_disconnected {rt : PyRuntime}
    (start_v stop_v : float) (steps : Z) (delay_time : float)
    (callback : option callback_fn) (w w' : world) (ls : lists) :
  instrument w = None ->
  perform_sweep start_v stop_v steps delay_time callback w = (Return ls, w') ->
  ls = ([], [], [])
  /\ trace w' = trace w
  /\ measurement_running w' = false.
Proof.
  intros Hi H. unfold perform_sweep in H.
  apply bind_returns in H as (step & w1 & H1 & H).
  apply bind_returns in H as (b1 & w2 & H2 & H).
  apply bind_returns in H as (u & w3 & H3 & H).
  apply bind_returns in H as ([c ls1] & w4 & H4 & H).
  apply bind_returns in H as (b2 & w5 & H5 & H).
  apply bind_returns in H as (u' & w6 & H6 & H).
  unfold lift in H1. injection H1 as _ <-.
  apply start_output_world in H2 as (T2 & I2 & _).
  rewrite Hi in T2, I2. simpl in T2.
  unfold put_running in H3. injection H3 as _ <-.
  apply sweep_for_disconnected in H4 as (-> & T4 & I4); [ | exact I2 ].
  apply stop_output_world in H5 as (T5 & _). rewrite I4 in T5. simpl in T5.
  unfold put_running in H6. injection H6 as _ <-.
  unfold ret in H. injection H as <- <-. simpl.
  rewrite T5, T4. simpl. rewrite T2. auto.
Qed.

(** A sweep of three steps on a controller that was never connected. *)
Lemma perform_sweep_disconnected_witness :
  fst (perform_sweep (rt := Demo.runtime) PyFloat.minus_one PyFloat.one 3
         PyFloat.zero (Some Demo.quiet) Bench.disconnected)
  = Return ([], [], []).
Proof.
  destruct (perform_sweep (rt := Demo.runtime) PyFloat.minus_one
              PyFloat.one 3 PyFloat.zero (Some Demo.quiet)
              Bench.disconnected) as [[ls | e] w'] eqn:E.
  - destruct (perform_sweep_disconnected (rt := Demo.runtime)
                _ _ _ _ _ Bench.disconnected _ _ eq_refl E) as (-> & _).
    reflexivity.
  - vm_compute in E. discriminate E.
Defined.

(** ** An exception inside the loop *)

Lemma keeps_output_ret {A} (a : A) : keeps_output (ret a).
Proof. intros w. reflexivity. Qed.

Lemma keeps_output_lift {A} (o : outcome A) : keeps_output (lift o).
Proof. intros w. reflexivity. Qed.

Lemma keeps_output_bind {A B} (m : M A) (k : A -> M B) :
  keeps_output m -> (forall a, keeps_output (k a)) -> keeps_output (bind m k).
Proof.
  intros Hm Hk w. unfold bind.
  specialize (Hm w). destruct (m w) as [[a | e] w1]; simpl in *.
  - rewrite Hk. exact Hm.
  - exact Hm.
Qed.

Lemma keeps_output_try_except {A} (m : M A) (h : exn -> M A) :
  keeps_output m -> (forall e, keeps_output (h e)) ->
  keeps_output (try_except m h).
Proof.
  intros Hm Hh w. unfold try_except.
  specialize (Hm w). destruct (m w) as [[a | e] w1]; simpl in *.
  - exact Hm.
  - rewrite Hh. exact Hm.
Qed.

Lemma keeps_output_if {A} (b : bool) (m1 m2 : M A) :
  keeps_output m1 -> keeps_output m2 -> keeps_output (if b then m1 else m2).
Proof. destruct b; auto. Qed.

Lemma keeps_output_get_instrument : keeps_output get_instrument.
Proof. intros w. reflexivity. Qed.

Lemma keeps_output_instr_query (cmd : string) :
  keeps_output (instr_query cmd).
Proof.
  intros w. unfold instr_query. destruct (instrument w); reflexivity.
Qed.

(** A write keeps the output when its command is not one of the two
    output commands. *)
Lemma keeps_output_instr_write (cmd : string) :
  affects_output (Write cmd) = false ->
  keeps_output (instr_write cmd).
Proof.
  intros Hc w. unfold instr_write. simpl in Hc.
  destruct (instrument w); [ destruct (on_write _ _ _) | ];
    simpl; rewrite ?Hc; reflexivity.
Qed.

Create HintDb keeps_output.
#[export] Hint Resolve keeps_output_ret keeps_output_lift
  keeps_output_get_instrument keeps_output_instr_query : keeps_output.
#[export] Hint Resolve keeps_output_bind keeps_output_try_except
  keeps_output_if : keeps_output.

(** A computation that is blind to the flag leaves it as it is. *)
Lemma flag_blind_keeps_flag {A} (m : M A) (w : world) :
  flag_blind m ->
  measurement_running (snd (m w)) = measurement_running w.
Proof.
  intros F.
  assert (E : set_running (measurement_running w) w = w)
    by (destruct w; reflexivity).
  pose proof (F (measurement_running w) w) as H. rewrite E in H.
  destruct (m w) as [o w']. simpl in *.
  injection H as H. rewrite H. reflexivity.
Qed.

Section LoopRaises.

Context {rt : PyRuntime}.
Variables (start_v : float) (steps : Z) (delay_time : float).
Variable callback : option callback_fn.
Variable voltage_step : float.

Lemma keeps_output_sleep (secs : float) : keeps_output (sleep secs).
Proof. intros w. unfold sleep. destruct (time_sleep secs); reflexivity. Qed.

Lemma keeps_output_report (i : nat) (v c r : float) :
  keeps_output (report steps callback i v c r).
Proof.
  unfold report. destruct callback as [cb | ]; [ | auto with keeps_output ].
  apply keeps_output_bind; [ auto with keeps_output | intros p ].
  intros w. unfold call. destruct (cb _ _ _ _ _); reflexivity.
Qed.

Lemma keeps_output_measure_point (voltage : float) :
  keeps_output (measure_point voltage).
Proof.
  unfold measure_point.
  apply keeps_output_try_except; [ | auto with keeps_output ].
  apply keeps_output_bind; [ auto with keeps_output | intros inst ].
  apply keeps_output_if; [ auto with keeps_output | ].
  apply keeps_output_bind;
    [ apply keeps_output_instr_write; reflexivity | intros _ ].
  auto 10 with keeps_output.
Qed.

(** What follows the measurement in a pass: the delay and the report. *)
Lemma after_measure_inert (i : nat) (ls : lists) (v c r : float) (w : world) :
  let m := (sleep delay_time ;;
            report steps callback i v c r ;;
            ret (Next, append_point ls v c r)) in
  measurement_running (snd (m w)) = measurement_running w
  /\ filter affects_output (trace (snd (m w)))
     = filter affects_output (trace w).
Proof.
  intros m. split.
  - apply flag_blind_keeps_flag. unfold m.
    auto using flag_blind_sleep, flag_blind_report with flag_blind.
  - assert (K : keeps_output m).
    { unfold m.
      auto using keeps_output_sleep, keeps_output_report with keeps_output. }
    apply K.
Qed.

(** As long as the loop has not broken, the flag is up and no output
    command has been issued; this also holds where an exception leaves
    the loop. *)
Lemma sweep_for_unbroken (idx : list nat) :
  forall (ls : lists) (w w' : world) (o : outcome (ctl * lists)),
    measurement_running w = true ->
    sweep_for start_v steps delay_time callback voltage_step idx ls w
      = (o, w') ->
    (forall ls', o <> Return (Break, ls')) ->
    measurement_running w' = true
    /\ filter affects_output (trace w') = filter affects_output (trace w).
Proof.
  induction idx as [ | i rest IH ]; intros ls w w' o Hr H Hnb.
  - simpl in H. unfold ret in H. injection H as _ <-. auto.
  - rewrite sweep_for_cons in H.
    destruct (abort_requests w i) eqn:Ha.
    + rewrite sweep_body_break in H
        by (rewrite (external_abort_requested i w Ha);
            apply abort_measurement_lowers_flag).
      injection H as <- _. exfalso. exact (Hnb ls eq_refl).
    + pose proof (external_abort_idle i w Ha) as Ew.
      rewrite sweep_body_run in H by (rewrite Ew; exact Hr).
      rewrite Ew in H.
      destruct (voltage_at start_v voltage_step i) as [v | e].
      * pose proof (flag_blind_keeps_flag _ w (flag_blind_measure_point v))
          as Fm.
        pose proof (keeps_output_measure_point v w) as Km.
        destruct (measure_point v w) as [[[[c r] | ] | e] w1];
          simpl in Fm, Km.
        -- destruct (after_measure_inert i ls v c r w1) as [Fa Ka].
           cbv zeta in Fa, Ka.
           destruct ((sleep delay_time ;;
                      report steps callback i v c r ;;
                      ret (Next, append_point ls v c r)) w1)
             as [[[[ | ] ls1] | e] w2]; simpl in Fa, Ka.
           ++ destruct (IH _ _ _ _ (eq_trans Fa (eq_trans Fm Hr)) H Hnb)
                as [A B].
              split; [ exact A | congruence ].
           ++ injection H as <- _. exfalso. exact (Hnb ls1 eq_refl).
           ++ injection H as _ <-. split; congruence.
        -- destruct (IH _ _ _ _ (eq_trans Fm Hr) H Hnb) as [A B].
           split; [ exact A | congruence ].
        -- injection H as _ <-. split; congruence.
      * injection H as _ <-. auto.
Qed.

End LoopRaises.



(** ** A configuration that succeeds *)

Lemma instr_write_returns (cmd : string) (w w' : world) (u : unit) :
  instr_write cmd w = (Return u, w') ->
  w' = log (Write cmd) w
  /\ exists inst,
       instrument w = Some inst /\ on_write inst (trace w) cmd = None.
Proof.
  unfold instr_write. destruct (instrument w) as [inst | ]; [ | discriminate ].
  destruct (on_write inst (trace w) cmd) eqn:E; [ discriminate | ].
  intros H. injection H as <-. eauto.
Qed.

Section Configured.

Context {rt : PyRuntime}.
Variables (start_v stop_v current_limit : float) (current_range : string).

Lemma set_current_range_return_now (w w' : world) (b : bool) :
  set_current_range current_range w = (Return (ReturnNow b), w') ->
  b = false.
Proof.
  unfold set_current_range.
  destruct (String.eqb (str_upper current_range) "AUTO").
  - intros H. apply bind_returns in H as (u & w1 & _ & H).
    unfold ret in H. discriminate H.
  - unfold try_except_class.
    match goal with |- context [match ?m w with _ => _ end] =>
      destruct (m w) as [[f | e] w1] eqn:G end.
    + intros H. injection H as -> ->.
      apply bind_returns in G as (x & w2 & _ & G).
      apply bind_returns in G as (u & w3 & _ & G).
      unfold ret in G. discriminate G.
    + destruct (exn_class_eqb _ _); [ | discriminate ].
      intros H. apply bind_returns in H as (u & w2 & _ & H).
      unfold ret in H. congruence.
Qed.

Lemma set_current_range_goes_on (w w' : world) :
  set_current_range current_range w = (Return GoOn, w') ->
  exists cmd, range_command_sent current_range cmd /\ w' = log (Write cmd) w.
Proof.
  unfold set_current_range, range_command_sent.
  destruct (String.eqb (str_upper current_range) "AUTO") eqn:Auto.
  - intros H. apply bind_returns in H as (u & w1 & W & H).
    apply instr_write_returns in W as [-> _].
    unfold ret in H. injection H as <-. eauto.
  - unfold try_except_class.
    match goal with |- context [match ?m w with _ => _ end] =>
      destruct (m w) as [[f | e] w1] eqn:G end.
    + intros H. injection H as -> ->.
      apply bind_returns in G as (x & w2 & P & G).
      unfold lift in P. injection P as P <-.
      apply bind_returns in G as (u & w3 & W & G).
      apply instr_write_returns in W as [-> _].
      unfold ret in G. injection G as <-.
      exists ("SENS:CURR:RANG " ++ fmt_float x). split; [ | reflexivity ].
      right. split; [ reflexivity | eauto ].
    + destruct (exn_class_eqb _ _); [ | discriminate ].
      intros H. apply bind_returns in H as (u & w2 & _ & H).
      unfold ret in H. discriminate H.
Qed.

End Configured.

(** X5. Whenever [setup_measurement] returns True, the controller is
    connected and the method has issued exactly eight writes, in this
    order: rear terminals, source function, voltage range for the
    larger of |start| and |stop|, current limit, sense function, the
    range (auto, or the number parsed from the request), one power-line
    cycle, source readback. The flag is as before and no output
    command is among them. *)
Theorem setup_measurement_true {rt : PyRuntime}
    (start_v stop_v current_limit : float) (current_range : string)
    (w w' : world) :
  setup_measurement start_v stop_v current_limit current_range w
    = (Return true, w') ->
  exists range_cmd,
    range_command_sent current_range range_cmd
    /\ instrument w <> None
    /\ w' = mkWorld (instrument w) (measurement_running w)
              (Write "SOUR:VOLT:READ ON"
               :: Write "SENS:CURR:NPLC 1"
               :: Write range_cmd
               :: Write ("SENS:FUNC " ++ dquote ++ "CURR" ++ dquote)
               :: Write ("SOUR:VOLT:ILIM " ++ fmt_float current_limit)
               :: Write ("SOUR:VOLT:RANG "
                         ++ fmt_float (PyFloat.max (PyFloat.abs start_v)
                                                   (PyFloat.abs stop_v)))
               :: Write "SOUR:FUNC VOLT"
               :: Write "ROUT:TERM REAR"
               :: trace w)
              (abort_requests w)
    /\ last_output_command (trace w') = last_output_command (trace w).
Proof.
  unfold setup_measurement, try_except.
  match goal with |- context [match ?body w with _ => _ end] =>
    destruct (body w) as [[b0 | e] w1] eqn:B end.
  - intros H. injection H as -> ->.
    apply bind_returns in B as (inst & v0 & G & B).
    unfold get_instrument in G. injection G as <- <-.
    destruct (instrument w) as [inst | ] eqn:Hi; simpl in B;
      [ | unfold ret in B; discriminate B ].
    apply bind_returns in B as (u1 & v1 & W1 & B).
    apply bind_returns in B as (u2 & v2 & W2 & B).
    apply bind_returns in B as (u3 & v3 & W3 & B).
    apply bind_returns in B as (u4 & v4 & W4 & B).
    apply bind_returns in B as (u5 & v5 & W5 & B).
    apply bind_returns in B as (f & v6 & F & B).
    destruct f as [ | b ];
      [ | apply set_current_range_return_now in F;
          unfold ret in B; congruence ].
    apply bind_returns in B as (u7 & v7 & W7 & B).
    apply bind_returns in B as (u8 & v8 & W8 & B).
    unfold ret in B. injection B as <-.
    apply instr_write_returns in W1 as [-> _].
    apply instr_write_returns in W2 as [-> _].
    apply instr_write_returns in W3 as [-> _].
    apply instr_write_returns in W4 as [-> _].
    apply instr_write_returns in W5 as [-> _].
    apply set_current_range_goes_on in F as (cmd & Hc & ->).
    apply instr_write_returns in W7 as [-> _].
    apply instr_write_returns in W8 as [-> _].
    exists cmd. split; [ exact Hc | ]. split; [ discriminate | ].
    split.
    + unfold log. simpl. rewrite Hi. reflexivity.
    + unfold last_output_command, log. simpl.
      assert (N : (cmd =? "OUTP ON")%string || (cmd =? "OUTP OFF")%string
                  = false).
      { destruct Hc as [[_ ->] | [_ (x & _ & ->)]]; reflexivity. }
      rewrite N.
      repeat match goal with
      | |- context [String.eqb (?a ++ ?b) ?c] =>
          destruct (String.eqb_spec (a ++ b) c) as [E | _];
          [ discriminate E | ]
      end.
      reflexivity.
  - intros H. apply bind_returns in H as (inst & v0 & _ & H).
    apply bind_returns in H as (u & v1 & _ & H).
    unfold ret in H. discriminate H.
Qed.

(** The default range ["Auto"] on an instrument that accepts
    everything. *)
Lemma setup_measurement_true_witness :
  exists range_cmd,
    range_command_sent (rt := Demo.runtime) "Auto" range_cmd
    /\ trace (snd (setup_measurement (rt := Demo.runtime)
                     PyFloat.minus_one PyFloat.one Demo.f0_1 "Auto"
                     (Demo.connected (Demo.steady ""))))
       = [Write "SOUR:VOLT:READ ON"; Write "SENS:CURR:NPLC 1";
          Write range_cmd;
          Write ("SENS:FUNC " ++ dquote ++ "CURR" ++ dquote);
          Write "SOUR:VOLT:ILIM 0.1"; Write "SOUR:VOLT:RANG 1.0";
          Write "SOUR:FUNC VOLT"; Write "ROUT:TERM REAR"].
Proof.
  destruct (setup_measurement_true (rt := Demo.runtime)
              PyFloat.minus_one PyFloat.one Demo.f0_1 "Auto"
              (Demo.connected (Demo.steady ""))
              (snd (setup_measurement (rt := Demo.runtime)
                      PyFloat.minus_one PyFloat.one Demo.f0_1 "Auto"
                      (Demo.connected (Demo.steady ""))))
              eq_refl) as (cmd & Hc & _ & E & _).
  exists cmd. split; [ exact Hc | ]. rewrite E. reflexivity.
Defined.

Lemma set_current_range_accepted {rt : PyRuntime}
    (current_range : string) (w : world) (inst : Instrument) :
  instrument w = Some inst ->
  accepts_writes inst ->
  (String.eqb (str_upper current_range) "AUTO" = true
   \/ exists x, py_float current_range = Return x) ->
  exists cmd,
    set_current_range current_range w = (Return GoOn, log (Write cmd) w).
Proof.
  intros Hi Ha Hr. unfold set_current_range.
  destruct (String.eqb (str_upper current_range) "AUTO") eqn:Auto.
  - eexists. unfold bind.
    rewrite (instr_write_accepted inst) by assumption.
    reflexivity.
  - destruct Hr as [Hr | [x Hx]]; [ discriminate Hr | ].
    eexists. unfold try_except_class, bind at 1, lift. rewrite Hx.
    unfold bind.
    rewrite (instr_write_accepted inst) by assumption.
    reflexivity.
Qed.

(** X6. On an instrument that accepts every command, a request whose
    range is AUTO in any letter case, or a number, is configured: the
    method returns True. *)
Theorem setup_measurement_accepted {rt : PyRuntime}
    (start_v stop_v current_limit : float) (current_range : string)
    (w : world) (inst : Instrument) :
  instrument w = Some inst ->
  accepts_writes inst ->
  (String.eqb (str_upper current_range) "AUTO" = true
   \/ exists x, py_float current_range = Return x) ->
  fst (setup_measurement start_v stop_v current_limit current_range w)
  = Return true.
Proof.
  intros Hi Ha Hr.
  unfold setup_measurement, try_except, bind at 1, get_instrument.
  rewrite Hi. simpl. unfold bind at 1 2 3 4 5.
  repeat (rewrite (instr_write_accepted inst) by (simpl; assumption)).
  unfold bind at 1.
  match goal with |- context [set_current_range _ ?v] =>
    destruct (set_current_range_accepted current_range v inst)
      as [cmd F]; [ simpl; assumption | assumption | assumption | ]
  end.
  rewrite F. unfold bind.
  repeat (rewrite (instr_write_accepted inst) by (simpl; assumption)).
  reflexivity.
Qed.

(** The range ["0.01"] on an instrument that accepts everything. *)
Lemma setup_measurement_accepted_witness :
  fst (setup_measurement (rt := Demo.runtime)
         PyFloat.minus_one PyFloat.one Demo.f0_1 "0.01"
         (Demo.connected (Demo.steady "")))
  = Return true.
Proof.
  apply (setup_measurement_accepted (rt := Demo.runtime)
           _ _ _ _ (Demo.connected (Demo.steady "")) (Demo.steady "")
           eq_refl (fun _ _ => eq_refl)).
  right. exists Demo.f0_01. reflexivity.
Defined.

(** ** One measurement *)

(** X7. [measure_point] never raises. Without an instrument it returns
    the failed pair and does nothing. With one, it writes the voltage
    first; if that write is refused it returns the failed pair without
    sending the query; otherwise it sends exactly one query after the
    write, whatever comes back. *)
Theorem measure_point_calls {rt : PyRuntime} (voltage : float) (w : world) :
  (exists m w', measure_point voltage w = (Return m, w'))
  /\ (instrument w = None -> measure_point voltage w = (Return None, w))
  /\ (forall inst e,
        instrument w = Some inst ->
        on_write inst (trace w) ("SOUR:VOLT " ++ fmt_float voltage) = Some e ->
        measure_point voltage w
          = (Return None, log (Write ("SOUR:VOLT " ++ fmt_float voltage)) w))
  /\ (forall inst,
        instrument w = Some inst ->
        on_write inst (trace w) ("SOUR:VOLT " ++ fmt_float voltage) = None ->
        snd (measure_point voltage w)
          = log (Query "MEAS:CURR?")
              (log (Write ("SOUR:VOLT " ++ fmt_float voltage)) w)).
Proof.
  split; [ apply measure_point_returns | ].
  split; [ apply measure_point_disconnected | ].
  split.
  - intros inst e Hi Hw.
    unfold measure_point, try_except, bind at 1, get_instrument.
    rewrite Hi. simpl. unfold bind at 1.
    rewrite (instr_write_connected inst) by exact Hi. rewrite Hw.
    reflexivity.
  - intros inst Hi Hw.
    unfold measure_point, try_except, bind at 1, get_instrument.
    rewrite Hi. simpl. unfold bind at 1.
    rewrite (instr_write_connected inst) by exact Hi. rewrite Hw.
    unfold bind at 1.
    rewrite (instr_query_connected inst) by exact Hi.
    destruct (on_query inst _ _) as [reply | e]; [ | reflexivity ].
    unfold bind at 1, lift.
    destruct (py_float reply) as [c | e]; [ | reflexivity ].
    unfold bind at 1.
    destruct (resistance_of voltage c); reflexivity.
Qed.

(** A write refused by an instrument that is down, and a measurement on
    one that answers. *)
Lemma measure_point_calls_witness :
  measure_point (rt := Demo.runtime) PyFloat.one (Demo.connected Demo.dead)
    = (Return None, log (Write "SOUR:VOLT 1.0") (Demo.connected Demo.dead))
  /\ snd (measure_point (rt := Demo.runtime) PyFloat.one
            (Demo.connected (Demo.steady "0.01")))
     = log (Query "MEAS:CURR?")
         (log (Write "SOUR:VOLT 1.0") (Demo.connected (Demo.steady "0.01"))).
Proof.
  split.
  - destruct (measure_point_calls (rt := Demo.runtime) PyFloat.one
                (Demo.connected Demo.dead)) as (_ & _ & H & _).
    exact (H Demo.dead Demo.io_error eq_refl eq_refl).
  - destruct (measure_point_calls (rt := Demo.runtime) PyFloat.one
                (Demo.connected (Demo.steady "0.01"))) as (_ & _ & _ & H).
    exact (H (Demo.steady "0.01") eq_refl eq_refl).
Defined.

(** ** The first voltage of a sweep *)

(** X8. When the step size is a finite number and the start voltage is
    not a NaN, the voltage of index 0 is the start voltage (equal as
    Python's [==] has it; identical unless the start is a signed
    zero). *)
Theorem first_voltage_is_start (start_v voltage_step : float) :
  is_finite voltage_step = true ->
  start_v <> S754_nan ->
  exists v,
    voltage_at start_v voltage_step 0 = Return v
    /\ SFeqb v start_v = true
    /\ (PyFloat.is_zero start_v = false -> v = start_v).
Proof.
  intros Hf Hn. unfold voltage_at, PyNum.mul_int_float. simpl.
  destruct voltage_step as [s | s | | s m e]; try discriminate Hf.
  - destruct start_v as [t | t | | t m e]; try congruence; simpl.
    + destruct t, s; eexists; repeat split; discriminate.
    + eexists; repeat split. unfold SFeqb. simpl. destruct t; reflexivity.
    + eexists; repeat split.
      unfold SFeqb, SFcompare.
      rewrite Z.compare_refl, Pos.compare_cont_refl.
      destruct t; reflexivity.
  - destruct start_v as [t | t | | t m' e']; try congruence; simpl.
    + destruct t, s; eexists; repeat split; discriminate.
    + eexists; repeat split. unfold SFeqb. simpl. destruct t; reflexivity.
    + eexists; repeat split.
      unfold SFeqb, SFcompare.
      rewrite Z.compare_refl, Pos.compare_cont_refl.
      destruct t; reflexivity.
Qed.

(** Start -1 V, step 1 V. *)
Lemma first_voltage_is_start_witness :
  exists v,
    voltage_at PyFloat.minus_one PyFloat.one 0 = Return v
    /\ SFeqb v PyFloat.minus_one = true
    /\ (PyFloat.is_zero PyFloat.minus_one = false -> v = PyFloat.minus_one).
Proof.
  apply first_voltage_is_start; [ reflexivity | discriminate ].
Defined.

(** ** The address change, whatever the instrument does *)

Lemma try_except_ret_returns {A} (m : M A) (h : exn -> A) (w : world) :
  exists a w', try_except m (fun e => ret (h e)) w = (Return a, w').
Proof.
  unfold try_except. destruct (m w) as [[a | e] w']; unfold ret; eauto.
Qed.

(** X9. [set_gpib_address] never raises: every outcome is a pair of a
    flag and a message. On a connected controller and for an address
    within 0..30, the address write follows the best-effort reading of
    the present address whatever that reading gave; if the write is
    refused, the method fails with the error message of the write, and
    the write is its last command: no verification is attempted. *)
Theorem set_gpib_address_never_raises {rt : PyRuntime}
    (new_address : Z) (w : world) :
  (exists r w', set_gpib_address new_address w = (Return r, w'))
  /\ (forall inst ca w1 e,
        instrument w = Some inst ->
        0 <= new_address <= 30 ->
        read_current_address w = (Return ca, w1) ->
        on_write inst (trace w1)
          (":SYSTem:GPIB:ADDRess " ++ fmt_int new_address) = Some e ->
        set_gpib_address new_address w
          = (Return (false, msg_error e),
             log (Write (":SYSTem:GPIB:ADDRess " ++ fmt_int new_address))
               w1)).
Proof.
  split.
  - unfold set_gpib_address, bind at 1, get_instrument.
    destruct (truthy (instrument w)); simpl.
    + apply (try_except_ret_returns _ (fun e => (false, msg_error e))).
    + unfold ret. eauto.
  - intros inst ca w1 e Hi Hr Hca Hw.
    assert (Hi1 : instrument w1 = Some inst).
    { rewrite (stable_run _ _ _ _ stable_read_current_address Hca).
      exact Hi. }
    unfold set_gpib_address, bind at 1, get_instrument. rewrite Hi. simpl.
    unfold try_except at 1.
    replace ((0 <=? new_address) && (new_address <=? 30)) with true
      by (symmetry; apply andb_true_iff; split; apply Z.leb_le; lia).
    simpl. unfold bind at 1. rewrite Hca.
    unfold bind at 1.
    rewrite (instr_write_connected inst) by exact Hi1. rewrite Hw.
    reflexivity.
Qed.

(** Address 5 on an instrument that refuses every command. *)
Lemma set_gpib_address_never_raises_witness :
  set_gpib_address (rt := Demo.runtime) 5 (Demo.connected Demo.dead)
  = (Return (false, msg_error Demo.io_error),
     log (Write ":SYSTem:GPIB:ADDRess 5")
       (log (Query ":SYSTem:GPIB:ADDRess?")
          (log (Query "print(gpib.address)") (Demo.connected Demo.dead)))).
Proof.
  destruct (set_gpib_address_never_raises (rt := Demo.runtime) 5
              (Demo.connected Demo.dead)) as [_ H].
  exact (H Demo.dead None _ Demo.io_error eq_refl ltac:(lia)
           eq_refl eq_refl).
Defined.

(** ** Closing the connection *)

(** The two ways in which [close] ends. *)
Lemma close_cases (handle_close : list event -> option exn)
    (w : world) :
  exists b w',
    close handle_close w = (Return b, w')
    /\ measurement_running w' = measurement_running w
    /\ trace w' =
         ((if truthy (instrument w) then [Write "OUTP OFF"] else [])
          ++ trace w)%list
    /\ (if b
        then instrument w' = None
             /\ forall handle_close',
                  close handle_close' w' = (Return true, w')
        else instrument w' = instrument w /\ instrument w <> None).
Proof.
  unfold close, bind at 1, get_instrument.
  destruct (instrument w) as [inst | ] eqn:Hi; simpl.
  - unfold try_except, bind at 1, stop_output, bind at 1, get_instrument.
    rewrite Hi. simpl. unfold bind at 1.
    rewrite (instr_write_connected inst) by exact Hi.
    destruct (on_write inst (trace w) "OUTP OFF") as [e | ].
    + exists false. eexists. split; [ reflexivity | ].
      simpl. rewrite Hi. repeat split. discriminate.
    + unfold ret at 1. unfold bind at 1, instr_close. simpl. rewrite Hi.
      destruct (handle_close _) as [e | ].
      * exists false. eexists. split; [ reflexivity | ].
        simpl. rewrite Hi. repeat split. discriminate.
      * exists true. eexists. split; [ reflexivity | ].
        simpl. repeat split.
  - exists true, w. unfold ret. repeat split; try exact Hi.
    intros hc'. unfold close, bind, get_instrument. rewrite Hi. reflexivity.
Qed.

(** What [close] returns, case by case. *)
Lemma close_exactly (handle_close : list event -> option exn) (w : world) :
  match instrument w with
  | None => close handle_close w = (Return true, w)
  | Some inst =>
      let w1 := log (Write "OUTP OFF") w in
      match on_write inst (trace w) "OUTP OFF", handle_close (trace w1) with
      | None, None =>
          close handle_close w = (Return true, set_instrument None w1)
      | _, _ => close handle_close w = (Return false, w1)
      end
  end.
Proof.
  destruct (instrument w) as [inst | ] eqn:Hi.
  - assert (E : close handle_close w
               = match on_write inst (trace w) "OUTP OFF",
                       handle_close (trace (log (Write "OUTP OFF") w)) with
                 | None, None =>
                     (Return true,
                      set_instrument None (log (Write "OUTP OFF") w))
                 | _, _ => (Return false, log (Write "OUTP OFF") w)
                 end).
    { unfold close, bind at 1, get_instrument. rewrite Hi. simpl.
      unfold try_except, bind at 1, stop_output, bind at 1, get_instrument.
      rewrite Hi. simpl. unfold bind at 1.
      rewrite (instr_write_connected inst) by exact Hi.
      destruct (on_write inst (trace w) "OUTP OFF") as [e | ];
        [ reflexivity | ].
      unfold ret at 1. unfold bind at 1, instr_close. simpl. rewrite Hi.
      destruct (handle_close _) as [e | ]; reflexivity. }
    cbv zeta. rewrite E.
    destruct (on_write inst (trace w) "OUTP OFF");
      [ reflexivity | ].
    destruct (handle_close _); reflexivity.
  - unfold close, bind, get_instrument. rewrite Hi. reflexivity.
Qed.

(** X10. [close] never raises. Without a handle it returns True and
    does nothing. With a handle it writes ["OUTP OFF"] and returns True
    exactly when that write was accepted and the handle's own [close]
    then returned; the handle is gone afterwards. When the write is
    refused (the handle's [close] is then not called) or the handle's
    [close] raises, it returns False and keeps the handle, so the
    controller still counts as connected. Apart from the one write and
    the handle nothing changes, and closing again after a successful
    [close] returns True and does nothing. *)
Theorem close_releases_or_keeps (handle_close : list event -> option exn)
    (w : world) :
  match instrument w with
  | None => close handle_close w = (Return true, w)
  | Some inst =>
      let w1 := log (Write "OUTP OFF") w in
      match on_write inst (trace w) "OUTP OFF", handle_close (trace w1) with
      | None, None =>
          close handle_close w = (Return true, set_instrument None w1)
      | _, _ => close handle_close w = (Return false, w1)
      end
  end
  /\ exists b w',
       close handle_close w = (Return b, w')
       /\ measurement_running w' = measurement_running w
       /\ trace w' =
            ((if truthy (instrument w) then [Write "OUTP OFF"] else [])
             ++ trace w)%list
       /\ (if b
           then instrument w' = None
                /\ forall handle_close',
                     close handle_close' w' = (Return true, w')
           else instrument w' = instrument w /\ instrument w <> None).
Proof.
  split.
  - apply close_exactly.
  - apply close_cases.
Qed.

(** ** Saving the data *)

Lemma write_rows_prefix (fs : FileSystem) (filename : string)
    (rows : list (list cell)) :
  forall written o written',
    write_rows fs filename written rows = (o, written') ->
    exists done rest,
      rows = (done ++ rest)%list
      /\ written' = (written ++ done)%list
      /\ (o = None -> rest = []).
Proof.
  induction rows as [ | row rows IH ]; intros written o written' H;
    simpl in H.
  - injection H as <- <-. exists [], []. rewrite !app_nil_r. auto.
  - destruct (fs_writerow fs filename written row) as [e | ].
    + injection H as <- <-. exists [], (row :: rows).
      rewrite !app_nil_r. repeat split. discriminate.
    + destruct (IH _ _ _ H) as (done & rest & -> & -> & Hn).
      exists (row :: done), rest. rewrite <- app_assoc. auto.
Qed.

Lemma combine_nth_error {A B} (l1 : list A) :
  forall (l2 : list B) (k : nat),
    nth_error (combine l1 l2) k =
      match nth_error l1 k, nth_error l2 k with
      | Some a, Some b => Some (a, b)
      | _, _ => None
      end.
Proof.
  induction l1 as [ | a l1 IH ]; intros [ | b l2 ] [ | k ]; simpl;
    try reflexivity.
  - destruct (nth_error l1 k); reflexivity.
  - apply IH.
Qed.

(** X11. [save_data_to_csv] sets out to write the header (the one
    given, or [CSV_HEADER]) followed by one row per position that all
    three lists have: surplus elements of a longer list are dropped
    without notice. It returns True only if the file holds exactly
    these rows; whenever it returns False after the file was opened,
    the file holds the first rows of them. *)
Theorem save_data_to_csv_content (fs : FileSystem) (filename : string)
    (voltages currents resistances : list float)
    (header : option (list string)) :
  let full := csv_content voltages currents resistances header in
  let run := save_data_to_csv fs filename voltages currents resistances
               header in
  List.length full
    = S (Nat.min (Nat.min (List.length voltages) (List.length currents))
           (List.length resistances))
  /\ (forall k,
        nth_error full (S k) =
          match nth_error voltages k, nth_error currents k,
                nth_error resistances k with
          | Some v, Some c, Some r => Some [Number v; Number c; Number r]
          | _, _, _ => None
          end)
  /\ (fst run = true -> snd run = Some full)
  /\ (forall written,
        snd run = Some written ->
        exists rest, full = (written ++ rest)%list)
  /\ (snd run = None <-> fs_open fs filename <> None)
  /\ nth_error full 0
     = Some (map Text match header with
                      | None => config.CSV_HEADER
                      | Some h => h
                      end).
Proof.
  intros full run.
  split; [ | split; [ | split; [ | split; [ | split ] ] ] ];
    [ | | | | | reflexivity ].
  - unfold full, csv_content, save_data_to_csv_rows. simpl.
    rewrite length_map, !length_combine. reflexivity.
  - intros k. unfold full, csv_content, save_data_to_csv_rows. simpl.
    rewrite nth_error_map, !combine_nth_error.
    unfold voltages_of, currents_of, resistances_of. simpl.
    destruct (nth_error voltages k), (nth_error currents k),
      (nth_error resistances k); reflexivity.
  - unfold run, save_data_to_csv.
    destruct (fs_open fs filename); [ discriminate | ].
    fold full.
    destruct (write_rows fs filename [] full) as [[e | ] written] eqn:W;
      [ discriminate | ].
    destruct (write_rows_prefix _ _ _ _ _ _ W)
      as (done & rest & E & -> & Hn).
    rewrite (Hn eq_refl), app_nil_r in E. subst done.
    destruct (fs_close _ _ _); [ discriminate | ]. reflexivity.
  - intros written. unfold run, save_data_to_csv.
    destruct (fs_open fs filename); [ discriminate | ].
    fold full.
    destruct (write_rows fs filename [] full) as [o written'] eqn:W.
    destruct (write_rows_prefix _ _ _ _ _ _ W)
      as (done & rest & E & -> & _).
    assert (S : Some done = Some written ->
                exists r, full = (written ++ r)%list).
    { intros H. injection H as <-. eauto. }
    destruct o; [ exact S | ].
    destruct (fs_close _ _ _); exact S.
  - unfold run, save_data_to_csv.
    destruct (fs_open fs filename) as [e | ].
    + split; [ discriminate | reflexivity ].
    + split; [ | congruence ].
      destruct (write_rows _ _ _ _) as [[e | ] written];
        [ discriminate | ].
      destruct (fs_close _ _ _); discriminate.
Qed.

(** ** Connecting *)

Section Connecting.

Context {rt : PyRuntime}.
Variable backends : Backends.

Lemma cbind_keeps_instrument {A B} (m : C A) (k : A -> C B) :
  (forall u, instrument (snd (m u)) = instrument u) ->
  (forall a u, instrument (snd (k a u)) = instrument u) ->
  forall u, instrument (snd (cbind m k u)) = instrument u.
Proof.
  intros Hm Hk u. unfold cbind. specialize (Hm u).
  destruct (m u) as [[a | e] u1]; simpl in *.
  - rewrite Hk. exact Hm.
  - exact Hm.
Qed.

Lemma of_M_keeps_instrument {A} (m : M A) :
  stable m -> forall u, instrument (snd (of_M m u)) = instrument u.
Proof.
  intros S u. unfold of_M. destruct (S u) as [I _].
  destruct (m u) as [[a | e] u1]; exact I.
Qed.

Lemma reset_and_identify_keeps_instrument (u : world) :
  instrument (snd (reset_and_identify u)) = instrument u.
Proof.
  unfold reset_and_identify.
  apply cbind_keeps_instrument;
    [ apply of_M_keeps_instrument, stable_instr_write | intros _ ].
  apply cbind_keeps_instrument;
    [ apply of_M_keeps_instrument, stable_instr_write | intros _ ].
  apply cbind_keeps_instrument;
    [ apply of_M_keeps_instrument, stable_instr_query | intros reply v ].
  destruct (negb _); [ reflexivity | ].
  destruct (nth_error (split_on "," (str_strip reply)) 1); reflexivity.
Qed.

Lemma reset_and_identify_true (w w' : world) (msg : string) :
  reset_and_identify w = (Ok (true, msg), w') ->
  instrument w' <> None.
Proof.
  intros H.
  pose proof (reset_and_identify_keeps_instrument w) as K.
  rewrite H in K. simpl in K. rewrite K.
  unfold reset_and_identify, cbind at 1, of_M, instr_write in H.
  destruct (instrument w); [ discriminate | discriminate H ].
Qed.

End Connecting.

(** Every outcome of [connect_to_instrument] is a pair. *)
Lemma connect_to_instrument_returns {rt : PyRuntime}
    (backends : Backends) (gpib_addr : Z) (w : world) :
  exists flag msg w',
    connect_to_instrument backends gpib_addr w = (Ok (flag, msg), w')
    /\ (flag = true -> instrument w' <> None).
Proof.
  unfold connect_to_instrument, ctry at 1, cbind at 1.
  destruct (ctry_import _ _ w) as [[[ | [flag msg]] | e] w1] eqn:E.
  - destruct (reset_and_identify w1) as [[[flag msg] | e] w2] eqn:R.
    + exists flag, msg, w2. split; [ reflexivity | intros -> ].
      exact (reset_and_identify_true _ _ _ R).
    + unfold cret. eexists _, _, _. split; [ reflexivity | discriminate ].
  - unfold cret. exists flag, msg, w1. split; [ reflexivity | intros -> ].
    unfold ctry_import in E.
    destruct (connect_via_helper backends gpib_addr w)
      as [[r | e] v1] eqn:V.
    + injection E as -> ->.
      unfold connect_via_helper, cbind at 1 in V.
      destruct (via_helper backends gpib_addr w)
        as [[[[inst | ] err] | e] v0]; simpl in V; try discriminate.
      * unfold cbind at 1, of_M at 1, put_instrument in V.
        unfold cbind, of_M, instr_query in V. simpl in V.
        destruct (on_query inst (trace v0) "*IDN?"); [ | discriminate ].
        unfold cret in V. injection V as _ <-. discriminate.
      * destruct (nonempty err); discriminate.
    + destruct (is_import_error e); [ | discriminate ].
      unfold connect_standard, ctry at 1, cbind at 1, open_with in E.
      destruct (open_default backends (trace v1) _);
        [ discriminate | ].
      unfold ctry, cbind at 1 in E.
      destruct (open_py backends (trace v1) _); discriminate.
  - unfold cret. eexists _, _, _. split; [ reflexivity | discriminate ].
Qed.

(** X12. [connect_to_instrument] never raises: every outcome is a pair
    of a flag and a message. Whenever the flag is True, the controller
    holds an instrument afterwards. *)
Theorem connect_to_instrument_total {rt : PyRuntime}
    (backends : Backends) (gpib_addr : Z) (w : world) :
  exists flag msg w',
    connect_to_instrument backends gpib_addr w = (Ok (flag, msg), w')
    /\ (flag = true -> instrument w' <> None).
Proof. exact (connect_to_instrument_returns backends gpib_addr w). Qed.

Lemma connect_via_helper_query {rt : PyRuntime}
    (backends : Backends) (gpib_addr : Z) (w w1 : world)
    (inst : Instrument) (error : option string) :
  via_helper backends gpib_addr w = (Ok (Some inst, error), w1) ->
  connect_to_instrument backends gpib_addr w =
    (Ok match on_query inst (trace w1) "*IDN?" with
        | Return reply => (true, "Connected to " ++ str_strip reply)
        | Raise e => (false, "Connection error: " ++ exn_str e)
        end,
     log (Query "*IDN?") (set_instrument (Some inst) w1)).
Proof.
  intros H.
  unfold connect_to_instrument, ctry, cbind at 1, ctry_import,
    connect_via_helper, cbind at 1.
  rewrite H. simpl.
  unfold cbind at 1, of_M at 1, put_instrument.
  unfold cbind at 1, of_M, instr_query. simpl.
  destruct (on_query inst (trace w1) "*IDN?"); reflexivity.
Qed.

(** X13. When the helper module hands over an instrument, the
    controller takes it and sends a single ["*IDN?"]: there is no
    reset and no clearing on this path. If the query is answered the
    method reports success with the stripped answer; if it raises, the
    method reports a connection error, and the controller holds the
    instrument all the same. *)
Theorem connect_via_helper_instrument {rt : PyRuntime}
    (backends : Backends) (gpib_addr : Z) (w w1 : world)
    (inst : Instrument) (error : option string) :
  via_helper backends gpib_addr w = (Ok (Some inst, error), w1) ->
  connect_to_instrument backends gpib_addr w =
    (Ok match on_query inst (trace w1) "*IDN?" with
        | Return reply => (true, "Connected to " ++ str_strip reply)
        | Raise e => (false, "Connection error: " ++ exn_str e)
        end,
     log (Query "*IDN?") (set_instrument (Some inst) w1)).
Proof. apply connect_via_helper_query. Qed.

(** X14. When the helper module is missing and a standard backend opens
    the address, on an instrument that accepts the commands: the
    controller takes the instrument, writes ["*RST"], then ["*CLS"],
    then asks ["*IDN?"]. An identity without MODEL 2450 is accepted
    with a warning; one with it is reported by its second
    comma-separated field, and if it has no comma the method reports a
    connection error while holding the instrument. *)
Theorem connect_standard_resets {rt : PyRuntime}
    (backends : Backends) (gpib_addr : Z) (w w1 : world)
    (inst : Instrument) (why reply : string) :
  via_helper backends gpib_addr w = (Err (ImportError why), w1) ->
  (open_default backends (trace w1)
     ("GPIB0::" ++ fmt_int gpib_addr ++ "::INSTR") = Return inst
   \/ exists e,
        open_default backends (trace w1)
          ("GPIB0::" ++ fmt_int gpib_addr ++ "::INSTR") = Raise e
        /\ open_py backends (trace w1)
             ("GPIB0::" ++ fmt_int gpib_addr ++ "::INSTR") = Return inst) ->
  accepts_writes inst ->
  on_query inst (Write "*CLS" :: Write "*RST" :: trace w1) "*IDN?"
    = Return reply ->
  connect_to_instrument backends gpib_addr w =
    (Ok (if negb (contains "MODEL 2450" (str_upper (str_strip reply)))
         then (true,
               "Warning: Connected to " ++ str_strip reply
               ++ ", which may not be a Keithley 2450 SMU")
         else
           match nth_error (split_on "," (str_strip reply)) 1 with
           | Some field => (true, "Connected to " ++ field)
           | None => (false, "Connection error: list index out of range")
           end),
     log (Query "*IDN?")
       (log (Write "*CLS")
          (log (Write "*RST") (set_instrument (Some inst) w1)))).
Proof.
  intros H Ho Ha Hq.
  assert (S : connect_standard backends gpib_addr w1
              = (Ok FallThrough, set_instrument (Some inst) w1)).
  { unfold connect_standard, ctry at 1, cbind at 1, open_with.
    destruct Ho as [Ho | (e & Ho & Hp)]; rewrite Ho.
    - reflexivity.
    - unfold ctry, cbind. rewrite Hp. reflexivity. }
  unfold connect_to_instrument, ctry, cbind at 1, ctry_import,
    connect_via_helper, cbind at 1.
  rewrite H. simpl. rewrite S.
  unfold reset_and_identify, cbind at 1, of_M.
  rewrite (instr_write_accepted inst) by (try reflexivity; exact Ha).
  unfold cbind at 1.
  rewrite (instr_write_accepted inst) by (try reflexivity; exact Ha).
  unfold cbind at 1.
  rewrite (instr_query_connected inst) by reflexivity.
  simpl trace. rewrite Hq.
  destruct (negb _); [ reflexivity | ].
  destruct (split_on "," (str_strip reply)) as [ | a [ | b l ] ];
    reflexivity.
Qed.

Lemma connect_helper_error {rt : PyRuntime}
    (backends : Backends) (gpib_addr : Z) (w w1 : world) (error : string) :
  via_helper backends gpib_addr w = (Ok (None, Some error), w1) ->
  error <> EmptyString ->
  connect_to_instrument backends gpib_addr w
    = (Ok (false, "Connection error: " ++ error), w1).
Proof.
  intros H Hne.
  unfold connect_to_instrument, ctry, cbind at 1, ctry_import,
    connect_via_helper, cbind at 1.
  rewrite H. simpl.
  destruct error as [ | c s ]; [ congruence | reflexivity ].
Qed.

(** X15. When nothing opens, the controller is left as it was found.
    If the helper reports an error text, the method returns False with
    that text; if the helper module is missing and both standard
    backends raise, it returns False with both messages. In either case
    no command is sent and [self.instrument] is not assigned. *)
Theorem connect_failure_leaves_controller {rt : PyRuntime}
    (backends : Backends) (gpib_addr : Z) (w w1 : world) :
  (forall error,
      via_helper backends gpib_addr w = (Ok (None, Some error), w1) ->
      error <> EmptyString ->
      connect_to_instrument backends gpib_addr w
        = (Ok (false, "Connection error: " ++ error), w1))
  /\ (forall why e1 e2,
        via_helper backends gpib_addr w = (Err (ImportError why), w1) ->
        open_default backends (trace w1)
          ("GPIB0::" ++ fmt_int gpib_addr ++ "::INSTR") = Raise e1 ->
        open_py backends (trace w1)
          ("GPIB0::" ++ fmt_int gpib_addr ++ "::INSTR") = Raise e2 ->
        connect_to_instrument backends gpib_addr w
          = (Ok (false,
                 "Failed to connect with all methods:" ++ newline
                 ++ "1. " ++ exn_str e1 ++ newline
                 ++ "2. " ++ exn_str e2), w1)).
Proof.
  split.
  - intros error. apply connect_helper_error.
  - intros why e1 e2 H H1 H2.
    unfold connect_to_instrument, ctry, cbind at 1, ctry_import,
      connect_via_helper, cbind at 1.
    rewrite H. simpl.
    unfold connect_standard, ctry, cbind, open_with.
    rewrite H1, H2. reflexivity.
Qed.

(** The three connection paths on concrete backends. *)
Lemma connect_via_helper_instrument_witness :
  connect_to_instrument (rt := Demo.runtime)
    (Bench.helper_gives (Demo.steady Bench.idn_2450)) 18 Bench.disconnected
  = (Ok (true, "Connected to " ++ Bench.idn_2450),
     log (Query "*IDN?")
       (set_instrument (Some (Demo.steady Bench.idn_2450))
          Bench.disconnected)).
Proof.
  exact (connect_via_helper_instrument (rt := Demo.runtime)
           (Bench.helper_gives (Demo.steady Bench.idn_2450)) 18
           Bench.disconnected Bench.disconnected
           (Demo.steady Bench.idn_2450) None eq_refl).
Defined.

Lemma connect_standard_resets_witness :
  connect_to_instrument (rt := Demo.runtime)
    (Bench.helper_missing (Return (Demo.steady Bench.idn_2450))
       (Raise Demo.io_error)) 18 Bench.disconnected
  = (Ok (true, "Connected to MODEL 2450"),
     log (Query "*IDN?")
       (log (Write "*CLS")
          (log (Write "*RST")
             (set_instrument (Some (Demo.steady Bench.idn_2450))
                Bench.disconnected)))).
Proof.
  exact (connect_standard_resets (rt := Demo.runtime)
           (Bench.helper_missing (Return (Demo.steady Bench.idn_2450))
              (Raise Demo.io_error)) 18
           Bench.disconnected Bench.disconnected
           (Demo.steady Bench.idn_2450)
           "No module named 'gpib_helper'" Bench.idn_2450
           eq_refl (or_introl eq_refl) (fun _ _ => eq_refl) eq_refl).
Defined.

Lemma connect_failure_leaves_controller_witness :
  connect_to_instrument (rt := Demo.runtime)
    (Bench.helper_reports "no device") 18 Bench.disconnected
  = (Ok (false, "Connection error: no device"), Bench.disconnected)
  /\ fst (connect_to_instrument (rt := Demo.runtime)
            (Bench.helper_missing (Raise Demo.io_error)
               (Raise Demo.io_error)) 18 Bench.disconnected)
     = Ok (false,
           "Failed to connect with all methods:" ++ newline
           ++ "1. VI_ERROR_TMO" ++ newline ++ "2. VI_ERROR_TMO").
Proof.
  split.
  - refine (proj1 (connect_failure_leaves_controller (rt := Demo.runtime)
                     (Bench.helper_reports "no device") 18
                     Bench.disconnected Bench.disconnected)
                  "no device" eq_refl _).
    discriminate.
  - rewrite (proj2 (connect_failure_leaves_controller (rt := Demo.runtime)
                      (Bench.helper_missing (Raise Demo.io_error)
                         (Raise Demo.io_error)) 18
                      Bench.disconnected Bench.disconnected)
                   "No module named 'gpib_helper'"
                   Demo.io_error Demo.io_error eq_refl eq_refl eq_refl).
    reflexivity.
Defined.

(** * Properties of the helper module *)

Section HelperFacts.

Import gpib_helper.

Context {rt : PyRuntime}.
Variable platform : Platform.

(** ** Nothing escapes the connection attempts *)

Lemma never_raises_gret {A} (a : A) : never_raises (gret a).
Proof. intros h. unfold gret. eauto. Qed.

Lemma never_raises_print (s : string) : never_raises (print s).
Proof. intros h. unfold print. eauto. Qed.

Lemma never_raises_sleep_2 : never_raises sleep_2.
Proof. intros h. unfold sleep_2. eauto. Qed.

Lemma never_raises_gbind {A B} (m : G A) (k : A -> G B) :
  never_raises m -> (forall a, never_raises (k a)) ->
  never_raises (gbind m k).
Proof.
  intros Hm Hk h. unfold gbind.
  destruct (Hm h) as (a & h1 & ->). apply Hk.
Qed.

Lemma never_raises_gtry {A} (m : G A) (handler : py_exception -> G A) :
  (forall e, never_raises (handler e)) -> never_raises (gtry m handler).
Proof.
  intros Hh h. unfold gtry.
  destruct (m h) as [[a | e] h1]; [ eauto | apply Hh ].
Qed.

Create HintDb never_raises.
#[local] Hint Resolve never_raises_gret never_raises_print
  never_raises_sleep_2 never_raises_gbind never_raises_gtry : never_raises.

Lemma never_raises_get_resource_manager (arg : manager_arg) :
  never_raises (get_resource_manager platform arg).
Proof. unfold get_resource_manager. auto 10 with never_raises. Qed.

Lemma never_raises_try_formats (rm : Manager) (formats : list string) :
  never_raises (try_formats rm formats).
Proof.
  induction formats as [ | f rest IH ]; simpl.
  - auto with never_raises.
  - apply never_raises_gbind; [ auto 10 with never_raises | ].
    intros [ | inst ]; auto with never_raises.
Qed.

Lemma never_raises_try_resources (rm : Manager) (address : string)
    (resources : list string) :
  never_raises (try_resources rm address resources).
Proof.
  induction resources as [ | r rest IH ]; simpl.
  - auto with never_raises.
  - destruct (contains address r); [ | exact IH ].
    apply never_raises_gbind; [ auto 10 with never_raises | ].
    intros [ | inst ]; auto with never_raises.
Qed.

Lemma never_raises_attempts_loop (gpib_address attempts : Z)
    (idx : list nat) :
  never_raises (attempts_loop platform gpib_address attempts idx).
Proof.
  induction idx as [ | attempt rest IH ]; simpl.
  - auto with never_raises.
  - apply never_raises_gbind; [ auto with never_raises | intros _ ].
    apply never_raises_gbind;
      [ unfold try_standard; auto 10 with never_raises | ].
    intros [ | inst ]; [ | auto with never_raises ].
    apply never_raises_gbind;
      [ unfold try_pyvisa_py; auto 10 with never_raises | ].
    intros [ | inst ]; [ | auto with never_raises ].
    apply never_raises_gbind; [ | intros _; exact IH ].
    destruct (_ <? _); auto with never_raises.
Qed.

(** ** Pauses *)

Lemma no_wait_gret {A} (a : A) : no_wait (gret a).
Proof. intros h. reflexivity. Qed.

Lemma no_wait_print (s : string) : no_wait (print s).
Proof. intros h. reflexivity. Qed.

Lemma no_wait_gbind {A B} (m : G A) (k : A -> G B) :
  no_wait m -> (forall a, no_wait (k a)) -> no_wait (gbind m k).
Proof.
  intros Hm Hk h. unfold gbind. specialize (Hm h).
  destruct (m h) as [[a | e] h1]; simpl in *.
  - rewrite Hk. exact Hm.
  - exact Hm.
Qed.

Lemma no_wait_gtry {A} (m : G A) (handler : py_exception -> G A) :
  no_wait m -> (forall e, no_wait (handler e)) -> no_wait (gtry m handler).
Proof.
  intros Hm Hh h. unfold gtry. specialize (Hm h).
  destruct (m h) as [[a | e] h1]; simpl in *.
  - exact Hm.
  - rewrite Hh. exact Hm.
Qed.

Lemma no_wait_resource_manager (arg : manager_arg) :
  no_wait (resource_manager platform arg).
Proof.
  intros h. unfold resource_manager.
  destruct (new_manager _ _ _); reflexivity.
Qed.

Lemma no_wait_open_resource (rm : Manager) (name : string) :
  no_wait (open_resource rm name).
Proof.
  intros h. unfold open_resource.
  destruct (rm_open_resource _ _ _); reflexivity.
Qed.

Lemma no_wait_list_resources (rm : Manager) : no_wait (list_resources rm).
Proof.
  intros h. unfold list_resources.
  destruct (rm_list_resources _ _); reflexivity.
Qed.

Create HintDb no_wait.
#[local] Hint Resolve no_wait_gret no_wait_print no_wait_gbind no_wait_gtry
  no_wait_resource_manager no_wait_open_resource no_wait_list_resources
  : no_wait.

Lemma no_wait_get_resource_manager (arg : manager_arg) :
  no_wait (get_resource_manager platform arg).
Proof. unfold get_resource_manager. auto 10 with no_wait. Qed.

Lemma no_wait_try_formats (rm : Manager) (formats : list string) :
  no_wait (try_formats rm formats).
Proof.
  induction formats as [ | f rest IH ]; simpl.
  - auto with no_wait.
  - apply no_wait_gbind; [ auto 10 with no_wait | ].
    intros [ | inst ]; auto with no_wait.
Qed.

Lemma no_wait_try_resources (rm : Manager) (address : string)
    (resources : list string) :
  no_wait (try_resources rm address resources).
Proof.
  induction resources as [ | r rest IH ]; simpl.
  - auto with no_wait.
  - destruct (contains address r); [ | exact IH ].
    apply no_wait_gbind; [ auto 10 with no_wait | ].
    intros [ | inst ]; auto with no_wait.
Qed.

Lemma no_wait_try_standard (gpib_address : Z) :
  no_wait (try_standard platform gpib_address).
Proof.
  unfold try_standard.
  apply no_wait_gtry; [ | auto with no_wait ].
  apply no_wait_gbind; [ apply no_wait_get_resource_manager | ].
  intros [rm | ]; auto using no_wait_try_formats with no_wait.
Qed.

Lemma no_wait_try_pyvisa_py (gpib_address : Z) :
  no_wait (try_pyvisa_py platform gpib_address).
Proof.
  unfold try_pyvisa_py.
  apply no_wait_gtry; [ | auto with no_wait ].
  apply no_wait_gbind; [ apply no_wait_get_resource_manager | ].
  intros [rm | ]; [ | auto with no_wait ].
  auto 10 using no_wait_try_resources with no_wait.
Qed.

(** One round of attempts that finds nothing pauses once, unless it is
    the last round. *)
Lemma attempts_loop_waits (gpib_address attempts : Z) (idx : list nat) :
  forall h h',
    attempts_loop platform gpib_address attempts idx h
      = (Ok FallThrough, h') ->
    waits (probes h') =
      (waits (probes h)
       + List.length
           (filter (fun attempt => (Z.of_nat attempt <? attempts - 1)%Z)
              idx))%nat.
Proof.
  induction idx as [ | attempt rest IH ]; intros h h' H; simpl in H.
  - unfold gret in H. injection H as <-. simpl. lia.
  - unfold gbind at 1, print in H.
    unfold gbind at 1 in H.
    pose proof (no_wait_try_standard gpib_address
                  (mkHost
                     (("Attempting to connect to instrument (attempt "
                       ++ fmt_int (Z.of_nat attempt + 1) ++ "/"
                       ++ fmt_int attempts ++ ")...") :: stdout h)
                     (probes h) (wire h))) as W1.
    destruct (try_standard platform gpib_address _)
      as [[[ | inst] | e] h1]; [ | discriminate | discriminate ].
    unfold gbind at 1 in H.
    pose proof (no_wait_try_pyvisa_py gpib_address h1) as W2.
    destruct (try_pyvisa_py platform gpib_address h1)
      as [[[ | inst] | e] h2]; [ | discriminate | discriminate ].
    simpl in W1, W2. simpl filter.
    destruct (Z.of_nat attempt <? attempts - 1).
    + unfold gbind at 1 2, print, sleep_2 in H.
      apply IH in H. simpl in H. simpl. lia.
    + unfold gbind at 1, gret in H.
      apply IH in H. simpl. lia.
Qed.

Lemma count_early_attempts (attempts : Z) (n : nat) :
  forall a : nat,
    (List.length
       (filter (fun attempt => (Z.of_nat attempt <? attempts - 1)%Z)
          (seq a n))
     + Nat.min a (Z.to_nat (attempts - 1)))%nat
    = Nat.min (a + n) (Z.to_nat (attempts - 1)).
Proof.
  induction n as [ | n IH ]; intros a; simpl.
  - f_equal. lia.
  - specialize (IH (S a)).
    destruct (Z.of_nat a <? attempts - 1) eqn:E; simpl.
    + apply Z.ltb_lt in E. lia.
    + apply Z.ltb_ge in E. lia.
Qed.

End HelperFacts.

Lemma never_raises_get_instrument_connection {rt : PyRuntime}
    (platform : gpib_helper.Platform) (gpib_address attempts : Z) :
  gpib_helper.never_raises
    (gpib_helper.get_instrument_connection platform gpib_address attempts).
Proof.
  unfold gpib_helper.get_instrument_connection.
  apply never_raises_gbind; [ apply never_raises_attempts_loop | ].
  intros [ | inst ].
  - apply never_raises_gbind;
      [ apply never_raises_print | intros _; apply never_raises_gret ].
  - apply never_raises_gret.
Qed.

(** X16. [get_instrument_connection] never raises, whatever the
    platform does: every exception of a resource manager, of an open
    or of a listing is caught inside. *)
Theorem get_instrument_connection_never_raises {rt : PyRuntime}
    (platform : gpib_helper.Platform) (gpib_address attempts : Z) :
  gpib_helper.never_raises
    (gpib_helper.get_instrument_connection platform gpib_address attempts).
Proof. apply never_raises_get_instrument_connection. Qed.

(** X17. Whenever [get_instrument_connection] returns [None], it has
    paused [attempts - 1] times (never, for [attempts <= 1]): once
    after every round but the last, and its last line of output is the
    final failure message. *)
Theorem get_instrument_connection_pauses {rt : PyRuntime}
    (platform : gpib_helper.Platform) (gpib_address attempts : Z)
    (h h' : gpib_helper.host) :
  gpib_helper.get_instrument_connection platform gpib_address attempts h
    = (Ok None, h') ->
  gpib_helper.waits (gpib_helper.probes h')
    = (gpib_helper.waits (gpib_helper.probes h)
       + Z.to_nat (attempts - 1))%nat
  /\ hd_error (gpib_helper.stdout h')
     = Some "All connection attempts failed.".
Proof.
  unfold gpib_helper.get_instrument_connection, gpib_helper.gbind at 1.
  destruct (gpib_helper.attempts_loop platform gpib_address attempts
              (range attempts) h) as [[[ | inst] | e] h1] eqn:L;
    [ | discriminate | discriminate ].
  unfold gpib_helper.gbind, gpib_helper.print, gpib_helper.gret.
  intros H. injection H as <-. simpl.
  split; [ | reflexivity ].
  rewrite (attempts_loop_waits _ _ _ _ _ _ L).
  f_equal. unfold range.
  pose proof (count_early_attempts attempts (Z.to_nat attempts) 0) as Cn.
  simpl in Cn. lia.
Qed.

(** ** What a successful connection attempt has opened *)

Lemma contains_prefix (needle hay : string) :
  String.prefix needle hay = true -> contains needle hay = true.
Proof.
  intros H. destruct hay as [ | c hay ].
  - change (contains needle "")
      with (if String.prefix needle "" then true else false).
    rewrite H. reflexivity.
  - change (contains needle (String c hay))
      with (if String.prefix needle (String c hay) then true
            else contains needle hay).
    rewrite H. reflexivity.
Qed.

Lemma contains_cons (needle hay : string) (c : ascii) :
  contains needle hay = true -> contains needle (String c hay) = true.
Proof.
  intros H. change (contains needle (String c hay))
    with (if String.prefix needle (String c hay) then true
          else contains needle hay).
  rewrite H. destruct (String.prefix _ _); reflexivity.
Qed.

Lemma prefix_append (s t : string) : String.prefix s (s ++ t) = true.
Proof.
  induction s as [ | c s IH ].
  - destruct t; reflexivity.
  - change (String c s ++ t) with (String c (s ++ t)). simpl.
    rewrite IH. destruct (ascii_dec c c); [ reflexivity | congruence ].
Qed.

Lemma contains_middle (s before after : string) :
  contains s (before ++ s ++ after) = true.
Proof.
  induction before as [ | c before IH ].
  - change ("" ++ s ++ after) with (s ++ after).
    apply contains_prefix, prefix_append.
  - change (String c before ++ s ++ after)
      with (String c (before ++ s ++ after)).
    apply contains_cons, IH.
Qed.

Lemma append_empty (s : string) : s ++ "" = s.
Proof.
  induction s as [ | c s IH ]; [ reflexivity | ].
  change (String c s ++ "") with (String c (s ++ "")). rewrite IH.
  reflexivity.
Qed.

Section HelperOpens.

Import gpib_helper.

Context {rt : PyRuntime}.
Variable platform : Platform.

Lemma resource_formats_contain (gpib_address : Z) :
  Forall (fun name => contains (fmt_int gpib_address) name = true)
    (resource_formats gpib_address).
Proof.
  unfold resource_formats.
  repeat constructor.
  - apply contains_middle.
  - apply contains_middle.
  - rewrite <- (append_empty (fmt_int gpib_address)) at 2.
    apply contains_middle.
  - rewrite <- (append_empty (fmt_int gpib_address)) at 2.
    apply contains_middle.
Qed.

Lemma get_resource_manager_in_use (arg : manager_arg) (h h' : host)
    (rm : Manager) :
  get_resource_manager platform arg h = (Ok (Some rm), h') ->
  manager_in_use platform (probes h') = Some rm.
Proof.
  unfold get_resource_manager, gtry, gbind at 1, resource_manager.
  destruct (new_manager platform (probes h) arg) as [rm1 | e1] eqn:N1.
  - unfold gret. intros H. injection H as <- <-. simpl. rewrite N1.
    reflexivity.
  - unfold gbind at 1, print. unfold gbind at 1. simpl.
    destruct (new_manager platform (NewManager arg :: probes h)
                (Library "@py")) as [rm2 | e2] eqn:N2.
    + unfold gret. intros H. injection H as <- <-. simpl. rewrite N2.
      reflexivity.
    + unfold gbind, print, gret. discriminate.
Qed.

Lemma try_formats_opened (address : string) (rm : Manager)
    (formats : list string) :
  Forall (fun name => contains address name = true) formats ->
  forall h h' inst,
    manager_in_use platform (probes h) = Some rm ->
    try_formats rm formats h = (Ok (Returned inst), h') ->
    opened platform address h' inst.
Proof.
  induction 1 as [ | f rest Hf _ IH ]; intros h h' inst Hm H; simpl in H.
  - discriminate H.
  - unfold gbind at 1, gtry, gbind at 1, print in H.
    unfold gbind at 1, open_resource in H. simpl in H.
    destruct (rm_open_resource rm (probes h) f) as [i | e] eqn:O.
    + unfold gbind, print, gret in H. simpl in H.
      injection H as <- <-. exists f, (probes h), rm. auto.
    + unfold gbind at 1, print, gret in H. simpl in H.
      refine (IH _ _ _ _ H). simpl. exact Hm.
Qed.

Lemma try_resources_opened (address : string) (rm : Manager)
    (resources : list string) :
  forall h h' inst,
    manager_in_use platform (probes h) = Some rm ->
    try_resources rm address resources h = (Ok (Returned inst), h') ->
    opened platform address h' inst.
Proof.
  induction resources as [ | r rest IH ]; intros h h' inst Hm H;
    simpl in H.
  - discriminate H.
  - destruct (contains address r) eqn:Cr; [ | exact (IH _ _ _ Hm H) ].
    unfold gbind at 1, gtry, gbind at 1, open_resource in H.
    destruct (rm_open_resource rm (probes h) r) as [i | e] eqn:O.
    + unfold gbind, print, gret in H. simpl in H.
      injection H as <- <-. exists r, (probes h), rm. auto.
    + unfold gbind at 1, print, gret in H. simpl in H.
      refine (IH _ _ _ _ H). simpl. exact Hm.
Qed.

Lemma try_standard_opened (gpib_address : Z) (h h' : host)
    (inst : Instrument) :
  try_standard platform gpib_address h = (Ok (Returned inst), h') ->
  opened platform (fmt_int gpib_address) h' inst.
Proof.
  unfold try_standard, gtry, gbind at 1.
  destruct (get_resource_manager platform PyNone h)
    as [[[rm | ] | e] h1] eqn:G.
  - destruct (try_formats rm _ h1) as [[r | e] h2] eqn:T.
    + intros H. injection H as -> ->.
      exact (try_formats_opened _ _ _
               (resource_formats_contain gpib_address) _ _ _
               (get_resource_manager_in_use _ _ _ _ G) T).
    + unfold gbind, print, gret. discriminate.
  - unfold gret. discriminate.
  - unfold gbind, print, gret. discriminate.
Qed.

Lemma try_pyvisa_py_opened (gpib_address : Z) (h h' : host)
    (inst : Instrument) :
  try_pyvisa_py platform gpib_address h = (Ok (Returned inst), h') ->
  opened platform (fmt_int gpib_address) h' inst.
Proof.
  unfold try_pyvisa_py, gtry, gbind at 1.
  destruct (get_resource_manager platform (Library "@py") h)
    as [[[rm | ] | e] h1] eqn:G.
  - pose proof (get_resource_manager_in_use _ _ _ _ G) as Hm.
    unfold gbind at 1, list_resources.
    destruct (rm_list_resources rm (probes h1)) as [names | e].
    + unfold gbind at 1, print.
      match goal with |- context [try_resources rm ?a names ?v] =>
        destruct (try_resources rm a names v) as [[r | e] h3] eqn:T
      end.
      * intros H. injection H as -> ->.
        refine (try_resources_opened _ _ _ _ _ _ _ T). simpl. exact Hm.
      * unfold gbind, print, gret. discriminate.
    + unfold gbind, print, gret. discriminate.
  - unfold gret. discriminate.
  - unfold gbind, print, gret. discriminate.
Qed.

Lemma attempts_loop_opened (gpib_address attempts : Z) (idx : list nat) :
  forall h h' inst,
    attempts_loop platform gpib_address attempts idx h
      = (Ok (Returned inst), h') ->
    opened platform (fmt_int gpib_address) h' inst.
Proof.
  induction idx as [ | attempt rest IH ]; intros h h' inst H; simpl in H.
  - discriminate H.
  - unfold gbind at 1, print in H. unfold gbind at 1 in H.
    destruct (try_standard platform gpib_address _)
      as [[[ | i] | e] h1] eqn:T1; [ | | discriminate ].
    + unfold gbind at 1 in H.
      destruct (try_pyvisa_py platform gpib_address h1)
        as [[[ | i] | e] h2] eqn:T2; [ | | discriminate ].
      * unfold gbind at 1 in H.
        destruct (Z.of_nat attempt <? attempts - 1).
        -- unfold gbind at 1, print, sleep_2 in H.
           exact (IH _ _ _ H).
        -- unfold gret at 1 in H. exact (IH _ _ _ H).
      * unfold gret in H. injection H as <- <-.
        exact (try_pyvisa_py_opened _ _ _ _ T2).
    + unfold gret in H. injection H as <- <-.
      exact (try_standard_opened _ _ _ _ T1).
Qed.

End HelperOpens.

(** X18. Whenever [get_instrument_connection] returns an instrument, it
    returns at once after the open that produced it: its newest call
    into the platform is an [open_resource] on a resource name in which
    the decimal address occurs (one of the four formats, or a listed
    resource matched by substring), made on the resource manager that
    the newest [pyvisa.ResourceManager] call before it returned, and
    what this open returned is the instrument handed back. No other
    instrument fits: the calls recorded determine it. *)
Theorem get_instrument_connection_opened {rt : PyRuntime}
    (platform : gpib_helper.Platform) (gpib_address attempts : Z)
    (h h' : gpib_helper.host) (inst : Instrument) :
  gpib_helper.get_instrument_connection platform gpib_address attempts h
    = (Ok (Some inst), h') ->
  (exists name ps rm,
      gpib_helper.probes h' = gpib_helper.OpenResource name :: ps
      /\ contains (fmt_int gpib_address) name = true
      /\ gpib_helper.manager_in_use platform ps = Some rm
      /\ gpib_helper.rm_open_resource rm ps name = Return inst)
  /\ (forall name ps rm other,
        gpib_helper.probes h' = gpib_helper.OpenResource name :: ps ->
        gpib_helper.manager_in_use platform ps = Some rm ->
        gpib_helper.rm_open_resource rm ps name = Return other ->
        other = inst).
Proof.
  unfold gpib_helper.get_instrument_connection, gpib_helper.gbind at 1.
  destruct (gpib_helper.attempts_loop platform gpib_address attempts
              (range attempts) h) as [[[ | i] | e] h1] eqn:L;
    [ | | discriminate ].
  - unfold gpib_helper.gbind, gpib_helper.print, gpib_helper.gret.
    discriminate.
  - unfold gpib_helper.gret. intros H. injection H as <- <-.
    pose proof (attempts_loop_opened _ _ _ _ _ _ _ L) as O.
    split; [ exact O | ].
    destruct O as (name0 & ps0 & rm0 & P0 & _ & M0 & R0).
    intros name ps rm other P M R.
    rewrite P0 in P. injection P as <- <-.
    rewrite M0 in M. injection M as <-.
    rewrite R0 in R. injection R as <-. reflexivity.
Qed.

(** ** The helper's answer *)

Section HelperAnswer.

Import gpib_helper.

Context {rt : PyRuntime}.
Variable platform : Platform.

Lemma off_wire_gret {A} (a : A) : off_wire (gret a).
Proof. intros h. reflexivity. Qed.

Lemma off_wire_print (s : string) : off_wire (print s).
Proof. intros h. reflexivity. Qed.

Lemma off_wire_sleep_2 : off_wire sleep_2.
Proof. intros h. reflexivity. Qed.

Lemma off_wire_gbind {A B} (m : G A) (k : A -> G B) :
  off_wire m -> (forall a, off_wire (k a)) -> off_wire (gbind m k).
Proof.
  intros Hm Hk h. unfold gbind. specialize (Hm h).
  destruct (m h) as [[a | e] h1]; simpl in *.
  - rewrite Hk. exact Hm.
  - exact Hm.
Qed.

Lemma off_wire_gtry {A} (m : G A) (handler : py_exception -> G A) :
  off_wire m -> (forall e, off_wire (handler e)) ->
  off_wire (gtry m handler).
Proof.
  intros Hm Hh h. unfold gtry. specialize (Hm h).
  destruct (m h) as [[a | e] h1]; simpl in *.
  - exact Hm.
  - rewrite Hh. exact Hm.
Qed.

Lemma off_wire_gtry_import {A} (m handler : G A) :
  off_wire m -> off_wire handler -> off_wire (gtry_import m handler).
Proof.
  intros Hm Hh h. unfold gtry_import. specialize (Hm h).
  destruct (m h) as [[a | e] h1]; simpl in *.
  - exact Hm.
  - destruct (is_import_error e); simpl.
    + rewrite Hh. exact Hm.
    + exact Hm.
Qed.

Lemma off_wire_resource_manager (arg : manager_arg) :
  off_wire (resource_manager platform arg).
Proof.
  intros h. unfold resource_manager.
  destruct (new_manager _ _ _); reflexivity.
Qed.

Lemma off_wire_open_resource (rm : Manager) (name : string) :
  off_wire (open_resource rm name).
Proof.
  intros h. unfold open_resource.
  destruct (rm_open_resource _ _ _); reflexivity.
Qed.

Lemma off_wire_list_resources (rm : Manager) : off_wire (list_resources rm).
Proof.
  intros h. unfold list_resources.
  destruct (rm_list_resources _ _); reflexivity.
Qed.

Lemma off_wire_import (module : string) : off_wire (import platform module).
Proof.
  intros h. unfold import. destruct (import_module _ _ _); reflexivity.
Qed.

Create HintDb off_wire.
#[local] Hint Resolve off_wire_gret off_wire_print off_wire_sleep_2
  off_wire_gbind off_wire_gtry off_wire_gtry_import
  off_wire_resource_manager off_wire_open_resource
  off_wire_list_resources off_wire_import : off_wire.

Lemma off_wire_get_resource_manager (arg : manager_arg) :
  off_wire (get_resource_manager platform arg).
Proof. unfold get_resource_manager. auto 10 with off_wire. Qed.

Lemma off_wire_try_formats (rm : Manager) (formats : list string) :
  off_wire (try_formats rm formats).
Proof.
  induction formats as [ | f rest IH ]; simpl.
  - auto with off_wire.
  - apply off_wire_gbind; [ auto 10 with off_wire | ].
    intros [ | inst ]; auto with off_wire.
Qed.

Lemma off_wire_try_resources (rm : Manager) (address : string)
    (resources : list string) :
  off_wire (try_resources rm address resources).
Proof.
  induction resources as [ | r rest IH ]; simpl.
  - auto with off_wire.
  - destruct (contains address r); [ | exact IH ].
    apply off_wire_gbind; [ auto 10 with off_wire | ].
    intros [ | inst ]; auto with off_wire.
Qed.

Lemma off_wire_attempts_loop (gpib_address attempts : Z) (idx : list nat) :
  off_wire (attempts_loop platform gpib_address attempts idx).
Proof.
  induction idx as [ | attempt rest IH ]; simpl.
  - auto with off_wire.
  - apply off_wire_gbind; [ auto with off_wire | intros _ ].
    apply off_wire_gbind.
    { unfold try_standard.
      apply off_wire_gtry; [ | auto with off_wire ].
      apply off_wire_gbind; [ apply off_wire_get_resource_manager | ].
      intros [rm | ]; auto using off_wire_try_formats with off_wire. }
    intros [ | inst ]; [ | auto with off_wire ].
    apply off_wire_gbind.
    { unfold try_pyvisa_py.
      apply off_wire_gtry; [ | auto with off_wire ].
      apply off_wire_gbind; [ apply off_wire_get_resource_manager | ].
      intros [rm | ]; [ | auto with off_wire ].
      auto 10 using off_wire_try_resources with off_wire. }
    intros [ | inst ]; [ | auto with off_wire ].
    apply off_wire_gbind; [ | intros _; exact IH ].
    destruct (_ <? _); auto with off_wire.
Qed.

Lemma off_wire_get_instrument_connection (gpib_address attempts : Z) :
  off_wire (get_instrument_connection platform gpib_address attempts).
Proof.
  unfold get_instrument_connection.
  apply off_wire_gbind; [ apply off_wire_attempts_loop | ].
  intros [ | inst ]; auto with off_wire.
Qed.

Lemma off_wire_check_library (module key found missing : string) result :
  off_wire (check_library platform module key found missing result).
Proof. unfold check_library. auto 10 with off_wire. Qed.

Lemma off_wire_check_gpib_libraries :
  off_wire (check_gpib_libraries platform).
Proof.
  unfold check_gpib_libraries.
  auto 20 using off_wire_check_library with off_wire.
Qed.

(** *** No [ImportError] escapes the library check *)

Lemma no_import_error_total {A} (m : G A) :
  never_raises m -> no_import_error m.
Proof.
  intros T h e h' H. destruct (T h) as (a & h1 & E). congruence.
Qed.

Lemma no_import_error_gbind {A B} (m : G A) (k : A -> G B) :
  no_import_error m -> (forall a, no_import_error (k a)) ->
  no_import_error (gbind m k).
Proof.
  intros Hm Hk h e h'. unfold gbind.
  destruct (m h) as [[a | e1] h1] eqn:E.
  - apply Hk.
  - intros H. injection H as <- <-. exact (Hm _ _ _ E).
Qed.

Lemma no_import_error_gtry_import {A} (m handler : G A) :
  no_import_error handler -> no_import_error (gtry_import m handler).
Proof.
  intros Hh h e h'. unfold gtry_import.
  destruct (m h) as [[a | e1] h1]; [ discriminate | ].
  destruct (is_import_error e1) eqn:I.
  - apply Hh.
  - intros H. injection H as <- <-. exact I.
Qed.

Lemma no_import_error_check_library (module key found missing : string)
    result :
  no_import_error (check_library platform module key found missing result).
Proof.
  unfold check_library. apply no_import_error_gtry_import.
  apply no_import_error_total.
  apply never_raises_gbind;
    [ apply never_raises_print | intros _; apply never_raises_gret ].
Qed.

Lemma no_import_error_check_gpib_libraries :
  no_import_error (check_gpib_libraries platform).
Proof.
  unfold check_gpib_libraries.
  apply no_import_error_gbind.
  { apply no_import_error_gtry_import, no_import_error_total.
    apply never_raises_gbind;
      [ apply never_raises_print | intros _; apply never_raises_gret ]. }
  intros r1. apply no_import_error_gbind;
    [ apply no_import_error_check_library | intros r2 ].
  apply no_import_error_gbind;
    [ apply no_import_error_check_library | intros r3 ].
  apply no_import_error_gbind;
    [ apply no_import_error_check_library | intros r4 ].
  apply no_import_error_check_library.
Qed.

(** Every way in which [connect_to_instrument_safely] can end. *)
Lemma connect_to_instrument_safely_cases (gpib_address : Z) (h : host) :
  match connect_to_instrument_safely platform gpib_address h with
  | (Ok (Some inst, None), h') => wire h' = Query "*IDN?" :: wire h
  | (Ok (None, Some msg), h') =>
      msg <> EmptyString
      /\ (wire h' = wire h \/ wire h' = Query "*IDN?" :: wire h)
  | (Ok _, _) => False
  | (Err e, h') => is_import_error e = false /\ wire h' = wire h
  end.
Proof.
  unfold connect_to_instrument_safely, gbind at 1, print.
  unfold gbind at 1.
  match goal with |- context [check_gpib_libraries platform ?v] =>
    pose proof (off_wire_check_gpib_libraries v) as W1;
    pose proof (no_import_error_check_gpib_libraries v) as N1;
    destruct (check_gpib_libraries platform v) as [[d | e] h1]
  end; simpl in W1.
  - unfold gbind at 1, print. unfold gbind at 1.
    match goal with
    | |- context [get_instrument_connection platform gpib_address 3 ?v] =>
        pose proof (off_wire_get_instrument_connection gpib_address 3 v)
          as W2;
        destruct (never_raises_get_instrument_connection platform
                    gpib_address 3 v) as (r & h2 & E);
        rewrite E in W2 |- *
    end; simpl in W2.
    destruct r as [inst | ].
    + unfold gtry, gbind at 1, query.
      destruct (on_query inst (wire h2) "*IDN?") as [reply | e].
      * unfold gbind, print, gret. simpl. congruence.
      * unfold gbind, print, gret. simpl. split; [ discriminate | ].
        right. congruence.
    + unfold gret. split; [ discriminate | ]. left. congruence.
  - split; [ exact (N1 _ _ eq_refl) | exact W1 ].
Qed.

End HelperAnswer.

(** X19. [connect_to_instrument_safely] answers with exactly one of the
    two: an instrument and no error, after one ["*IDN?"] that was
    answered; or no instrument and an error text that is not empty,
    after at most one ["*IDN?"]. It sends nothing else to an
    instrument, and an exception leaves it only from the library check
    and is never an [ImportError]. *)
Theorem connect_to_instrument_safely_answer {rt : PyRuntime}
    (platform : gpib_helper.Platform) (gpib_address : Z)
    (h h' : gpib_helper.host) :
  (forall r,
      gpib_helper.connect_to_instrument_safely platform gpib_address h
        = (Ok r, h') ->
      (exists inst,
          r = (Some inst, None)
          /\ gpib_helper.wire h' = Query "*IDN?" :: gpib_helper.wire h)
      \/ (exists msg,
            r = (None, Some msg)
            /\ msg <> EmptyString
            /\ (gpib_helper.wire h' = gpib_helper.wire h
                \/ gpib_helper.wire h'
                   = Query "*IDN?" :: gpib_helper.wire h)))
  /\ (forall e,
        gpib_helper.connect_to_instrument_safely platform gpib_address h
          = (Err e, h') ->
        is_import_error e = false
        /\ gpib_helper.wire h' = gpib_helper.wire h).
Proof.
  pose proof (connect_to_instrument_safely_cases platform gpib_address h)
    as Cs.
  split.
  - intros r H. rewrite H in Cs.
    destruct r as [[inst | ] [msg | ]]; try contradiction.
    + left. eauto.
    + right. destruct Cs as [N W]. eauto.
  - intros e H. rewrite H in Cs. exact Cs.
Qed.

(** X20. With the helper module in place, [connect_to_instrument]
    writes nothing to the instrument: no ["*RST"], no ["*CLS"]. All it
    adds to the trace is the helper's ["*IDN?"] and, when the helper
    handed over an instrument, its own ["*IDN?"]. *)
Theorem connect_with_helper_writes_nothing {rt : PyRuntime}
    (platform : gpib_helper.Platform) (backends : Backends)
    (gpib_addr : Z) (w : world) :
  via_helper backends = via_gpib_helper platform ->
  let w' := snd (connect_to_instrument backends gpib_addr w) in
  trace w' = trace w
  \/ trace w' = Query "*IDN?" :: trace w
  \/ trace w' = Query "*IDN?" :: Query "*IDN?" :: trace w.
Proof.
  intros Hv w'. subst w'.
  pose proof (connect_to_instrument_safely_cases platform gpib_addr
                (gpib_helper.mkHost [] [] (trace w))) as Cs.
  destruct (gpib_helper.connect_to_instrument_safely platform gpib_addr
              (gpib_helper.mkHost [] [] (trace w)))
    as [[[[inst | ] [msg | ]] | e] h'] eqn:E; try contradiction.
  - rewrite (connect_via_helper_query backends gpib_addr w
               (mkWorld (instrument w) (measurement_running w)
                  (gpib_helper.wire h') (abort_requests w)) inst None)
      by (rewrite Hv; unfold via_gpib_helper; rewrite E; reflexivity).
    simpl in *. rewrite Cs. auto.
  - destruct Cs as [Hn Hw].
    rewrite (connect_helper_error backends gpib_addr w
               (mkWorld (instrument w) (measurement_running w)
                  (gpib_helper.wire h') (abort_requests w)) msg)
      by (try (rewrite Hv; unfold via_gpib_helper; rewrite E; reflexivity);
          exact Hn).
    simpl in *. destruct Hw as [-> | ->]; auto.
  - destruct Cs as [Hn Hw].
    unfold connect_to_instrument, ctry, cbind at 1, ctry_import,
      connect_via_helper, cbind at 1.
    rewrite Hv. unfold via_gpib_helper. rewrite E. simpl.
    rewrite Hn. simpl. left. exact Hw.
Qed.

(** ** The library report *)

Section LibraryReport.

Import gpib_helper.

Context {rt : PyRuntime}.
Variable platform : Platform.

Lemma gbind_ok {A B} (m : G A) (k : A -> G B) (h h' : host) (b : B) :
  gbind m k h = (Ok b, h') ->
  exists a h1, m h = (Ok a, h1) /\ k a h1 = (Ok b, h').
Proof.
  unfold gbind. destruct (m h) as [[a | e] h1]; [ eauto | discriminate ].
Qed.

Lemma check_library_cases (module key found missing : string)
    (result result' : list (string * bool)) (h h' : host) :
  check_library platform module key found missing result h
    = (Ok result', h') ->
  result' = result \/ result' = set_true key result.
Proof.
  unfold check_library, gtry_import, gbind at 1, import.
  destruct (import_module platform (probes h) module) as [e | ].
  - destruct (is_import_error e); [ | discriminate ].
    unfold gbind, print, gret. intros H. injection H as <-. auto.
  - unfold gbind, print, gret. intros H. injection H as <-. auto.
Qed.

Lemma check_pyvisa_cases (result' : list (string * bool)) (h h' : host) :
  let result :=
    [("pyvisa", false); ("pyvisa-py", false); ("gpib-ctypes", false);
     ("pyusb", false); ("vxi11", false); ("ni-visa", false)] in
  gtry_import
    (gbind (import platform "pyvisa") (fun _ =>
     gbind (print ("PyVISA detected, version: " ++ pyvisa_version platform))
       (fun _ =>
     gtry
       (gbind (resource_manager platform NoArgument) (fun rm =>
        gbind (print ("NI-VISA detected, path: " ++ rm_visalib rm)) (fun _ =>
        gret (set_true "ni-visa" (set_true "pyvisa" result)))))
       (fun _ =>
          gbind (print "NI-VISA not detected or cannot be accessed") (fun _ =>
          gret (set_true "pyvisa" result))))))
    (gbind (print "PyVISA not installed") (fun _ => gret result)) h
    = (Ok result', h') ->
  (import_module platform (probes h) "pyvisa" <> None /\ result' = result)
  \/ (import_module platform (probes h) "pyvisa" = None
      /\ (result' = set_true "pyvisa" result
          \/ result' = set_true "ni-visa" (set_true "pyvisa" result))).
Proof.
  intros result.
  unfold gtry_import, gbind at 1, import.
  destruct (import_module platform (probes h) "pyvisa") as [e | ].
  - destruct (is_import_error e); [ | discriminate ].
    unfold gbind, print, gret. intros H. injection H as <-.
    left. split; [ discriminate | reflexivity ].
  - unfold gbind at 1, print. unfold gtry, gbind at 1, resource_manager.
    simpl.
    destruct (new_manager platform _ NoArgument) as [rm | e].
    + unfold gbind, print, gret. intros H. injection H as <-. auto.
    + unfold gbind, print, gret. intros H. injection H as <-. auto.
Qed.

End LibraryReport.

(** X21. Whenever [check_gpib_libraries] returns, its report has
    exactly the six keys it started with, in their order; it says
    [pyvisa] exactly when the import of [pyvisa] succeeded; and it says
    [ni-visa] only together with [pyvisa]. *)
Theorem check_gpib_libraries_report {rt : PyRuntime}
    (platform : gpib_helper.Platform) (h h' : gpib_helper.host)
    (result : list (string * bool)) :
  gpib_helper.check_gpib_libraries platform h = (Ok result, h') ->
  map fst result
    = ["pyvisa"; "pyvisa-py"; "gpib-ctypes"; "pyusb"; "vxi11"; "ni-visa"]
  /\ (gpib_helper.lookup "pyvisa" result = Some true
      <-> gpib_helper.import_module platform (gpib_helper.probes h)
            "pyvisa" = None)
  /\ (gpib_helper.lookup "ni-visa" result = Some true ->
      gpib_helper.lookup "pyvisa" result = Some true).
Proof.
  unfold gpib_helper.check_gpib_libraries.
  intros H.
  apply gbind_ok in H as (r1 & h1 & H1 & H).
  apply gbind_ok in H as (r2 & h2 & H2 & H).
  apply gbind_ok in H as (r3 & h3 & H3 & H).
  apply gbind_ok in H as (r4 & h4 & H4 & H).
  apply check_pyvisa_cases in H1.
  apply check_library_cases in H2, H3, H4, H.
  destruct H1 as [[I ->] | [I [-> | ->]]];
    destruct H2 as [-> | ->]; destruct H3 as [-> | ->];
    destruct H4 as [-> | ->]; destruct H as [-> | ->];
    (split; [ reflexivity | ]);
    (split; [ split; [ try discriminate; intros _; exact I
                     | intros J; try reflexivity; contradiction ]
            | try discriminate; intros _; reflexivity ]).
Qed.

(** ** The helper on concrete platforms *)

(** No resource manager can be created: three rounds, two pauses. *)
Lemma get_instrument_connection_pauses_witness :
  exists h',
    gpib_helper.get_instrument_connection (rt := Demo.runtime)
      Bench.no_visa 18 3 Bench.fresh = (Ok None, h')
    /\ gpib_helper.waits (gpib_helper.probes h') = 2%nat.
Proof.
  destruct (gpib_helper.get_instrument_connection (rt := Demo.runtime)
              Bench.no_visa 18 3 Bench.fresh) as [r h'] eqn:E.
  assert (R : r = Ok None).
  { pose proof E as E'. vm_compute in E'. injection E' as <- _.
    reflexivity. }
  subst r. exists h'. split; [ reflexivity | ].
  exact (proj1 (get_instrument_connection_pauses (rt := Demo.runtime)
                  Bench.no_visa 18 3 Bench.fresh h' E)).
Defined.

(** A device that answers: it is opened at the first resource string. *)
Lemma get_instrument_connection_opened_witness :
  exists name ps rm,
    gpib_helper.probes
      (snd (gpib_helper.get_instrument_connection (rt := Demo.runtime)
              (Bench.one_device (Demo.steady Bench.idn_2450)) 18 3
              Bench.fresh))
    = gpib_helper.OpenResource name :: ps
    /\ contains "18" name = true
    /\ gpib_helper.manager_in_use
         (Bench.one_device (Demo.steady Bench.idn_2450)) ps = Some rm
    /\ gpib_helper.rm_open_resource rm ps name
       = Return (Demo.steady Bench.idn_2450).
Proof.
  exact (proj1 (get_instrument_connection_opened (rt := Demo.runtime)
                  (Bench.one_device (Demo.steady Bench.idn_2450)) 18 3
                  Bench.fresh _ (Demo.steady Bench.idn_2450) eq_refl)).
Defined.

(** A device that answers is handed over without an error text. *)
Lemma connect_to_instrument_safely_answer_witness :
  exists h',
    gpib_helper.connect_to_instrument_safely (rt := Demo.runtime)
      (Bench.one_device (Demo.steady Bench.idn_2450)) 18 Bench.fresh
    = (Ok (Some (Demo.steady Bench.idn_2450), None), h')
    /\ gpib_helper.wire h' = [Query "*IDN?"].
Proof.
  destruct (gpib_helper.connect_to_instrument_safely (rt := Demo.runtime)
              (Bench.one_device (Demo.steady Bench.idn_2450)) 18
              Bench.fresh) as [r h'] eqn:E.
  assert (R : r = Ok (Some (Demo.steady Bench.idn_2450), None)).
  { pose proof E as E'. vm_compute in E'. injection E' as <- _.
    reflexivity. }
  subst r. exists h'. split; [ reflexivity | ].
  destruct (proj1 (connect_to_instrument_safely_answer
                     (rt := Demo.runtime)
                     (Bench.one_device (Demo.steady Bench.idn_2450)) 18
                     Bench.fresh h') _ E)
    as [(inst & _ & W) | (msg & D & _)].
  - exact W.
  - discriminate D.
Defined.

Lemma connect_with_helper_writes_nothing_witness :
  trace (snd (connect_to_instrument (rt := Demo.runtime)
                (Bench.with_helper
                   (Bench.one_device (Demo.steady Bench.idn_2450)))
                18 Bench.disconnected))
  = [Query "*IDN?"; Query "*IDN?"].
Proof.
  destruct (connect_with_helper_writes_nothing (rt := Demo.runtime)
              (Bench.one_device (Demo.steady Bench.idn_2450))
              (Bench.with_helper
                 (Bench.one_device (Demo.steady Bench.idn_2450)))
              18 Bench.disconnected eq_refl) as [H | [H | H]].
  - vm_compute in H. discriminate H.
  - vm_compute in H. discriminate H.
  - exact H.
Defined.

Lemma check_gpib_libraries_report_witness :
  map fst
    (match fst (gpib_helper.check_gpib_libraries Bench.no_visa Bench.fresh)
     with
     | Ok result => result
     | Err _ => []
     end)
  = ["pyvisa"; "pyvisa-py"; "gpib-ctypes"; "pyusb"; "vxi11"; "ni-visa"].
Proof.
  destruct (gpib_helper.check_gpib_libraries Bench.no_visa Bench.fresh)
    as [[result | e] h'] eqn:E.
  - exact (proj1 (check_gpib_libraries_report (rt := Demo.runtime)
                    Bench.no_visa Bench.fresh h' result E)).
  - vm_compute in E. discriminate E.
Defined.

(** ** An integer other than zero does not round to zero *)

Lemma digits2_pos_succ (p : positive) :
  (digits2_pos p <= digits2_pos (Pos.succ p))%positive.
Proof.
  induction p as [p IH | p IH | ]; simpl; lia.
Qed.

Lemma iter_shr_1_positive :
  forall (k : positive) (mrs : shr_record) (m : positive),
    shr_m mrs = Zpos m ->
    (k < digits2_pos m)%positive ->
    exists m',
      shr_m (iter_pos shr_1 k mrs) = Zpos m'
      /\ (digits2_pos m' + k = digits2_pos m)%positive.
Proof.
  assert (One : forall mrs m,
             shr_m mrs = Zpos m -> (1 < digits2_pos m)%positive ->
             exists m', shr_m (shr_1 mrs) = Zpos m'
                        /\ (digits2_pos m' + 1 = digits2_pos m)%positive).
  { intros [mz r s] m Hm Hd. simpl in Hm. subst mz.
    destruct m as [p | p | ]; simpl in *.
    - exists p. split; [ reflexivity | lia ].
    - exists p. split; [ reflexivity | lia ].
    - lia. }
  induction k as [k IH | k IH | ]; intros mrs m Hm Hd; simpl.
  - destruct (One mrs m Hm) as (m1 & H1 & D1); [ lia | ].
    destruct (IH _ m1 H1) as (m2 & H2 & D2); [ lia | ].
    destruct (IH _ m2 H2) as (m3 & H3 & D3); [ lia | ].
    exists m3. split; [ exact H3 | lia ].
  - destruct (IH _ m Hm) as (m1 & H1 & D1); [ lia | ].
    destruct (IH _ m1 H1) as (m2 & H2 & D2); [ lia | ].
    exists m2. split; [ exact H2 | lia ].
  - exact (One mrs m Hm Hd).
Qed.

(** In the normal range [shr_fexp] keeps a positive mantissa, and the
    sum of its length and the exponent. *)
Lemma shr_fexp_positive (m : positive) (e : Z) (l : location) :
  emin PyFloat.prec PyFloat.emax
    <= Zpos (digits2_pos m) + e - PyFloat.prec ->
  exists m' e',
    shr_fexp PyFloat.prec PyFloat.emax (Zpos m) e l
    = (fst (shr_fexp PyFloat.prec PyFloat.emax (Zpos m) e l), e')
    /\ shr_m (fst (shr_fexp PyFloat.prec PyFloat.emax (Zpos m) e l))
       = Zpos m'
    /\ Zpos (digits2_pos m') + e' = Zpos (digits2_pos m) + e.
Proof.
  intros Hn. unfold shr_fexp, fexp. simpl Zdigits2.
  rewrite Z.max_l by exact Hn.
  assert (Hm : shr_m (shr_record_of_loc (Zpos m) l) = Zpos m)
    by (destruct l as [ | [ | | ]]; reflexivity).
  unfold PyFloat.prec in *.
  unfold shr.
  destruct (Zpos (digits2_pos m) + e - 53 - e) as [ | k | k] eqn:Hk;
    cbv iota; cbn [fst].
  - exists m, e. repeat split. exact Hm.
  - destruct (iter_shr_1_positive k _ m Hm) as (m' & H' & D'); [ lia | ].
    exists m', (e + Zpos k). split; [ reflexivity | ].
    split; [ exact H' | lia ].
  - exists m, e. repeat split. exact Hm.
Qed.

Lemma binary_round_aux_nonzero (sx : bool) (m : positive) (e : Z)
    (l : location) :
  emin PyFloat.prec PyFloat.emax
    <= Zpos (digits2_pos m) + e - PyFloat.prec ->
  PyFloat.is_zero
    (binary_round_aux PyFloat.prec PyFloat.emax sx (Zpos m) e l) = false.
Proof.
  intros Hn. unfold binary_round_aux.
  destruct (shr_fexp_positive m e l Hn) as (m1 & e1 & E1 & M1 & D1).
  rewrite E1.
  set (mrs1 := fst (shr_fexp PyFloat.prec PyFloat.emax (Zpos m) e l)) in *.
  rewrite M1.
  assert (R : exists m2,
             round_nearest_even (Zpos m1) (loc_of_shr_record mrs1)
             = Zpos m2
             /\ (digits2_pos m1 <= digits2_pos m2)%positive).
  { pose proof (digits2_pos_succ m1) as Hs.
    assert (Hp : Zpos m1 + 1 = Zpos (Pos.succ m1)) by lia.
    unfold round_nearest_even.
    destruct (loc_of_shr_record mrs1) as [ | [ | | ]].
    - exists m1. split; [ reflexivity | lia ].
    - destruct (Z.even (Zpos m1)).
      + exists m1. split; [ reflexivity | lia ].
      + exists (Pos.succ m1). split; [ exact Hp | exact Hs ].
    - exists m1. split; [ reflexivity | lia ].
    - exists (Pos.succ m1). split; [ exact Hp | exact Hs ]. }
  destruct R as (m2 & R2 & D2). rewrite R2.
  destruct (shr_fexp_positive m2 e1 loc_Exact) as (m3 & e3 & E3 & M3 & D3);
    [ lia | ].
  rewrite E3, M3.
  destruct (e3 <=? PyFloat.emax - PyFloat.prec); reflexivity.
Qed.

Lemma of_Z_nonzero (z : Z) :
  z <> 0 -> PyFloat.is_zero (PyFloat.of_Z z) = false.
Proof.
  assert (P : forall sx p,
             PyFloat.is_zero
               (binary_round PyFloat.prec PyFloat.emax sx p 0) = false).
  { intros sx p. unfold binary_round, shl_align.
    destruct (fexp PyFloat.prec PyFloat.emax (Zpos (digits2_pos p) + 0) - 0)
      as [ | d | d] eqn:Hd;
      apply binary_round_aux_nonzero;
      unfold fexp, emin, PyFloat.prec, PyFloat.emax in *; lia. }
  intros Hz. unfold PyFloat.of_Z, binary_normalize.
  destruct z as [ | p | p]; [ contradiction | apply P | apply P ].
Qed.

Lemma truediv_float_int_raises (a : float) (n : Z) (e : exn) :
  PyNum.truediv_float_int a n = Raise e ->
  (n = 0 /\ e = mkExn ZeroDivisionError "float division by zero")
  \/ (n <> 0 /\ exn_kind e = OverflowError).
Proof.
  unfold PyNum.truediv_float_int, PyNum.float_of_int, PyNum.truediv.
  destruct (Z.eq_dec n 0) as [-> | Hn].
  - simpl. intros H. injection H as <-. left. split; reflexivity.
  - cbv zeta.
    destruct (PyFloat.is_inf (PyFloat.of_Z n)).
    + intros H. injection H as <-. right.
      split; [ exact Hn | reflexivity ].
    + rewrite (of_Z_nonzero n Hn). discriminate.
Qed.

(** ** Computations only add to the trace *)

Lemma extends_same {A} (m : M A) :
  (forall w, trace (snd (m w)) = trace w) -> extends m.
Proof. intros H w. exists []. apply H. Qed.

Lemma extends_ret {A} (a : A) : extends (ret a).
Proof. apply extends_same. reflexivity. Qed.

Lemma extends_lift {A} (o : outcome A) : extends (lift o).
Proof. apply extends_same. reflexivity. Qed.

Lemma extends_bind {A B} (m : M A) (k : A -> M B) :
  extends m -> (forall a, extends (k a)) -> extends (bind m k).
Proof.
  intros Hm Hk w. unfold bind.
  destruct (Hm w) as (n1 & H1). destruct (m w) as [[a | e] w1]; simpl in *.
  - destruct (Hk a w1) as (n2 & H2). exists (n2 ++ n1)%list.
    rewrite H2, H1. apply app_assoc.
  - exists n1. exact H1.
Qed.

Lemma extends_try_except {A} (m : M A) (h : exn -> M A) :
  extends m -> (forall e, extends (h e)) -> extends (try_except m h).
Proof.
  intros Hm Hh w. unfold try_except.
  destruct (Hm w) as (n1 & H1). destruct (m w) as [[a | e] w1]; simpl in *.
  - exists n1. exact H1.
  - destruct (Hh e w1) as (n2 & H2). exists (n2 ++ n1)%list.
    rewrite H2, H1. apply app_assoc.
Qed.

Lemma extends_if {A} (b : bool) (m1 m2 : M A) :
  extends m1 -> extends m2 -> extends (if b then m1 else m2).
Proof. destruct b; auto. Qed.

Lemma extends_get_instrument : extends get_instrument.
Proof. apply extends_same. reflexivity. Qed.

Lemma extends_get_running : extends get_running.
Proof. apply extends_same. reflexivity. Qed.

Lemma extends_put_running (b : bool) : extends (put_running b).
Proof. apply extends_same. reflexivity. Qed.

Lemma extends_instr_write (cmd : string) : extends (instr_write cmd).
Proof.
  intros w. unfold instr_write.
  destruct (instrument w) as [inst | ]; [ | exists []; reflexivity ].
  destruct (on_write _ _ _); exists [Write cmd]; reflexivity.
Qed.

Lemma extends_instr_query (cmd : string) : extends (instr_query cmd).
Proof.
  intros w. unfold instr_query.
  destruct (instrument w) as [inst | ]; [ | exists []; reflexivity ].
  exists [Query cmd]. reflexivity.
Qed.

Create HintDb extends.
#[export] Hint Resolve extends_ret extends_lift extends_get_instrument
  extends_get_running extends_put_running extends_instr_write
  extends_instr_query : extends.
#[export] Hint Resolve extends_bind extends_try_except extends_if
  : extends.

Section Extending.

Context {rt : PyRuntime}.

Lemma extends_sleep (secs : float) : extends (sleep secs).
Proof.
  intros w. unfold sleep.
  destruct (time_sleep secs); exists [Sleep secs]; reflexivity.
Qed.

Lemma extends_call (cb : callback_fn) (v c r p : float) :
  extends (call cb v c r p).
Proof.
  intros w. unfold call.
  destruct (cb _ _ _ _ _); exists [Progress v c r p]; reflexivity.
Qed.

Lemma extends_start_output : extends start_output.
Proof. unfold start_output. auto 10 with extends. Qed.

Lemma extends_stop_output : extends stop_output.
Proof. unfold stop_output. auto 10 with extends. Qed.

Lemma extends_external_abort (i : nat) : extends (external_abort i).
Proof.
  intros w. unfold external_abort.
  destruct (abort_requests w i); simpl; [ | exists []; reflexivity ].
  rewrite abort_measurement_world.
  destruct (instrument w); [ exists [Write "OUTP OFF"] | exists [] ];
    reflexivity.
Qed.

Lemma extends_measure_point (voltage : float) :
  extends (measure_point voltage).
Proof.
  unfold measure_point.
  apply extends_try_except; [ | auto with extends ].
  apply extends_bind; [ auto with extends | intros inst ].
  apply extends_if; auto 10 with extends.
Qed.

Lemma extends_report steps cb (i : nat) (v c r : float) :
  extends (report steps cb i v c r).
Proof.
  unfold report. destruct cb; auto using extends_call with extends.
Qed.

Lemma extends_sweep_body start_v steps delay_time cb step i ls :
  extends (sweep_body start_v steps delay_time cb step i ls).
Proof.
  unfold sweep_body.
  apply extends_bind; [ apply extends_external_abort | intros _ ].
  apply extends_bind; [ auto with extends | intros running ].
  apply extends_if; [ auto with extends | ].
  apply extends_bind; [ auto with extends | intros voltage ].
  apply extends_bind; [ apply extends_measure_point | intros [[c r] | ] ];
    [ | auto with extends ].
  apply extends_bind; [ apply extends_sleep | intros _ ].
  apply extends_bind; [ apply extends_report | auto with extends ].
Qed.

Lemma extends_sweep_for start_v steps delay_time cb step idx :
  forall ls, extends (sweep_for start_v steps delay_time cb step idx ls).
Proof.
  induction idx as [ | i rest IH ]; intros ls; simpl.
  - auto with extends.
  - apply extends_bind; [ apply extends_sweep_body | ].
    intros [[ | ] ls']; auto with extends.
Qed.

End Extending.

(** X29. On a connected controller [perform_sweep] begins in one of
    two ways. Either the step size of line 199 cannot be computed and
    it raises with nothing sent and nothing changed:
    [ZeroDivisionError] exactly for [steps = 1], [OverflowError] when
    [steps - 1] is too large for a float. Or its first command is
    ["OUTP ON"], which is the case for every other number of steps,
    zero and negative ones included. *)
Theorem perform_sweep_first_command {rt : PyRuntime} (inst : Instrument)
    (start_v stop_v : float) (steps : Z) (delay_time : float)
    (callback : option callback_fn) (w : world) :
  instrument w = Some inst ->
  let run := perform_sweep start_v stop_v steps delay_time callback w in
  (snd run = w
   /\ ((steps = 1
        /\ fst run
           = Raise (mkExn ZeroDivisionError "float division by zero"))
       \/ (steps <> 1
           /\ PyFloat.is_inf (PyFloat.of_Z (steps - 1)) = true
           /\ exists e, fst run = Raise e /\ exn_kind e = OverflowError)))
  \/ (steps <> 1
      /\ PyFloat.is_inf (PyFloat.of_Z (steps - 1)) = false
      /\ exists new,
           trace (snd run) = (new ++ Write "OUTP ON" :: trace w)%list).
Proof.
  intros Hi run. subst run.
  unfold perform_sweep, bind at 1, lift.
  destruct (PyNum.truediv_float_int (PyFloat.sub stop_v start_v)
              (steps - 1)) as [voltage_step | e] eqn:T.
  - right.
    assert (Hs : steps <> 1
                 /\ PyFloat.is_inf (PyFloat.of_Z (steps - 1)) = false).
    { revert T.
      unfold PyNum.truediv_float_int, PyNum.float_of_int, PyNum.truediv.
      cbv zeta.
      destruct (PyFloat.is_inf (PyFloat.of_Z (steps - 1)));
        [ discriminate | ].
      intros T. split; [ | reflexivity ].
      intros ->. simpl in T. discriminate T. }
    destruct Hs as [Hs1 Hs2]. split; [ exact Hs1 | ].
    split; [ exact Hs2 | ].
    assert (So : exists o,
               start_output w = (o, log (Write "OUTP ON") w)).
    { unfold start_output, bind, get_instrument. simpl. rewrite Hi. simpl.
      unfold instr_write. rewrite Hi.
      destruct (on_write inst (trace w) "OUTP ON");
        eexists; reflexivity. }
    destruct So as (o & So). unfold bind at 1. cbv beta iota.
    match goal with
    | |- context [bind start_output ?k w] =>
        change (bind start_output k w)
          with (match start_output w with
                | (Return a, w') => k a w'
                | (Raise e, w') => (Raise e, w')
                end)
    end.
    rewrite So.
    destruct o as [b | e].
    + match goal with
      | |- context [snd (?m (log ?ev w))] =>
          assert (E : extends m)
      end.
      { apply extends_bind; [ auto with extends | intros _ ].
        apply extends_bind; [ apply extends_sweep_for | intros r ].
        apply extends_bind; [ apply extends_stop_output | intros _ ].
        auto with extends. }
      destruct (E (log (Write "OUTP ON") w)) as (new & Hn).
      exists new. exact Hn.
    + exists []. reflexivity.
  - left. split; [ reflexivity | ].
    destruct (truediv_float_int_raises _ _ _ T) as [[Hz ->] | [Hz Hk]].
    + left. split; [ lia | reflexivity ].
    + right. split; [ lia | ].
      split; [ | exists e; split; [ reflexivity | exact Hk ] ].
      revert T.
      unfold PyNum.truediv_float_int, PyNum.float_of_int, PyNum.truediv.
      cbv zeta.
      destruct (PyFloat.is_inf (PyFloat.of_Z (steps - 1)));
        [ reflexivity | ].
      rewrite (of_Z_nonzero _ Hz). discriminate.
Qed.

(** Three steps: the output is switched on first. *)
Lemma perform_sweep_first_command_witness :
  exists new,
    trace (snd (perform_sweep (rt := Demo.runtime) PyFloat.zero
                  PyFloat.one 3 PyFloat.zero None
                  (Demo.connected (Demo.steady "0.01"))))
    = (new ++ [Write "OUTP ON"])%list.
Proof.
  destruct (perform_sweep_first_command (rt := Demo.runtime)
              (Demo.steady "0.01") PyFloat.zero PyFloat.one 3
              PyFloat.zero None (Demo.connected (Demo.steady "0.01"))
              eq_refl) as [(_ & [(H & _) | (_ & H & _)]) | (_ & _ & H)].
  - discriminate H.
  - vm_compute in H. discriminate H.
  - exact H.
Defined.

(** ** The window of [interface_gui.py] *)

Section StartMeasurement.

Context {rt : PyRuntime}.
Variable str_split : string -> list string.

Import interface_gui.

Lemma scaled_state (range_val : string) (factor : float) (g : gui) :
  snd (scaled range_val factor g) = g.
Proof.
  unfold scaled, ubind, pure, uret.
  destruct (py_float range_val); reflexivity.
Qed.

Lemma parse_current_range_state (s : string) (g : gui) :
  snd (parse_current_range str_split s g) = g.
Proof.
  unfold parse_current_range.
  destruct (String.eqb s "Auto"); [ reflexivity | ].
  unfold ubind at 1, item at 1.
  destruct (nth_error (str_split s) 0) as [range_val | ];
    [ | reflexivity ].
  unfold uret at 1. unfold ubind at 1, item at 1.
  destruct (nth_error (str_split s) 1) as [unit | ]; [ | reflexivity ].
  unfold uret at 1.
  repeat match goal with
         | |- context [if ?b then _ else _] => destruct b
         end;
    try apply scaled_state; reflexivity.
Qed.

Ltac parse_failed R e :=
  simpl in R;
  let K := fresh "K" in
  destruct (exn_class_eqb (exn_kind e) ValueError) eqn:K;
  [ left; eexists _, _; exact R
  | right; left; exists (Known e); split; [ exact R | exact K ] ].

Ltac read_entry R :=
  unfold ubind at 1, entry at 1 in R; unfold ubind at 1, pure at 1 in R.

Lemma start_measurement_cases (g : gui) :
  let r := start_measurement str_split g in
  (exists title message, r = (Ok tt, shown title message g))
  \/ (exists e, r = (Err e, g) /\ is_value_error e = false)
  \/ exists q,
       accepted str_split g q
       /\ let s :=
            setup_measurement (req_start_v q) (req_stop_v q)
              (req_current_limit q) (req_current_range q)
              (smu_controller g) in
          match fst s with
          | Return true =>
              r = (Ok tt,
                   snd (launch (req_start_v q) (req_stop_v q) (req_steps q)
                          (req_delay q) (with_controller (snd s) g)))
          | Return false =>
              r = (Ok tt,
                   shown "Setup Error" "Failed to setup instrument"
                     (with_controller (snd s) g))
          | Raise e =>
              if exn_class_eqb (exn_kind e) ValueError
              then r = (Ok tt,
                        shown "Input Error" ("Invalid input: " ++ exn_str e)
                          (with_controller (snd s) g))
              else r = (Err (Known e), with_controller (snd s) g)
          end.
Proof.
  intros r.
  assert (R : r = start_measurement str_split g) by reflexivity.
  clearbody r.
  unfold start_measurement, ubind at 1, get in R.
  destruct (instrument (smu_controller g)) as [inst | ] eqn:Hi; simpl in R;
    [ | left; eexists _, _; exact R ].
  unfold utry_value_error in R.
  read_entry R.
  destruct (py_float (start_voltage (entries g))) as [start_v | e] eqn:E1;
    [ | parse_failed R e ].
  read_entry R.
  destruct (py_float (stop_voltage (entries g))) as [stop_v | e] eqn:E2;
    [ | parse_failed R e ].
  read_entry R.
  destruct (py_int (num_steps (entries g))) as [steps | e] eqn:E3;
    [ | parse_failed R e ].
  read_entry R.
  destruct (py_float (current_limit (entries g))) as [limit | e] eqn:E4;
    [ | parse_failed R e ].
  unfold ubind at 1, entry at 1 in R. unfold ubind at 1 in R.
  pose proof (parse_current_range_state (current_range (entries g)) g) as Ps.
  destruct (parse_current_range str_split (current_range (entries g)) g)
    as [[range | e] g1] eqn:E5; simpl in Ps; subst g1.
  2:{ destruct (is_value_error e) eqn:K.
      - left. eexists _, _. exact R.
      - right. left. exists e. split; [ exact R | exact K ]. }
  read_entry R.
  destruct (py_float (delay_time (entries g))) as [delay | e] eqn:E6;
    [ | parse_failed R e ].
  destruct (steps <? 2) eqn:V1; [ left; eexists _, _; exact R | ].
  destruct (negative delay) eqn:V2; [ left; eexists _, _; exact R | ].
  destruct (not_positive limit) eqn:V3; [ left; eexists _, _; exact R | ].
  right. right.
  exists (mkRequest start_v stop_v steps limit range delay).
  split.
  { unfold accepted. simpl. rewrite Hi, E5. simpl.
    repeat split; try assumption; try discriminate.
    apply Z.ltb_ge in V1. exact V1. }
  simpl.
  unfold ubind at 1, controller at 1, of_M in R.
  destruct (setup_measurement start_v stop_v limit range (smu_controller g))
    as [[[ | ] | e] w1] eqn:Hs; simpl in R |- *.
  - exact R.
  - exact R.
  - destruct (exn_class_eqb (exn_kind e) ValueError); exact R.
Qed.

(** X22. [start_measurement] starts the measurement thread only when
    the window holds an instrument, all six fields were read, the number
    of steps is at least 2, the delay is not below 0, the current limit
    is not at or below 0, and [setup_measurement] returned True on these
    values. The thread gets the parsed start, stop, steps and delay; the
    running flag of the window is then True and its data are empty, and
    with these values the step size of [perform_sweep] is computed
    without [ZeroDivisionError]. In every other case no thread is
    started. *)
Theorem start_measurement_launch_guard (g : gui) :
  let g' := snd (start_measurement str_split g) in
  launched (events g') = launched (events g)
  \/ exists q,
       accepted str_split g q
       /\ setup_measurement (req_start_v q) (req_stop_v q)
            (req_current_limit q) (req_current_range q) (smu_controller g)
          = (Return true, smu_controller g')
       /\ fst (start_measurement str_split g) = Ok tt
       /\ launched (events g')
          = (req_start_v q, req_stop_v q, req_steps q, req_delay q)
            :: launched (events g)
       /\ running g' = true
       /\ voltages g' = [] /\ currents g' = [] /\ resistances g' = []
       /\ forall e,
            PyNum.truediv_float_int
              (PyFloat.sub (req_stop_v q) (req_start_v q)) (req_steps q - 1)
            = Raise e ->
            exn_kind e = OverflowError.
Proof.
  intros g'. subst g'.
  destruct (start_measurement_cases g)
    as [(title & message & R) | [(e & R & _) | (q & A & R)]].
  - left. rewrite R. reflexivity.
  - left. rewrite R. reflexivity.
  - simpl in R.
    destruct (setup_measurement (req_start_v q) (req_stop_v q)
                (req_current_limit q) (req_current_range q)
                (smu_controller g)) as [[[ | ] | e] w1] eqn:Hs;
      simpl in R.
    + right. exists q. rewrite R. simpl.
      split; [ exact A | repeat split ]; [ exact Hs | ].
      intros e T.
      destruct A as (_ & _ & _ & _ & _ & _ & _ & Hn & _).
      destruct (truediv_float_int_raises _ _ _ T) as [[Hz _] | [_ Hk]];
        [ lia | exact Hk ].
    + left. rewrite R. reflexivity.
    + left. destruct (exn_class_eqb (exn_kind e) ValueError);
        rewrite R; reflexivity.
Qed.

(** X23. [start_measurement] checks before it configures: the
    controller is left exactly as it was (no command is sent) unless
    every field was read and passed the three checks; in that case what
    happened to the controller is one call of [setup_measurement] with
    the parsed values. *)
Theorem start_measurement_validates_first (g : gui) :
  let g' := snd (start_measurement str_split g) in
  smu_controller g' = smu_controller g
  \/ exists q,
       accepted str_split g q
       /\ smu_controller g'
          = snd (setup_measurement (req_start_v q) (req_stop_v q)
                   (req_current_limit q) (req_current_range q)
                   (smu_controller g)).
Proof.
  intros g'. subst g'.
  destruct (start_measurement_cases g)
    as [(title & message & R) | [(e & R & _) | (q & A & R)]].
  - left. rewrite R. reflexivity.
  - left. rewrite R. reflexivity.
  - right. exists q. split; [ exact A | ]. simpl in R.
    destruct (fst (setup_measurement (req_start_v q) (req_stop_v q)
                     (req_current_limit q) (req_current_range q)
                     (smu_controller g))) as [[ | ] | e].
    + rewrite R. reflexivity.
    + rewrite R. reflexivity.
    + destruct (exn_class_eqb (exn_kind e) ValueError);
        rewrite R; reflexivity.
Qed.

(** X24. How [start_measurement] ends. When it returns, either it has
    shown one error dialog as its only call, with the running flag and
    the data as before, or its newest call is the start of the thread.
    When an exception leaves it, this is not a [ValueError], and the
    user was shown nothing: no dialog, no change of a widget. *)
Theorem start_measurement_feedback (g : gui) :
  let r := fst (start_measurement str_split g) in
  let g' := snd (start_measurement str_split g) in
  match r with
  | Ok _ =>
      (exists title message,
          events g' = ShowError title message :: events g
          /\ running g' = running g
          /\ voltages g' = voltages g
          /\ currents g' = currents g
          /\ resistances g' = resistances g)
      \/ (exists start_v stop_v steps delay rest,
            events g' = ThreadStart start_v stop_v steps delay :: rest
            /\ launched rest = launched (events g)
            /\ running g' = true)
  | Err e =>
      is_value_error e = false
      /\ events g' = events g
      /\ running g' = running g
      /\ voltages g' = voltages g
      /\ currents g' = currents g
      /\ resistances g' = resistances g
  end.
Proof.
  intros r g'. subst r g'.
  destruct (start_measurement_cases g)
    as [(title & message & R) | [(e & R & K) | (q & A & R)]].
  - rewrite R. simpl. left. eexists _, _. repeat split.
  - rewrite R. simpl. repeat split. exact K.
  - simpl in R.
    destruct (setup_measurement (req_start_v q) (req_stop_v q)
                (req_current_limit q) (req_current_range q)
                (smu_controller g)) as [[[ | ] | e] w1] eqn:Hs;
      simpl in R.
    + rewrite R. simpl. right. eexists _, _, _, _, _. repeat split.
    + rewrite R. simpl. left. eexists _, _. repeat split.
    + destruct (exn_class_eqb (exn_kind e) ValueError) eqn:K;
        rewrite R; simpl.
      * left. eexists _, _. repeat split.
      * repeat split. exact K.
Qed.

(** X25. A range text other than ["Auto"] that [split()] cuts into
    fewer than two fields (a bare number, or ["auto"]) makes
    [start_measurement] raise [IndexError] once the four fields before
    it are read: its [except ValueError] does not catch it, no dialog is
    shown and no command is sent. *)
Theorem start_measurement_range_without_unit (g : gui)
    (start_v stop_v limit : float) (steps : Z) :
  instrument (smu_controller g) <> None ->
  py_float (start_voltage (entries g)) = Return start_v ->
  py_float (stop_voltage (entries g)) = Return stop_v ->
  py_int (num_steps (entries g)) = Return steps ->
  py_float (current_limit (entries g)) = Return limit ->
  current_range (entries g) <> "Auto" ->
  (List.length (str_split (current_range (entries g))) < 2)%nat ->
  start_measurement str_split g
  = (Err (IndexError "list index out of range"), g).
Proof.
  intros Hi E1 E2 E3 E4 Na Hl.
  unfold start_measurement, ubind at 1, get.
  destruct (instrument (smu_controller g)) as [inst | ];
    [ simpl | contradiction ].
  unfold utry_value_error.
  unfold ubind at 1, entry at 1. unfold ubind at 1, pure at 1. rewrite E1.
  unfold ubind at 1, entry at 1. unfold ubind at 1, pure at 1. rewrite E2.
  unfold ubind at 1, entry at 1. unfold ubind at 1, pure at 1. rewrite E3.
  unfold ubind at 1, entry at 1. unfold ubind at 1, pure at 1. rewrite E4.
  unfold ubind at 1, entry at 1. unfold ubind at 1.
  unfold parse_current_range.
  apply String.eqb_neq in Na. rewrite Na.
  unfold ubind at 1, item at 1.
  destruct (str_split (current_range (entries g))) as [ | a [ | b l]];
    simpl in Hl |- *; try reflexivity.
  lia.
Qed.

End StartMeasurement.

Section Window.

Context {rt : PyRuntime}.

Import interface_gui.

(** X26. [connect_to_instrument] of the window: its last call
    re-enables the Connect button on every path ([finally]). The Start
    button is enabled only when the controller then holds an
    instrument; when the address text is not read as an int, the
    controller is not called at all and the Start button is not
    enabled. *)
Theorem window_connect_enables_start (backends : Backends) (g : gui) :
  let g' := snd (interface_gui.connect_to_instrument backends g) in
  exists new,
    events g' = (ConfigState connect_button true :: new ++ events g)%list
    /\ (In (ConfigState start_button true) new ->
        instrument (smu_controller g') <> None)
    /\ (forall e,
          py_int (gpib_address (entries g)) = Raise e ->
          smu_controller g' = smu_controller g
          /\ ~ In (ConfigState start_button true) new).
Proof.
  intros g'. subst g'.
  set (r := interface_gui.connect_to_instrument backends g).
  assert (R : r = interface_gui.connect_to_instrument backends g)
    by reflexivity.
  clearbody r.
  unfold interface_gui.connect_to_instrument, ufinally, utry_value_error
    in R.
  unfold ubind at 1, entry at 1 in R. unfold ubind at 1, pure at 1 in R.
  destruct (py_int (gpib_address (entries g))) as [gpib_addr | e] eqn:E.
  - unfold ubind at 1, emit at 1 in R. unfold ubind at 1, emit at 1 in R.
    unfold ubind at 1, emit at 1 in R.
    unfold ubind at 1, controller at 1 in R.
    cbn [smu_controller events entries voltages currents resistances
         running] in R.
    destruct (connect_to_instrument_returns backends gpib_addr
                (smu_controller g)) as (flag & msg & w' & Hc & Hf).
    rewrite Hc in R. cbn [fst snd] in R.
    destruct flag; simpl in R; subst r; simpl.
    + eexists [_; _; _; _; _; _]. simpl. split; [ reflexivity | ].
      split; [ intros _; apply Hf; reflexivity | discriminate ].
    + eexists [_; _; _; _; _]. simpl. split; [ reflexivity | ].
      split; [ | discriminate ].
      intros [H | [H | [H | [H | [H | []]]]]]; discriminate H.
  - simpl in R.
    destruct (exn_class_eqb (exn_kind e) ValueError); simpl in R;
      subst r; simpl.
    + exists [ShowError "Input Error" config.ERR_GPIB_ADDRESS].
      split; [ reflexivity | ].
      split; [ intros [H | []]; discriminate H | ].
      intros _ _. split; [ reflexivity | ].
      intros [H | []]; discriminate H.
    + exists []. split; [ reflexivity | ].
      split; [ intros [] | ].
      intros _ _. split; [ reflexivity | intros [] ].
Qed.

End Window.

Section Closing.

(** The method of the controller, as distinct from the callback of the
    window that has its name. *)
Local Abbreviation controller_abort := abort_measurement (only parsing).

Import interface_gui.

Variable handle_close : list event -> option exn.
Variable user : User.

(** X27. [on_closing] ends in one of three ways. During a measurement
    the user declines: nothing but the question happened. During a
    measurement the user agrees but the controller's
    [abort_measurement] raises (its ["OUTP OFF"] is refused): the
    exception leaves [on_closing], the window is not destroyed, its
    running flag stays True, [close] was not called and the instrument
    is still held. Otherwise the window is destroyed as the last call,
    its running flag is False, and [close] has run just before on the
    controller as it was, or as [abort_measurement] left it; the window
    is destroyed whether [close] returned True or False. *)
Theorem on_closing_paths (g : gui) :
  let r := on_closing handle_close user g in
  let asked := AskOkCancel "Quit" config.CONFIRM_QUIT_MEASUREMENT in
  (running g = true
   /\ ok_cancel user (events g) = false
   /\ fst r = Ok tt
   /\ events (snd r) = asked false :: events g
   /\ smu_controller (snd r) = smu_controller g
   /\ running (snd r) = true)
  \/ (running g = true
      /\ ok_cancel user (events g) = true
      /\ exists e,
           fst (controller_abort (smu_controller g)) = Raise e
           /\ fst r = Err (Known e)
           /\ events (snd r) = asked true :: events g
           /\ running (snd r) = true
           /\ instrument (smu_controller (snd r))
              = instrument (smu_controller g))
  \/ (fst r = Ok tt
      /\ hd_error (events (snd r)) = Some RootDestroy
      /\ running (snd r) = false
      /\ exists b w0,
           (w0 = smu_controller g
            \/ w0 = snd (controller_abort (smu_controller g)))
           /\ close handle_close w0 = (Return b, smu_controller (snd r))).
Proof.
  intros r asked. subst asked.
  assert (R : r = on_closing handle_close user g) by reflexivity.
  clearbody r.
  unfold on_closing, ubind at 1, get in R.
  destruct (running g) eqn:Hr.
  - unfold ubind at 1 in R. unfold ubind at 1, askokcancel at 1 in R.
    destruct (ok_cancel user (events g)) eqn:Ha.
    + unfold ubind at 1 in R.
      unfold interface_gui.abort_measurement at 1, ubind at 1, get in R.
      cbn [running] in R. rewrite Hr in R.
      unfold ubind at 1, controller at 1, of_M in R.
      cbn [smu_controller events entries voltages currents resistances
           running] in R.
      pose proof (abort_measurement_world (smu_controller g)) as Hw.
      destruct (controller_abort (smu_controller g)) as [[[] | e] w1]
        eqn:Hab; cbn [fst snd] in R, Hw.
      * right. right.
        destruct (close_cases handle_close w1) as (b & w2 & Hc & _).
        assert (Hd : r = (Ok tt, snd r)
                     /\ hd_error (events (snd r)) = Some RootDestroy
                     /\ running (snd r) = false
                     /\ smu_controller (snd r) = w2).
        { subst r.
          unfold ubind, put_running, emit, get, uret, controller, of_M.
          simpl.
          destruct (0 <? List.length (voltages g))%nat; simpl;
            rewrite Hc; simpl; repeat split. }
        destruct Hd as (H1 & H2 & H3 & H4).
        split; [ rewrite H1; reflexivity | ].
        split; [ exact H2 | ]. split; [ exact H3 | ].
        exists b, w1. split; [ right; reflexivity | ].
        rewrite H4. exact Hc.
      * right. left. split; [ reflexivity | ]. split; [ reflexivity | ].
        exists e. subst r. simpl. repeat split.
        rewrite Hw.
        destruct (instrument (smu_controller g)) eqn:Hi; simpl; exact Hi.
    + left. subst r. simpl. repeat split. exact Hr.
  - right. right. simpl in R.
    unfold ubind at 1, uret at 1 in R.
    unfold ubind at 1, controller at 1, of_M in R.
    destruct (close_cases handle_close (smu_controller g))
      as (b & w2 & Hc & _).
    rewrite Hc in R. simpl in R. subst r. simpl.
    repeat split; try exact Hr.
    exists b, (smu_controller g).
    split; [ left; reflexivity | exact Hc ].
Qed.

End Closing.

Lemma save_data_to_csv_true (fs : FileSystem) (filename : string)
    (voltages currents resistances : list float)
    (header : option (list string)) :
  fst (save_data_to_csv fs filename voltages currents resistances header)
    = true ->
  snd (save_data_to_csv fs filename voltages currents resistances header)
    = Some (csv_content voltages currents resistances header).
Proof.
  unfold save_data_to_csv.
  destruct (fs_open fs filename); [ discriminate | ].
  destruct (write_rows fs filename []
              (csv_content voltages currents resistances header))
    as [[e | ] written] eqn:W; [ discriminate | ].
  destruct (write_rows_prefix _ _ _ _ _ _ W)
    as (done & rest & E & -> & Hn).
  rewrite (Hn eq_refl), app_nil_r in E. subst done.
  destruct (fs_close _ _ _); [ discriminate | ]. reflexivity.
Qed.

Lemma save_data_to_csv_prefix (fs : FileSystem) (filename : string)
    (voltages currents resistances : list float)
    (header : option (list string)) (written : list (list cell)) :
  snd (save_data_to_csv fs filename voltages currents resistances header)
    = Some written ->
  exists rest,
    csv_content voltages currents resistances header
    = (written ++ rest)%list.
Proof.
  unfold save_data_to_csv.
  destruct (fs_open fs filename); [ discriminate | ].
  destruct (write_rows fs filename []
              (csv_content voltages currents resistances header))
    as [o written'] eqn:W.
  destruct (write_rows_prefix _ _ _ _ _ _ W)
    as (done & rest & E & -> & _).
  assert (Hd : Some done = Some written ->
               exists r, csv_content voltages currents resistances header
                         = (written ++ r)%list).
  { intros H. injection H as <-. eauto. }
  destruct o; [ exact Hd | ].
  destruct (fs_close _ _ _); exact Hd.
Qed.

Section Saving.

Variable fs : FileSystem.
Variable user : interface_gui.User.

(** X28. [save_data] never raises and never calls the controller.
    Without data it shows the notice for no data and asks for no file
    name; when the dialog returns no name it does nothing more. With
    data and a name, [save_data_to_csv] runs once with [CSV_HEADER],
    and the success message is shown only when the file holds the
    header and every row; with the failure message the file holds at
    most a prefix of them. *)
Theorem save_data_paths (g : interface_gui.gui) :
  let r := interface_gui.save_data fs user g in
  let path := interface_gui.save_as_filename user (interface_gui.events g) in
  let full :=
    csv_content (interface_gui.voltages g) (interface_gui.currents g)
      (interface_gui.resistances g) (Some config.CSV_HEADER) in
  fst r = Ok tt
  /\ interface_gui.smu_controller (snd r) = interface_gui.smu_controller g
  /\ (interface_gui.voltages g = [] ->
      interface_gui.events (snd r)
      = interface_gui.ShowInfo "Info" config.ERR_NO_DATA
        :: interface_gui.events g)
  /\ (interface_gui.voltages g <> [] -> path = EmptyString ->
      interface_gui.events (snd r)
      = interface_gui.AskSaveAsFilename path :: interface_gui.events g)
  /\ (interface_gui.voltages g <> [] -> path <> EmptyString ->
      exists rows verdict,
        interface_gui.events (snd r)
        = verdict :: interface_gui.SaveCsv path rows
          :: interface_gui.AskSaveAsFilename path :: interface_gui.events g
        /\ ((verdict = interface_gui.ShowInfo "Success"
                         ("Data saved to " ++ path)
             /\ rows = Some full)
            \/ (verdict = interface_gui.ShowError "Error"
                            (config.ERR_SAVE_FAILED ++ path)
                /\ forall written,
                     rows = Some written ->
                     exists rest, full = (written ++ rest)%list))).
Proof.
  intros r path full.
  assert (R : r = interface_gui.save_data fs user g) by reflexivity.
  clearbody r.
  unfold interface_gui.save_data, interface_gui.ubind at 1,
    interface_gui.get in R.
  destruct (interface_gui.voltages g) as [ | v vs] eqn:Hv.
  - simpl in R. subst r. simpl.
    repeat split; try reflexivity; intros H; contradiction.
  - simpl in R.
    unfold interface_gui.ubind at 1, interface_gui.asksaveasfilename in R.
    fold path in R.
    destruct path as [ | c p] eqn:Hp.
    + subst r. simpl.
      repeat split; try reflexivity; try discriminate.
      intros _ H. contradiction.
    + unfold interface_gui.ubind at 1, interface_gui.emit at 1 in R.
      cbn [interface_gui.smu_controller interface_gui.events
           interface_gui.entries interface_gui.voltages
           interface_gui.currents interface_gui.resistances
           interface_gui.running] in R.
      pose proof (save_data_to_csv_true fs (String c p) (v :: vs)
                    (interface_gui.currents g) (interface_gui.resistances g)
                    (Some config.CSV_HEADER)) as Ht.
      pose proof (save_data_to_csv_prefix fs (String c p) (v :: vs)
                    (interface_gui.currents g) (interface_gui.resistances g)
                    (Some config.CSV_HEADER)) as Hx.
      destruct (save_data_to_csv fs (String c p) (v :: vs)
                  (interface_gui.currents g) (interface_gui.resistances g)
                  (Some config.CSV_HEADER)) as [[ | ] rows] eqn:Hs;
        simpl in R, Ht; subst r; simpl.
      * repeat split; try discriminate.
        intros _ _. eexists _, _. split; [ reflexivity | ].
        left. split; [ reflexivity | ]. apply Ht. reflexivity.
      * repeat split; try discriminate.
        intros _ _. eexists _, _. split; [ reflexivity | ].
        right. split; [ reflexivity | ]. exact Hx.
Qed.

End Saving.

(** ** The window on concrete inputs *)

(** Three steps and the automatic range on an instrument that accepts
    everything: the thread is started. *)
Lemma start_measurement_launch_guard_witness :
  exists q,
    interface_gui.accepted (rt := Demo.runtime) Desk.split
      (Desk.window (Demo.connected (Demo.steady "ok"))
         (Desk.form "3" "Auto")) q
    /\ interface_gui.req_steps q = 3
    /\ interface_gui.launched
         (interface_gui.events
            (snd (interface_gui.start_measurement (rt := Demo.runtime)
                    Desk.split
                    (Desk.window (Demo.connected (Demo.steady "ok"))
                       (Desk.form "3" "Auto")))))
       = [(interface_gui.req_start_v q, interface_gui.req_stop_v q,
           interface_gui.req_steps q, interface_gui.req_delay q)].
Proof.
  destruct (start_measurement_launch_guard (rt := Demo.runtime) Desk.split
              (Desk.window (Demo.connected (Demo.steady "ok"))
                 (Desk.form "3" "Auto")))
    as [H | (q & A & _ & _ & L & _)].
  - vm_compute in H. discriminate H.
  - exists q. split; [ exact A | ]. split; [ | exact L ].
    destruct A as (_ & _ & _ & A & _).
    vm_compute in A. injection A as A. symmetry. exact A.
Defined.

(** The range typed as ["auto"]. *)
Lemma start_measurement_range_without_unit_witness :
  interface_gui.start_measurement (rt := Demo.runtime) Desk.split
    (Desk.window (Demo.connected (Demo.steady "ok")) (Desk.form "3" "auto"))
  = (Err (IndexError "list index out of range"),
     Desk.window (Demo.connected (Demo.steady "ok")) (Desk.form "3" "auto")).
Proof.
  apply (start_measurement_range_without_unit (rt := Demo.runtime)
           Desk.split
           (Desk.window (Demo.connected (Demo.steady "ok"))
              (Desk.form "3" "auto"))
           PyFloat.zero PyFloat.one Demo.f0_1 3).
  - discriminate.
  - reflexivity.
  - reflexivity.
  - reflexivity.
  - reflexivity.
  - discriminate.
  - simpl. lia.
Defined.

(** Closing during a measurement on an instrument that refuses every
    command: the exception of the abort leaves [on_closing]. *)
Lemma on_closing_paths_witness :
  fst (interface_gui.on_closing (fun _ => None) (Desk.user true)
         (Desk.measuring (Demo.connected Demo.dead)))
  = Err (Known Demo.io_error).
Proof.
  destruct (on_closing_paths (fun _ => None) (Desk.user true)
              (Desk.measuring (Demo.connected Demo.dead)))
    as [(_ & H & _) | [(_ & _ & e & Ha & H & _) | (H & _)]].
  - discriminate H.
  - vm_compute in Ha. injection Ha as <-. exact H.
  - vm_compute in H. discriminate H.
Defined.
